(** * Travel-plan backend: destination gate, request normaliser, AI response
      validation, price sanity validator and plan orchestrator.

    The development is a shallow embedding of the JavaScript sources: the
    classes [DestinationVerification], [PriceValidation], [GeminiService]
    and [CurrencyService], the plan utilities ([estimateProcessingTime],
    [generateCacheKey], [calculateTripDuration], the date, budget and
    traveler validators, [sanitizeDestination]) and the travel controller
    ([generateTravelPlan], [processTravelPlan]).

    Conventions.
    - A JavaScript number is a [number]: a real, one of the two infinities,
      or NaN.  Arithmetic is exact on the finite part (no binary64 rounding)
      and follows IEEE 754 for the special values, so [0/0] is NaN and every
      comparison with NaN is false.  Zero carries no sign.  The outlier
      detector is embedded a second time on binary64 numbers, in the module
      [Binary64], for the facts that depend on rounding.
    - Strings are byte strings; [toLowerCase] and [trim] act on ASCII.
      [sanitizeDestination], whose regular expression matches the white
      space of Unicode, is embedded on UTF-16 code units instead.
    - Objects are records whose fields have the types of the Mongoose schema
      ([Number], [String], arrays); an optional property is an [option].
    - A function that can throw returns an [Except] value.
    - Services of the JavaScript host that the sources call but do not define
      (number formatting, [Date] parsing, [JSON.parse], the regular-expression
      engine, [JSON.stringify], MD5) are the fields of the class [Host].
    - The outcome of a network call (the AI completion, the exchange-rate
      lookup) is an argument of the function that awaits it.  Writes to the
      plan collection succeed; logging and metric counters are not part of
      the state. *)

From Stdlib Require Import Reals Lra Lia ZArith List String Ascii Bool.
From Stdlib Require Import DecimalString Permutation Sorted.
From Stdlib Require Floats.
Import ListNotations.

Set Implicit Arguments.
Set Warnings "-register-all".

(* ================================================================== *)
(** * Part I: the model *)
(* ================================================================== *)

(** ** Exceptions *)

Inductive Except (A : Type) : Type :=
| Ok (a : A)
| Throw (message : string).

Arguments Ok {A} a.
Arguments Throw {A} message.

Definition bind {A B : Type} (m : Except A) (k : A -> Except B) : Except B :=
  match m with
  | Ok a => k a
  | Throw e => Throw e
  end.

(** [try { body } catch (error) { handler(error.message) }] *)
Definition tryCatch {A : Type} (body : Except A) (handler : string -> Except A)
  : Except A :=
  match body with
  | Ok a => Ok a
  | Throw e => handler e
  end.

Declare Scope except_scope.
Delimit Scope except_scope with except.
Notation "x <- m ;; k" := (bind m (fun x => k))
  (at level 61, m at next level, right associativity) : except_scope.
Notation "m ;;; k" := (bind m (fun _ => k))
  (at level 61, right associativity) : except_scope.

(** ** JavaScript numbers *)

Module Num.

Inductive number : Type :=
| Fin (x : R)
| PosInf
| NegInf
| NaN.

Definition Rltb (x y : R) : bool := if Rlt_dec x y then true else false.
Definition Reqb (x y : R) : bool := if Req_dec_T x y then true else false.

Definition ofZ (z : Z) : number := Fin (IZR z).
Definition ofNat (n : nat) : number := Fin (INR n).

Definition signed (negative : bool) : number :=
  if negative then NegInf else PosInf.

Definition isNegative (a : number) : bool :=
  match a with
  | Fin x => Rltb x 0
  | NegInf => true
  | PosInf | NaN => false
  end.

Definition isZero (a : number) : bool :=
  match a with
  | Fin x => Reqb x 0
  | _ => false
  end.

Definition neg (a : number) : number :=
  match a with
  | Fin x => Fin (- x)
  | PosInf => NegInf
  | NegInf => PosInf
  | NaN => NaN
  end.

Definition add (a b : number) : number :=
  match a, b with
  | NaN, _ | _, NaN => NaN
  | Fin x, Fin y => Fin (x + y)
  | PosInf, NegInf | NegInf, PosInf => NaN
  | PosInf, _ | _, PosInf => PosInf
  | NegInf, _ | _, NegInf => NegInf
  end.

Definition sub (a b : number) : number := add a (neg b).

Definition mul (a b : number) : number :=
  match a, b with
  | NaN, _ | _, NaN => NaN
  | Fin x, Fin y => Fin (x * y)
  | _, _ =>
      if isZero a || isZero b then NaN
      else signed (xorb (isNegative a) (isNegative b))
  end.

Definition div (a b : number) : number :=
  match a, b with
  | NaN, _ | _, NaN => NaN
  | Fin x, Fin y =>
      if Reqb y 0
      then (if Reqb x 0 then NaN else signed (Rltb x 0))
      else Fin (x / y)
  | Fin _, _ => Fin 0
  | _, Fin y => signed (xorb (isNegative a) (Rltb y 0))
  | _, _ => NaN
  end.

(** [a < b]; false as soon as one side is NaN. *)
Definition ltb (a b : number) : bool :=
  match a, b with
  | NaN, _ | _, NaN => false
  | Fin x, Fin y => Rltb x y
  | NegInf, NegInf | PosInf, _ | _, NegInf => false
  | NegInf, _ | _, PosInf => true
  end.

Definition gtb (a b : number) : bool := ltb b a.

(** [a === b] on numbers. *)
Definition eqb (a b : number) : bool :=
  match a, b with
  | Fin x, Fin y => Reqb x y
  | PosInf, PosInf | NegInf, NegInf => true
  | _, _ => false
  end.

(** Truthiness: [0] and [NaN] are falsy. *)
Definition truthy (a : number) : bool :=
  match a with
  | Fin x => negb (Reqb x 0)
  | PosInf | NegInf => true
  | NaN => false
  end.

(** [a || d] for an optional numeric property. *)
Definition orElse (a : option number) (d : number) : number :=
  match a with
  | Some x => if truthy x then x else d
  | None => d
  end.

Definition abs (a : number) : number :=
  match a with
  | Fin x => Fin (Rabs x)
  | PosInf | NegInf => PosInf
  | NaN => NaN
  end.

Definition sqrt (a : number) : number :=
  match a with
  | Fin x => if Rltb x 0 then NaN else Fin (R_sqrt.sqrt x)
  | PosInf => PosInf
  | NegInf | NaN => NaN
  end.

(** [Math.pow(a, n)] for a natural exponent. *)
Fixpoint pow (a : number) (n : nat) : number :=
  match n with
  | O => Fin 1
  | S k => mul a (pow a k)
  end.

(** [Math.min(a, b)] *)
Definition min (a b : number) : number :=
  match a, b with
  | NaN, _ | _, NaN => NaN
  | _, _ => if ltb b a then b else a
  end.

(** [Math.ceil] *)
Definition ceil (a : number) : number :=
  match a with
  | Fin x => Fin (IZR (Zceil x))
  | _ => a
  end.

(** [Math.round]: the nearest integer, ties towards plus infinity. *)
Definition round (a : number) : number :=
  match a with
  | Fin x => Fin (IZR (Zfloor (x + / 2)))
  | _ => a
  end.

(** [a <= b]; false as soon as one side is NaN. *)
Definition leb (a b : number) : bool :=
  match a, b with
  | NaN, _ | _, NaN => false
  | _, _ => negb (ltb b a)
  end.

(** [Number.isInteger(a)] *)
Definition isInteger (a : number) : bool :=
  match a with
  | Fin x => Reqb (IZR (Zfloor x)) x
  | _ => false
  end.

End Num.

Export Num.

Declare Scope num_scope.
Delimit Scope num_scope with num.
Infix "+" := Num.add : num_scope.
Infix "-" := Num.sub : num_scope.
Infix "*" := Num.mul : num_scope.
Infix "/" := Num.div : num_scope.
Infix "<?" := Num.ltb : num_scope.
Infix ">?" := Num.gtb (at level 70) : num_scope.

Arguments Num.Fin x%_R.

(** ** Strings *)

Module Str.

Open Scope string_scope.

Definition lowerAscii (c : ascii) : ascii :=
  let n := nat_of_ascii c in
  if (65 <=? n)%nat && (n <=? 90)%nat then ascii_of_nat (n + 32) else c.

(** [s.toLowerCase()] *)
Fixpoint toLowerCase (s : string) : string :=
  match s with
  | EmptyString => EmptyString
  | String c t => String (lowerAscii c) (toLowerCase t)
  end.

Definition isSpace (c : ascii) : bool :=
  let n := nat_of_ascii c in
  (n =? 32)%nat || ((9 <=? n)%nat && (n <=? 13)%nat).

Fixpoint trimStart (s : string) : string :=
  match s with
  | EmptyString => EmptyString
  | String c t => if isSpace c then trimStart t else s
  end.

Definition reverse (s : string) : string :=
  string_of_list_ascii (rev (list_ascii_of_string s)).

Definition trimEnd (s : string) : string := reverse (trimStart (reverse s)).

(** [s.trim()] *)
Definition trim (s : string) : string := trimEnd (trimStart s).

(** [s.includes(sub)] *)
Fixpoint includes (s sub : string) : bool :=
  String.prefix sub s ||
  match s with
  | EmptyString => false
  | String _ t => includes t sub
  end.

(** [parts.join(sep)] *)
Fixpoint join (sep : string) (parts : list string) : string :=
  match parts with
  | [] => ""
  | [p] => p
  | p :: rest => p ++ sep ++ join sep rest
  end.

(** Decimal rendering of a natural number, as in a template literal. *)
Definition ofNat (n : nat) : string := NilEmpty.string_of_uint (Nat.to_uint n).

(** [list.includes(s)] on an array of strings. *)
Definition mem (s : string) (l : list string) : bool :=
  existsb (String.eqb s) l.

(** Own-property lookup in an object literal used as a table. *)
Fixpoint lookup {V : Type} (k : string) (table : list (string * V))
  : option V :=
  match table with
  | [] => None
  | (k', v) :: rest => if String.eqb k k' then Some v else lookup k rest
  end.

(** [Object.keys(table)] *)
Definition keys {V : Type} (table : list (string * V)) : list string :=
  map fst table.

(** The property names that every object literal inherits from
    [Object.prototype].  Reading one of them from a table that does not
    define it gives a function (for [__proto__], the prototype object): a
    truthy value that is neither a number nor an entry of the table. *)
Definition inheritedKeys : list string :=
  [ "constructor"; "__defineGetter__"; "__defineSetter__"; "hasOwnProperty";
    "__lookupGetter__"; "__lookupSetter__"; "isPrototypeOf";
    "propertyIsEnumerable"; "toString"; "valueOf"; "__proto__";
    "toLocaleString" ]%list.

End Str.

(** ** Destination safety gate (class [DestinationVerification]) *)

Module Destination.

Open Scope string_scope.
Open Scope list_scope.

Record DestinationInfo : Type := {
  safe : bool;
  infoVisaRequired : bool;
  infoWarnings : list string
}.

Record CityInfo : Type := {
  cityCountry : string;
  airport : string;
  timezone : string
}.

Definition okFree : DestinationInfo :=
  {| safe := true; infoVisaRequired := false; infoWarnings := [] |}.
Definition okVisa : DestinationInfo :=
  {| safe := true; infoVisaRequired := true; infoWarnings := [] |}.
Definition okFreeWarn (w : string) : DestinationInfo :=
  {| safe := true; infoVisaRequired := false; infoWarnings := [w] |}.
Definition okVisaWarn (w : string) : DestinationInfo :=
  {| safe := true; infoVisaRequired := true; infoWarnings := [w] |}.
Definition advisory (w : string) : DestinationInfo :=
  {| safe := false; infoVisaRequired := true; infoWarnings := [w] |}.

(** [this.safeDestinations], in declaration order. *)
Definition safeDestinations : list (string * DestinationInfo) :=
  [ ("Austria", okFree); ("Belgium", okFree); ("Bulgaria", okFree);
    ("Croatia", okFree); ("Cyprus", okFree); ("Czech Republic", okFree);
    ("Denmark", okFree); ("Estonia", okFree); ("Finland", okFree);
    ("France", okFree); ("Germany", okFree); ("Greece", okFree);
    ("Hungary", okFree); ("Ireland", okFree); ("Italy", okFree);
    ("Latvia", okFree); ("Lithuania", okFree); ("Luxembourg", okFree);
    ("Malta", okFree); ("Netherlands", okFree); ("Poland", okFree);
    ("Portugal", okFree); ("Romania", okFree); ("Slovakia", okFree);
    ("Slovenia", okFree); ("Spain", okFree); ("Sweden", okFree);
    ("Turkey", okFree); ("United Kingdom", okFree); ("Norway", okFree);
    ("Switzerland", okFree); ("Iceland", okFree); ("Canada", okVisa);
    ("United States", okVisa); ("Australia", okVisa);
    ("New Zealand", okVisa); ("Japan", okFree); ("South Korea", okFree);
    ("Singapore", okFree); ("Malaysia", okFree); ("Thailand", okFree);
    ("Indonesia", okVisa); ("Vietnam", okVisa); ("Philippines", okFree);
    ("India", okVisa); ("Nepal", okVisa); ("Sri Lanka", okVisa);
    ("Maldives", okFree); ("United Arab Emirates", okFree);
    ("Qatar", okFree); ("Oman", okVisa); ("Jordan", okVisa);
    ("Israel", okFreeWarn "Check latest security situation");
    ("Morocco", okFree);
    ("Egypt", okVisaWarn "Check latest security situation");
    ("South Africa", okFreeWarn "Take precautions in certain areas");
    ("Kenya", okVisa); ("Tanzania", okVisa);
    ("Brazil", okFreeWarn "Take precautions in certain areas");
    ("Argentina", okFree); ("Chile", okFree); ("Peru", okFree);
    ("Mexico", okFreeWarn "Check latest security situation");
    ("Costa Rica", okFree); ("Panama", okFree) ].

(** [this.advisoryDestinations], in declaration order. *)
Definition advisoryDestinations : list (string * DestinationInfo) :=
  [ ("Afghanistan", advisory "Do not travel - extreme security risk");
    ("Iraq", advisory "Do not travel - extreme security risk");
    ("Syria", advisory "Do not travel - active conflict");
    ("Yemen", advisory "Do not travel - active conflict");
    ("Somalia", advisory "Do not travel - extreme security risk");
    ("Libya", advisory "Do not travel - active conflict");
    ("Mali", advisory "Do not travel - security threats");
    ("Burkina Faso", advisory "Reconsider travel - security threats");
    ("Chad", advisory "Reconsider travel - security threats");
    ("Central African Republic", advisory "Do not travel - active conflict");
    ("South Sudan", advisory "Do not travel - active conflict");
    ("Democratic Republic of Congo",
      advisory "Reconsider travel - security threats");
    ("Venezuela", advisory "Reconsider travel - political instability");
    ("Myanmar", advisory "Reconsider travel - political instability");
    ("Belarus", advisory "Reconsider travel - political situation");
    ("North Korea", advisory "Do not travel - extreme restrictions");
    ("Iran", advisory "Reconsider travel - security risks");
    ("Russia", advisory "Reconsider travel - current situation");
    ("Ukraine", advisory "Do not travel - active conflict") ].

Definition city (c a tz : string) : CityInfo :=
  {| cityCountry := c; airport := a; timezone := tz |}.

(** [this.cityInfo], in declaration order. *)
Definition cityInfo : list (string * CityInfo) :=
  [ ("Istanbul", city "Turkey" "IST" "+03:00");
    ("Ankara", city "Turkey" "ESB" "+03:00");
    ("Antalya", city "Turkey" "AYT" "+03:00");
    ("Paris", city "France" "CDG" "+01:00");
    ("London", city "United Kingdom" "LHR" "+00:00");
    ("Rome", city "Italy" "FCO" "+01:00");
    ("Barcelona", city "Spain" "BCN" "+01:00");
    ("Amsterdam", city "Netherlands" "AMS" "+01:00");
    ("Berlin", city "Germany" "BER" "+01:00");
    ("Vienna", city "Austria" "VIE" "+01:00");
    ("Prague", city "Czech Republic" "PRG" "+01:00");
    ("Budapest", city "Hungary" "BUD" "+01:00");
    ("Warsaw", city "Poland" "WAW" "+01:00");
    ("Stockholm", city "Sweden" "ARN" "+01:00");
    ("Copenhagen", city "Denmark" "CPH" "+01:00");
    ("Oslo", city "Norway" "OSL" "+01:00");
    ("Helsinki", city "Finland" "HEL" "+02:00");
    ("Zurich", city "Switzerland" "ZUR" "+01:00");
    ("Bangkok", city "Thailand" "BKK" "+07:00");
    ("Tokyo", city "Japan" "NRT" "+09:00");
    ("Seoul", city "South Korea" "ICN" "+09:00");
    ("Singapore", city "Singapore" "SIN" "+08:00");
    ("Dubai", city "United Arab Emirates" "DXB" "+04:00");
    ("New York", city "United States" "JFK" "-05:00");
    ("Los Angeles", city "United States" "LAX" "-08:00");
    ("Toronto", city "Canada" "YYZ" "-05:00");
    ("Sydney", city "Australia" "SYD" "+11:00");
    ("Melbourne", city "Australia" "MEL" "+11:00") ].

Record LocationInfo : Type := {
  locCity : option string;
  locCountry : string;
  isCity : bool
}.

Definition countryOnly (c : string) : LocationInfo :=
  {| locCity := None; locCountry := c; isCity := false |}.

(** The first city of [cityInfo] whose lowercased name occurs in [cleaned]. *)
Fixpoint findCity (cleaned : string) (cities : list (string * CityInfo))
  : option LocationInfo :=
  match cities with
  | [] => None
  | (name, info) :: rest =>
      if Str.includes cleaned (Str.toLowerCase name)
      then Some {| locCity := Some name; locCountry := cityCountry info;
                   isCity := true |}
      else findCity cleaned rest
  end.

(** The first country key whose lowercased name occurs in [cleaned]. *)
Fixpoint findCountry (cleaned : string) (countryKeys : list string)
  : option LocationInfo :=
  match countryKeys with
  | [] => None
  | c :: rest =>
      if Str.includes cleaned (Str.toLowerCase c)
      then Some (countryOnly c)
      else findCountry cleaned rest
  end.

Definition parseDestination (destination : string) : LocationInfo :=
  let cleaned := Str.toLowerCase (Str.trim destination) in
  match findCity cleaned cityInfo with
  | Some loc => loc
  | None =>
      let countryKeys :=
        Str.keys safeDestinations ++ Str.keys advisoryDestinations in
      match findCountry cleaned countryKeys with
      | Some loc => loc
      | None =>
          if Str.includes cleaned "turkey" || Str.includes cleaned "tÃ¼rkiye"
          then countryOnly "Turkey"
          else if Str.includes cleaned "thailand" then countryOnly "Thailand"
          else if Str.includes cleaned "france" then countryOnly "France"
          else if Str.includes cleaned "italy" then countryOnly "Italy"
          else if Str.includes cleaned "spain" then countryOnly "Spain"
          else if Str.includes cleaned "germany" then countryOnly "Germany"
          else countryOnly "Unknown"
      end
  end.

Record Accessibility : Type := {
  hasAirport : bool;
  transportOptions : list string;
  visaFree : bool
}.

Record Verdict : Type := {
  isAccessible : bool;
  isSafe : bool;
  country : string;
  visaRequired : bool;
  warnings : list string;
  recommendations : list string;
  travelAdvisory : option string;
  accessibility : Accessibility
}.

Definition visaFreeForTurks : list string :=
  [ "Turkey"; "Albania"; "Bosnia and Herzegovina"; "Montenegro"; "Serbia";
    "North Macedonia"; "Moldova"; "Ukraine"; "Georgia"; "Azerbaijan";
    "Kazakhstan"; "Kyrgyzstan"; "Uzbekistan"; "Tajikistan"; "Qatar";
    "Malaysia"; "Thailand"; "Philippines"; "Indonesia"; "Singapore";
    "South Korea"; "Japan"; "Hong Kong"; "Macao"; "Morocco"; "Tunisia";
    "South Africa"; "Brazil"; "Argentina"; "Chile"; "Peru"; "Colombia";
    "Ecuador"; "Bolivia"; "Paraguay"; "Uruguay" ].

Definition eVisaCountries : list string :=
  [ "United States"; "Canada"; "Australia"; "India"; "Vietnam";
    "Egypt"; "Kenya"; "Tanzania"; "Ethiopia"; "Madagascar";
    "Cambodia"; "Laos"; "Myanmar"; "Sri Lanka"; "Bangladesh" ].

Definition schengenCountries : list string :=
  [ "Austria"; "Belgium"; "Czech Republic"; "Denmark"; "Estonia";
    "Finland"; "France"; "Germany"; "Greece"; "Hungary"; "Iceland";
    "Italy"; "Latvia"; "Lithuania"; "Luxembourg"; "Malta";
    "Netherlands"; "Norway"; "Poland"; "Portugal"; "Slovakia";
    "Slovenia"; "Spain"; "Sweden"; "Switzerland" ].

Definition pushRecommendations (v : Verdict) (recs : list string) : Verdict :=
  {| isAccessible := isAccessible v; isSafe := isSafe v; country := country v;
     visaRequired := visaRequired v; warnings := warnings v;
     recommendations := recommendations v ++ recs;
     travelAdvisory := travelAdvisory v; accessibility := accessibility v |}.

Definition markVisaFree (v : Verdict) : Verdict :=
  {| isAccessible := isAccessible v; isSafe := isSafe v; country := country v;
     visaRequired := false; warnings := warnings v;
     recommendations := recommendations v;
     travelAdvisory := travelAdvisory v;
     accessibility :=
       {| hasAirport := hasAirport (accessibility v);
          transportOptions := transportOptions (accessibility v);
          visaFree := true |} |}.

Definition when (b : bool) (recs : list string) : list string :=
  if b then recs else [].

Definition addTurkishTravelerRecommendations (result : Verdict) (c : string)
  : Verdict :=
  let r1 :=
    if Str.mem c visaFreeForTurks
    then pushRecommendations (markVisaFree result)
           ["Visa-free travel for Turkish passport holders"]
    else if Str.mem c eVisaCountries
    then pushRecommendations result
           ["E-visa available for Turkish passport holders"]
    else if Str.mem c schengenCountries
    then pushRecommendations result
           ["Schengen visa required - can visit multiple EU countries"]
    else result in
  pushRecommendations r1
    (when (String.eqb c "United States")
       ["ESTA or B1/B2 visa required"; "Interview may be required for visa"]
     ++ when (String.eqb c "United Kingdom")
       ["UK visa required for Turkish passport holders"]
     ++ when (String.eqb c "Canada") ["eTA or visitor visa required"]
     ++ when (String.eqb c "Australia") ["ETA or visitor visa required"]
     ++ when (Str.mem c schengenCountries)
       ["Apply for Schengen visa at consulate";
        "Travel insurance required for Schengen visa"]).

Definition knownCity (loc : LocationInfo) : option CityInfo :=
  match locCity loc with
  | Some name => Str.lookup name cityInfo
  | None => None
  end.

Definition checkAccessibility (loc : LocationInfo) (a : Accessibility)
  : Accessibility :=
  let airportPart :=
    match knownCity loc with
    | Some _ => (true, ["International airport available"])
    | None => (hasAirport a, [])
    end in
  let c := locCountry loc in
  let countryPart :=
    if String.eqb c "Turkey" then ["Domestic flights"; "Bus"; "Car rental"]
    else if Str.mem c ["France"; "Germany"; "Italy"; "Spain"]
    then ["High-speed rail"; "Regional flights"; "Car rental"]
    else if Str.mem c ["Thailand"; "Malaysia"; "Singapore"]
    then ["Regional flights"; "Bus"; "Ferry"]
    else [] in
  {| hasAirport := fst airportPart;
     transportOptions := transportOptions a ++ snd airportPart ++ countryPart;
     visaFree := visaFree a |}.

(** The verdict after the advisory / safe / unknown branch. *)
Definition classify (c : string) : Verdict :=
  let noAccess :=
    {| hasAirport := false; transportOptions := []; visaFree := false |} in
  match Str.lookup c advisoryDestinations with
  | Some info =>
      {| isAccessible := safe info; isSafe := safe info; country := c;
         visaRequired := infoVisaRequired info; warnings := infoWarnings info;
         recommendations := [];
         travelAdvisory :=
           Some (if safe info then "caution" else "do-not-travel");
         accessibility := noAccess |}
  | None =>
      match Str.lookup c safeDestinations with
      | Some info =>
          {| isAccessible := true; isSafe := safe info; country := c;
             visaRequired := infoVisaRequired info;
             warnings := infoWarnings info;
             recommendations := []; travelAdvisory := None;
             accessibility :=
               {| hasAirport := false; transportOptions := [];
                  visaFree := negb (infoVisaRequired info) |} |}
      | None =>
          {| isAccessible := true; isSafe := true; country := c;
             visaRequired := true;
             warnings :=
               ["Limited information available for this destination"];
             recommendations := ["Please verify current travel conditions"];
             travelAdvisory := None; accessibility := noAccess |}
      end
  end.

(** The city-specific step: airport flag, transport option, airport tip. *)
Definition addCityInfo (loc : LocationInfo) (v : Verdict) : Verdict :=
  match knownCity loc with
  | Some cityData =>
      {| isAccessible := isAccessible v; isSafe := isSafe v;
         country := country v; visaRequired := visaRequired v;
         warnings := warnings v;
         recommendations :=
           recommendations v ++
           when (negb (String.eqb (airport cityData) ""))
             [("Main airport: " ++ airport cityData)%string];
         travelAdvisory := travelAdvisory v;
         accessibility :=
           {| hasAirport := true;
              transportOptions :=
                transportOptions (accessibility v) ++ ["Air travel available"];
              visaFree := visaFree (accessibility v) |} |}
  | None => v
  end.

Definition setAccessibility (v : Verdict) (a : Accessibility) : Verdict :=
  {| isAccessible := isAccessible v; isSafe := isSafe v; country := country v;
     visaRequired := visaRequired v; warnings := warnings v;
     recommendations := recommendations v;
     travelAdvisory := travelAdvisory v; accessibility := a |}.

(** [verifyDestination].  On a string argument no step of the [try] block
    throws, so the [catch] branch of the source is not reachable here. *)
Definition verifyDestination (destination : string) : Verdict :=
  let locationInfo := parseDestination destination in
  let r1 := classify (locCountry locationInfo) in
  let r2 := addCityInfo locationInfo r1 in
  let r3 := addTurkishTravelerRecommendations r2 (locCountry locationInfo) in
  setAccessibility r3 (checkAccessibility locationInfo (accessibility r3)).

Record Alternative : Type := {
  altDestination : string;
  altReason : string;
  altAccessibility : DestinationInfo
}.

Definition getSafeAlternatives (originalDestination : string)
  : list Alternative :=
  let c := locCountry (parseDestination originalDestination) in
  let alternatives :=
    match Str.lookup c advisoryDestinations with
    | Some _ =>
        if String.eqb c "Syria" then ["Jordan"; "Turkey"; "Cyprus"]
        else if String.eqb c "Iraq"
        then ["Jordan"; "Oman"; "United Arab Emirates"]
        else if String.eqb c "Afghanistan"
        then ["Uzbekistan"; "Kazakhstan"; "Kyrgyzstan"]
        else if String.eqb c "Venezuela"
        then ["Colombia"; "Peru"; "Costa Rica"]
        else if String.eqb c "Myanmar"
        then ["Thailand"; "Vietnam"; "Malaysia"]
        else []
    | None => []
    end in
  map (fun a =>
         {| altDestination := a;
            altReason := "Safe alternative in the region";
            altAccessibility :=
              match Str.lookup a safeDestinations with
              | Some info => info
              | None => okVisa
              end |})
      alternatives.

(** [required] is [None] when the source leaves it [undefined]. *)
Record VisaRequirements : Type := {
  required : option bool;
  visaType : string;
  processingTime : string;
  requirements : list string
}.

(** [this.safeDestinations[country] || this.advisoryDestinations[country]] *)
Definition countryInfo (c : string) : option DestinationInfo :=
  match Str.lookup c safeDestinations with
  | Some info => Some info
  | None => Str.lookup c advisoryDestinations
  end.

(** [getVisaRequirements].  For an inherited property name [info] is a
    function, whose [visaRequired] is [undefined]. *)
Definition getVisaRequirements (c : string) : VisaRequirements :=
  if Str.mem c Str.inheritedKeys
  then {| required := None; visaType := "visa-free";
          processingTime := "not required"; requirements := [] |}
  else
  match countryInfo c with
  | None =>
      {| required := Some true; visaType := "unknown";
         processingTime := "unknown";
         requirements := ["Please check with consulate"] |}
  | Some info =>
      {| required := Some (infoVisaRequired info);
         visaType :=
           if infoVisaRequired info then "tourist-visa" else "visa-free";
         processingTime :=
           if infoVisaRequired info then "5-15 business days"
           else "not required";
         requirements :=
           if infoVisaRequired info
           then [ "Valid passport (6+ months)";
                  "Completed visa application";
                  "Recent passport photos";
                  "Travel itinerary";
                  "Proof of accommodation";
                  "Financial proof";
                  "Travel insurance (for some countries)" ]
           else [] |}
  end.

Record Recommendation : Type := {
  recommended : bool;
  recommendationReason : string;
  confidence : string
}.

Definition isDestinationRecommended (destination : string) : Recommendation :=
  let c := locCountry (parseDestination destination) in
  match Str.lookup c advisoryDestinations with
  | Some advisoryInfo =>
      {| recommended := false;
         recommendationReason :=
           match infoWarnings advisoryInfo with
           | w :: _ => if String.eqb w "" then "Travel advisory in effect" else w
           | [] => "Travel advisory in effect"
           end;
         confidence := "high" |}
  | None =>
      match Str.lookup c safeDestinations with
      | Some _ =>
          {| recommended := true;
             recommendationReason := "Safe destination for travelers";
             confidence := "high" |}
      | None =>
          {| recommended := true;
             recommendationReason := "Limited information available";
             confidence := "low" |}
      end
  end.

End Destination.

(** ** Data shared by the components *)

(** A value produced by [JSON.parse].  The field list of an object holds its
    own properties, one entry per key. *)
Inductive json : Type :=
| JNull
| JBool (b : bool)
| JNumber (x : number)
| JString (s : string)
| JArray (items : list json)
| JObject (fields : list (string * json)).

Record Preferences : Type := {
  travelStyle : option string;
  interests : option (list string)
}.

(** The plan request built by the controller: the request body extended with
    the authenticated user's id and language. *)
Record PlanRequest : Type := {
  destination : string;
  startDate : string;
  endDate : string;
  budget : number;
  currency : string;
  travelers : option number;
  preferences : option Preferences;
  userId : string;
  language : string
}.

(** The object handed to [JSON.stringify] in [generateCacheKey]. *)
Record KeyData : Type := {
  keyDestination : string;
  keyStartDate : string;
  keyEndDate : string;
  keyBudget : number;
  keyCurrency : string;
  keyTravelers : option number;
  keyTravelStyle : string;
  keyInterests : string
}.

(** ** Services of the JavaScript host *)

Class Host : Type := {
  (** [String(x)], the rendering of a number inside a template literal *)
  Number_toString : number -> string;
  (** [x.toFixed(digits)] *)
  Number_toFixed : number -> nat -> string;
  (** [new Date(s).getTime()], NaN for an invalid date *)
  Date_getTime : string -> number;
  (** [JSON.parse(s)], which throws a [SyntaxError] on malformed text *)
  JSON_parse : string -> Except json;
  (** [s.match(/```json\s*([\s\S]*?)\s*```/)]: the whole match and group 1 *)
  match_fenced_json : string -> option (string * string);
  (** [s.match(/\{[\s\S]*\}/)]: the whole match *)
  match_braces : string -> option string;
  (** [JSON.stringify(keyData)] *)
  JSON_stringify : KeyData -> string;
  (** [crypto.createHash('md5').update(s).digest('hex')] *)
  md5_hex : string -> string
}.

(** ** Plan utilities *)

Module PlanUtils.

Open Scope string_scope.
Open Scope list_scope.

(** [calculateTripDuration]; [GeminiService.calculateDuration] and
    [PriceValidation.calculateDuration] have the same body. *)
Definition calculateTripDuration {host : Host} (startDate endDate : string)
  : number :=
  let diffTime := Num.abs (Date_getTime endDate - Date_getTime startDate)%num in
  Num.ceil (diffTime / Fin (1000 * 60 * 60 * 24))%num.

Definition complexDestinations : list string :=
  ["asia"; "africa"; "multiple"; "tour"].

Definition isComplex (destination : string) : bool :=
  existsb (fun keyword => Str.includes (Str.toLowerCase destination) keyword)
          complexDestinations.

Definition estimateProcessingTime (destination : string)
  (duration travelers : number) : number :=
  let s0 := Fin 10 in
  let s1 := (s0 + Num.min (duration * Fin 2) (Fin 20))%num in
  let s2 := (s1 + Num.min (travelers * Fin 2) (Fin 10))%num in
  let s3 := if isComplex destination then (s2 + Fin 10)%num else s2 in
  Num.min s3 (Fin 45).

(** [a.sort()] on strings: ascending in the order of the code units. *)
Fixpoint insertSorted (s : string) (l : list string) : list string :=
  match l with
  | [] => [s]
  | h :: t => if String.leb s h then s :: l else h :: insertSorted s t
  end.

Definition sort (l : list string) : list string :=
  fold_right insertSorted [] l.

(** [s || d] on an optional string: the empty string is falsy. *)
Definition strOrElse (s : option string) (d : string) : string :=
  match s with
  | Some x => if String.eqb x "" then d else x
  | None => d
  end.

(** [preferences?.travelStyle || 'mid-range'] *)
Definition keyStyle (planRequest : PlanRequest) : string :=
  strOrElse (match preferences planRequest with
             | Some p => travelStyle p
             | None => None
             end) "mid-range".

(** [preferences?.interests?.sort().join(',') || ''] *)
Definition keyInterestList (planRequest : PlanRequest) : string :=
  strOrElse (match preferences planRequest with
             | Some p => option_map (fun i => Str.join "," (sort i))
                                    (interests p)
             | None => None
             end) "".

Definition keyData (planRequest : PlanRequest) : KeyData :=
  {| keyDestination := Str.trim (Str.toLowerCase (destination planRequest));
     keyStartDate := startDate planRequest;
     keyEndDate := endDate planRequest;
     keyBudget :=
       (Num.round (budget planRequest / Fin 100) * Fin 100)%num;
     keyCurrency := currency planRequest;
     keyTravelers := travelers planRequest;
     keyTravelStyle := keyStyle planRequest;
     keyInterests := keyInterestList planRequest |}.

Definition generateCacheKey {host : Host} (planRequest : PlanRequest)
  : string :=
  let keyString := JSON_stringify (keyData planRequest) in
  md5_hex keyString.

(** [validateDateRange].  [today] is the time value of the local midnight
    that the function derives from the clock; [Date] objects are compared
    by their time values. *)
Definition validateDateRange {host : Host} (today : number)
  (startDate endDate : string) : list string :=
  let start := Date_getTime startDate in
  let finish := Date_getTime endDate in
  let duration := calculateTripDuration startDate endDate in
  (if (start <? today)%num then ["Start date cannot be in the past"] else [])
  ++ (if Num.leb finish start
      then ["End date must be after start date"] else [])
  ++ (if (duration >? Fin 365)%num
      then ["Trip duration cannot exceed 365 days"] else [])
  ++ (if (duration <? Fin 1)%num
      then ["Trip must be at least 1 day"] else []).

Definition calculateBudgetPerDay (totalBudget duration : number) : number :=
  Num.round (totalBudget / duration)%num.

(** [sanitizeDestination].  Its regular expression and [trim] know the
    white space of Unicode, so the function is embedded on the UTF-16 code
    units of its argument, a list of numbers below 65536. *)

(** The code units that [\s] matches and [trim] removes: the white space and
    the line terminators of ECMAScript. *)
Definition isWhiteSpace (c : N) : bool :=
  ((9 <=? c) && (c <=? 13) || (c =? 32) || (c =? 160) || (c =? 5760)
   || (8192 <=? c) && (c <=? 8202) || (c =? 8232) || (c =? 8233)
   || (c =? 8239) || (c =? 8287) || (c =? 12288) || (c =? 65279))%N.

Fixpoint trimStartUnits (s : list N) : list N :=
  match s with
  | [] => []
  | c :: t => if isWhiteSpace c then trimStartUnits t else s
  end.

Definition trimUnits (s : list N) : list N :=
  rev (trimStartUnits (rev (trimStartUnits s))).

(** The class [[a-zA-Z0-9\s,.-]]; the regular expression removes every
    code unit outside it. *)
Definition isAllowed (c : N) : bool :=
  ((97 <=? c) && (c <=? 122) || (65 <=? c) && (c <=? 90)
   || (48 <=? c) && (c <=? 57) || isWhiteSpace c
   || (c =? 44) || (c =? 46) || (c =? 45))%N.

Definition sanitizeDestination (destination : list N) : list N :=
  firstn 100 (filter isAllowed (trimUnits destination)).

Definition minimumBudgets : list (string * number) :=
  [ ("USD", Fin 50); ("EUR", Fin 45); ("TRY", Fin 1500); ("GBP", Fin 40) ].

(** [validateBudget]; [None] is [null].  [formatCurrency] is the formatter
    of the same file, which rests on [Intl.NumberFormat].  An inherited
    property read from [minimumBudgets] is truthy and multiplies to NaN. *)
Definition validateBudget {host : Host}
  (formatCurrency : number -> string -> string)
  (budget : number) (currency : string) (duration : number)
  : option string :=
  let perDay :=
    if Str.mem currency Str.inheritedKeys then NaN
    else Num.orElse (Str.lookup currency minimumBudgets) (Fin 50) in
  let minTotal := (perDay * duration)%num in
  if (budget <? minTotal)%num
  then Some ("Minimum budget for " ++ Number_toString duration
             ++ " days should be " ++ formatCurrency minTotal currency)%string
  else
    let maxBudget := Fin 1000000 in
    if (budget >? maxBudget)%num
    then Some ("Budget cannot exceed "
               ++ formatCurrency maxBudget currency)%string
    else None.

(** [validateTravelerCount]; [None] is [null]. *)
Definition validateTravelerCount (travelers : number) : option string :=
  if negb (Num.isInteger travelers)
     || (travelers <? Fin 1)%num || (travelers >? Fin 20)%num
  then Some "Number of travelers must be between 1 and 20"
  else None.

End PlanUtils.

(** ** AI plan generator (class [GeminiService]) *)

Module Gemini.

Open Scope string_scope.
Open Scope list_scope.

(** [v[k]] for a value that is neither [null] nor [undefined]; [None] is
    [undefined].  Only objects carry the properties asked for here. *)
Definition property (v : json) (k : string) : option json :=
  match v with
  | JObject fields => Str.lookup k fields
  | _ => None
  end.

Definition truthy (v : option json) : bool :=
  match v with
  | None | Some JNull => false
  | Some (JBool b) => b
  | Some (JNumber x) => Num.truthy x
  | Some (JString s) => negb (String.eqb s "")
  | Some (JArray _) | Some (JObject _) => true
  end.

Definition isUndefined (v : option json) : bool :=
  match v with
  | None => true
  | Some _ => false
  end.

(** The message of the [TypeError] raised by a property read on [null]. *)
Definition nullRead (k : string) : string :=
  "Cannot read properties of null (reading '" ++ k ++ "')".

Definition required : list string :=
  ["mainRoutes"; "surpriseAlternatives"; "localTips"; "timingAdvice"].

Definition routeRequired : list string :=
  ["id"; "name"; "totalCost"; "breakdown"; "dailyPlan"].

Definition isEmpty {A : Type} (l : list A) : bool :=
  match l with
  | [] => true
  | _ :: _ => false
  end.

(** [routeRequired.filter(field => route[field] === undefined)] *)
Definition routeMissing (route : json) : list string :=
  filter (fun field => isUndefined (property route field)) routeRequired.

(** The [forEach] over [plan.mainRoutes]; [index] counts from 0. *)
Fixpoint checkRoutes (routes : list json) (index : nat) : Except unit :=
  match routes with
  | [] => Ok tt
  | route :: rest =>
      match route with
      | JNull => Throw (nullRead "id")
      | _ =>
          if negb (isEmpty (routeMissing route))
          then Throw ("Route " ++ Str.ofNat (index + 1) ++ " missing fields: "
                      ++ Str.join ", " (routeMissing route))
          else checkRoutes rest (S index)
      end
  end.

Definition validateTravelPlan (plan : json) : Except unit :=
  match plan with
  | JNull => Throw (nullRead "mainRoutes")
  | _ =>
      let missing :=
        filter (fun field => negb (truthy (property plan field))) required in
      if negb (isEmpty missing)
      then Throw ("Missing required fields: " ++ Str.join ", " missing)
      else
        match property plan "mainRoutes" with
        | Some (JArray routes) =>
            if isEmpty routes
            then Throw "At least one main route is required"
            else checkRoutes routes 0
        | _ => Throw "At least one main route is required"
        end
  end.

(** The text handed to [JSON.parse]: group 1 of the fenced match (the whole
    match when the group is empty), else the brace match. *)
Definition extractJson {host : Host} (responseText : string) : Except string :=
  match match_fenced_json responseText with
  | Some (whole, group1) => Ok (if String.eqb group1 "" then whole else group1)
  | None =>
      match match_braces responseText with
      | Some whole => Ok whole
      | None => Throw "No JSON found in Gemini response"
      end
  end.

Definition parseGeminiResponse {host : Host} (responseText : string)
  : Except json :=
  tryCatch
    (jsonStr <- extractJson responseText ;;
     parsed <- JSON_parse jsonStr ;;
     validateTravelPlan parsed ;;;
     Ok parsed)%except
    (fun _ => Throw "Invalid response format from AI service").

Record UsageMetadata : Type := {
  promptTokenCount : option number;
  candidatesTokenCount : option number
}.

Definition calculateCreditsUsed (usageMetadata : option UsageMetadata)
  : number :=
  match usageMetadata with
  | None => Fin 1
  | Some u =>
      let inputTokens := Num.orElse (promptTokenCount u) (Fin 0) in
      let outputTokens := Num.orElse (candidatesTokenCount u) (Fin 0) in
      Num.ceil ((inputTokens + outputTokens) / Fin 1000)%num
  end.

Definition handleGeminiError (message : string) : string :=
  if Str.includes message "quota" then "GEMINI_QUOTA_EXCEEDED"
  else if Str.includes message "safety" then "CONTENT_FILTERED"
  else if Str.includes message "rate limit" then "RATE_LIMIT_EXCEEDED"
  else "GEMINI_API_ERROR".

(** [result.response] of [model.generateContent]: its [text()] accessor, which
    may throw, and its usage metadata. *)
Record ApiResponse : Type := {
  text : Except string;
  usageMetadata : option UsageMetadata
}.

Record Generated : Type := {
  travelPlan : json;
  creditsUsed : number
}.

(** [generateTravelPlan].  [apiOutcome] is the outcome of awaiting
    [model.generateContent]: it throws, or yields a result whose [response]
    may be missing.  The prompt only flows into that call. *)
Definition generateTravelPlan {host : Host}
  (apiOutcome : Except (option ApiResponse)) : Except Generated :=
  tryCatch
    (result <- apiOutcome ;;
     response <-
       match result with
       | Some r => Ok r
       | None => Throw "No response from Gemini API"
       end ;;
     responseText <- text response ;;
     plan <- parseGeminiResponse responseText ;;
     Ok {| travelPlan := plan;
           creditsUsed :=
             calculateCreditsUsed (usageMetadata response) |})%except
    (fun message => Throw (handleGeminiError message)).

End Gemini.

(** ** Currency conversion (class [CurrencyService]) *)

Module Currency.

Open Scope string_scope.
Open Scope list_scope.

(** The [rates] table of an exchange-rate answer. *)
Definition Rates : Type := list (string * number).

Definition fallbackRates : list (string * Rates) :=
  [ ("USD", [ ("EUR", Fin 0.85); ("GBP", Fin 0.73); ("TRY", Fin 34.20);
              ("USD", Fin 1) ]);
    ("EUR", [ ("USD", Fin 1.18); ("GBP", Fin 0.86); ("TRY", Fin 40.24);
              ("EUR", Fin 1) ]);
    ("TRY", [ ("USD", Fin 0.029); ("EUR", Fin 0.025); ("GBP", Fin 0.021);
              ("TRY", Fin 1) ]);
    ("GBP", [ ("USD", Fin 1.37); ("EUR", Fin 1.16); ("TRY", Fin 46.85);
              ("GBP", Fin 1) ]) ].

Definition getFallbackRates (baseCurrency : string) : Except Rates :=
  match Str.lookup baseCurrency fallbackRates with
  | Some rates => Ok rates
  | None => Throw ("No fallback rates available for " ++ baseCurrency)
  end.

(** [getExchangeRates].  [fetched] is the outcome of the [try] block (cache
    read, then the two rate APIs); any failure there falls back to the static
    table. *)
Definition getExchangeRates (fetched : Except Rates) (baseCurrency : string)
  : Except Rates :=
  tryCatch fetched (fun _ => getFallbackRates baseCurrency).

Record Conversion : Type := {
  originalAmount : number;
  convertedAmount : number;
  rate : number
}.

Definition convertCurrency (fetched : Except Rates) (amount : number)
  (fromCurrency toCurrency : string) : Except Conversion :=
  tryCatch
    (if String.eqb fromCurrency toCurrency
     then Ok {| originalAmount := amount; convertedAmount := amount;
                rate := Fin 1 |}
     else
       (rates <- getExchangeRates fetched fromCurrency ;;
        match Str.lookup toCurrency rates with
        | Some r =>
            if Num.truthy r
            then Ok {| originalAmount := amount;
                       convertedAmount :=
                         (Num.round (amount * r * Fin 100) / Fin 100)%num;
                       rate := r |}
            else Throw ("Currency " ++ toCurrency ++ " not supported")
        | None => Throw ("Currency " ++ toCurrency ++ " not supported")
        end)%except)
    (fun _ =>
       Throw ("Unable to convert " ++ fromCurrency ++ " to " ++ toCurrency)).

End Currency.

(** ** Generated plans *)

Record Breakdown : Type := {
  flights : number;
  hotels : number;
  activities : number
}.

(** A route option.  [dailyPlan] and [bookingLinks] are carried by the
    source objects but never read by the functions modelled below. *)
Record Route : Type := {
  id : number;
  name : string;
  totalCost : number;
  breakdown : Breakdown
}.

Record SurpriseAlternative : Type := {
  alternativeDestination : string;
  reason : string;
  estimatedCost : number;
  highlights : list string
}.

Record TimingAdvice : Type := {
  bestTimeToVisit : string;
  weatherInfo : string;
  seasonalTips : list string
}.

(** The value of [geminiService.generateTravelPlan] as the controller and the
    price validator read it. *)
Record GeneratedPlan : Type := {
  mainRoutes : list Route;
  surpriseAlternatives : list SurpriseAlternative;
  localTips : list string;
  timingAdvice : TimingAdvice;
  generationCredits : number
}.

(** ** Price sanity validator (class [PriceValidation]) *)

Module PriceValidation.

Open Scope string_scope.
Open Scope list_scope.

Record Range : Type := { min : number; max : number }.

Record FlightBands : Type := {
  domestic : Range; international : Range; luxuryFlight : Range
}.
Record HotelBands : Type := {
  budgetHotel : Range; midRange : Range; luxuryHotel : Range
}.
Record ActivityBands : Type := { perDay : Range; perActivity : Range }.
Record FoodBands : Type := {
  foodPerDay : Range; foodBudget : Range; foodMidRange : Range;
  foodLuxury : Range
}.
Record TransportBands : Type := { transportPerDay : Range; perKm : Range }.

Record Boundaries : Type := {
  flightBands : FlightBands;
  hotelBands : HotelBands;
  activityBands : ActivityBands;
  foodBands : FoodBands;
  transportBands : TransportBands
}.

Definition range (lo hi : R) : Range := {| min := Fin lo; max := Fin hi |}.

(** [this.priceBoundaries], in USD. *)
Definition priceBoundaries : Boundaries :=
  {| flightBands :=
       {| domestic := range 50 1000; international := range 200 5000;
          luxuryFlight := range 1000 15000 |};
     hotelBands :=
       {| budgetHotel := range 15 100; midRange := range 50 300;
          luxuryHotel := range 200 2000 |};
     activityBands :=
       {| perDay := range 10 500; perActivity := range 5 300 |};
     foodBands :=
       {| foodPerDay := range 10 200; foodBudget := range 10 50;
          foodMidRange := range 30 100; foodLuxury := range 80 200 |};
     transportBands :=
       {| transportPerDay := range 5 100; perKm := range 0.1 5 |} |}.

(** [this.countryMultipliers] *)
Definition countryMultipliers : list (string * number) :=
  [ ("USA", Fin 1.2); ("Canada", Fin 1.1); ("UK", Fin 1.15);
    ("Germany", Fin 1.1); ("France", Fin 1.1); ("Italy", Fin 1.0);
    ("Spain", Fin 0.9); ("Japan", Fin 1.3); ("Australia", Fin 1.2);
    ("Netherlands", Fin 1.1); ("Switzerland", Fin 1.5);
    ("Turkey", Fin 0.6); ("Thailand", Fin 0.4); ("Vietnam", Fin 0.3);
    ("India", Fin 0.3); ("Mexico", Fin 0.5); ("Egypt", Fin 0.4);
    ("Morocco", Fin 0.4); ("Indonesia", Fin 0.4); ("Philippines", Fin 0.4);
    ("Malaysia", Fin 0.5); ("Brazil", Fin 0.6);
    ("default", Fin 0.8) ].

Definition countryKeywords : list (string * list string) :=
  [ ("Turkey", ["turkey"; "istanbul"; "ankara"; "antalya"; "cappadocia"]);
    ("Thailand", ["thailand"; "bangkok"; "phuket"; "chiang mai"]);
    ("USA", ["usa"; "america"; "new york"; "los angeles"; "san francisco"]);
    ("France", ["france"; "paris"; "lyon"; "marseille"]);
    ("Italy", ["italy"; "rome"; "milan"; "venice"; "florence"]);
    ("Spain", ["spain"; "madrid"; "barcelona"; "seville"]);
    ("Germany", ["germany"; "berlin"; "munich"; "hamburg"]);
    ("UK", ["uk"; "england"; "london"; "manchester"; "edinburgh"]);
    ("Japan", ["japan"; "tokyo"; "osaka"; "kyoto"]) ].

Fixpoint firstCountry (lowerDestination : string)
  (entries : list (string * list string)) : string :=
  match entries with
  | [] => "default"
  | (c, keywords) :: rest =>
      if existsb (fun keyword => Str.includes lowerDestination keyword)
                 keywords
      then c
      else firstCountry lowerDestination rest
  end.

Definition extractCountry (destination : string) : string :=
  firstCountry (Str.toLowerCase destination) countryKeywords.

Definition getTravelStyleMultiplier (travelStyle : string) : number :=
  let multipliers :=
    [ ("budget", Fin 0.7); ("mid-range", Fin 1.0); ("luxury", Fin 1.8) ] in
  Num.orElse (Str.lookup travelStyle multipliers) (Fin 1.0).

Definition scale (k : number) (r : Range) : Range :=
  {| min := (min r * k)%num; max := (max r * k)%num |}.

Definition adjustBoundaries (k : number) (b : Boundaries) : Boundaries :=
  {| flightBands :=
       {| domestic := scale k (domestic (flightBands b));
          international := scale k (international (flightBands b));
          luxuryFlight := scale k (luxuryFlight (flightBands b)) |};
     hotelBands :=
       {| budgetHotel := scale k (budgetHotel (hotelBands b));
          midRange := scale k (midRange (hotelBands b));
          luxuryHotel := scale k (luxuryHotel (hotelBands b)) |};
     activityBands :=
       {| perDay := scale k (perDay (activityBands b));
          perActivity := scale k (perActivity (activityBands b)) |};
     foodBands :=
       {| foodPerDay := scale k (foodPerDay (foodBands b));
          foodBudget := scale k (foodBudget (foodBands b));
          foodMidRange := scale k (foodMidRange (foodBands b));
          foodLuxury := scale k (foodLuxury (foodBands b)) |};
     transportBands :=
       {| transportPerDay := scale k (transportPerDay (transportBands b));
          perKm := scale k (perKm (transportBands b)) |} |}.

(** Every [min] and [max] is multiplied by
    [countryMultiplier * styleMultiplier]. *)
Definition adjustBoundariesForCountry
  (countryMultiplier styleMultiplier : number) : Boundaries :=
  adjustBoundaries (countryMultiplier * styleMultiplier)%num priceBoundaries.

(** The [{ isValid, errors, warnings }] object of a component check. *)
Record Check : Type := {
  isValid : bool;
  errors : list string;
  warnings : list string
}.

Definition passed (ws : list string) : Check :=
  {| isValid := true; errors := []; warnings := ws |}.

Definition failed (es : list string) : Check :=
  {| isValid := false; errors := es; warnings := [] |}.

Record RouteValidation : Type := {
  routeIsValid : bool;
  routeErrors : list string;
  routeWarnings : list string;
  flightCheck : Check;
  hotelCheck : Check;
  activityCheck : Check
}.

Record Outlier : Type := {
  routeId : number;
  category : string;
  value : number;
  zScore : string;
  isHigh : bool
}.

Record Detection : Type := {
  detectionWarnings : list string;
  outliers : list Outlier
}.

Record ValidationDetails : Type := {
  routeDetails : list (string * RouteValidation);
  budgetDetails : option (list string);
  outlierDetails : option Detection;
  errorDetail : option string
}.

(** The validation report.  The source also attaches an [adjustedPlan], a
    re-priced copy of the plan that neither the controller nor any other
    function reads; it is left out. *)
Record ValidationResults : Type := {
  reportIsValid : bool;
  reportWarnings : list string;
  reportErrors : list string;
  validationDetails : ValidationDetails
}.

Record Statistics : Type := {
  mean : number;
  variance : number;
  stdDev : number
}.

(** The statistics in exact arithmetic: sums, quotients and the square root
    are not rounded.  What the detector does when rounding decides, as it
    does when the values of a category agree, is settled on
    [Binary64.calculateStatistics] below. *)
Definition calculateStatistics (values : list number) : Statistics :=
  let n := Num.ofNat (List.length values) in
  let mean :=
    (fold_left (fun sum val => sum + val) values (Fin 0) / n)%num in
  let variance :=
    (fold_left (fun sum val => sum + Num.pow (val - mean) 2) values (Fin 0)
     / n)%num in
  {| mean := mean; variance := variance; stdDev := Num.sqrt variance |}.

Definition categories : list string :=
  ["totalCost"; "flights"; "hotels"; "activities"].

(** [category === 'totalCost' ? route.totalCost : route.breakdown[category]] *)
Definition categoryValue (category : string) (route : Route) : number :=
  if String.eqb category "totalCost" then totalCost route
  else if String.eqb category "flights" then flights (breakdown route)
  else if String.eqb category "hotels" then hotels (breakdown route)
  else if String.eqb category "activities" then activities (breakdown route)
  else NaN.

(** The z-score of [value] against [stats]. *)
Definition zScoreOf (stats : Statistics) (value : number) : number :=
  Num.abs ((value - mean stats) / stdDev stats)%num.

Section WithHost.

Context {host : Host}.

Definition show (x : number) : string := Number_toString x.

Definition validateFlightPrices (flightCost travelers : number)
  (boundaries : Boundaries) : Check :=
  let costPerPerson := (flightCost / travelers)%num in
  let band := international (flightBands boundaries) in
  if (costPerPerson <? min band)%num
  then passed [("Flight price (" ++ show costPerPerson
               ++ " per person) seems unusually low")%string]
  else if (costPerPerson >? max band)%num
  then failed [("Flight price (" ++ show costPerPerson
               ++ " per person) seems unusually high")%string]
  else if (costPerPerson >? max band * Fin 0.8)%num
  then passed [("Flight price (" ++ show costPerPerson
               ++ " per person) is quite expensive")%string]
  else passed [].

Definition styleBand (travelStyle : string) (b : HotelBands) : Range :=
  if String.eqb travelStyle "budget" then budgetHotel b
  else if String.eqb travelStyle "luxury" then luxuryHotel b
  else midRange b.

Definition validateHotelPrices (hotelCost duration travelers : number)
  (boundaries : Boundaries) (travelStyle : string) : Check :=
  let costPerNight := (hotelCost / duration)%num in
  let expectedRange := styleBand travelStyle (hotelBands boundaries) in
  if (costPerNight <? min expectedRange)%num
  then passed [("Hotel price (" ++ show costPerNight
               ++ " per night) seems low for " ++ travelStyle
               ++ " category")%string]
  else if (costPerNight >? max expectedRange)%num
  then failed [("Hotel price (" ++ show costPerNight
               ++ " per night) exceeds " ++ travelStyle
               ++ " category limits")%string]
  else if (costPerNight >? max expectedRange * Fin 0.8)%num
  then passed [("Hotel price (" ++ show costPerNight
               ++ " per night) is at the high end for "
               ++ travelStyle)%string]
  else passed [].

Definition validateActivityPrices (activityCost duration travelers : number)
  (boundaries : Boundaries) : Check :=
  let costPerDay := (activityCost / duration)%num in
  let band := perDay (activityBands boundaries) in
  if (costPerDay >? max band)%num
  then passed [("Activity cost (" ++ show costPerDay
               ++ " per day) seems high")%string]
  else if (costPerDay <? min band)%num
  then passed [("Activity cost (" ++ show costPerDay
               ++ " per day) seems low - consider adding more activities"
              )%string]
  else passed [].

Definition exceedsMessage (totalCost : number) : string :=
  "Route total cost (" ++ show totalCost ++ ") exceeds budget by more than 20%".

Definition slightlyExceedsMessage (totalCost : number) : string :=
  "Route total cost (" ++ show totalCost ++ ") slightly exceeds budget".

Definition lowCostMessage : string :=
  "Route cost seems unusually low, please verify pricing accuracy".

(** [validateRoute]; [travelStyle] is already defaulted to ['mid-range']. *)
Definition validateRoute (route : Route)
  (budgetUSD duration travelers countryMultiplier : number)
  (travelStyle : string) : RouteValidation :=
  let totalCost := totalCost route in
  let styleMultiplier := getTravelStyleMultiplier travelStyle in
  let adjustedBoundaries :=
    adjustBoundariesForCountry countryMultiplier styleMultiplier in
  let flightValidation :=
    validateFlightPrices (flights (breakdown route)) travelers
                         adjustedBoundaries in
  let hotelValidation :=
    validateHotelPrices (hotels (breakdown route)) duration travelers
                        adjustedBoundaries travelStyle in
  let activityValidation :=
    validateActivityPrices (activities (breakdown route)) duration travelers
                           adjustedBoundaries in
  let budgetPerPerson := (budgetUSD / travelers)%num in
  let overBudget := (totalCost >? budgetPerPerson * Fin 1.2)%num in
  let minReasonableCost :=
    ((min (international (flightBands adjustedBoundaries))
      + min (budgetHotel (hotelBands adjustedBoundaries)) * duration
      + min (perDay (activityBands adjustedBoundaries)) * duration)
     * travelers)%num in
  {| routeIsValid :=
       isValid flightValidation && isValid hotelValidation && negb overBudget;
     routeErrors :=
       (if isValid flightValidation then [] else errors flightValidation)
       ++ (if isValid hotelValidation then [] else errors hotelValidation)
       ++ (if overBudget then [exceedsMessage totalCost] else []);
     routeWarnings :=
       warnings flightValidation
       ++ warnings hotelValidation
       ++ warnings activityValidation
       ++ (if overBudget then []
           else if (totalCost >? budgetPerPerson)%num
           then [slightlyExceedsMessage totalCost]
           else [])
       ++ (if (totalCost <? minReasonableCost * Fin 0.5)%num
           then [lowCostMessage] else []);
     flightCheck := flightValidation;
     hotelCheck := hotelValidation;
     activityCheck := activityValidation |}.

(** [routes.reduce((min, route) =>
       route.totalCost < min.totalCost ? route : min)] *)
Definition cheapest (first : Route) (rest : list Route) : Route :=
  fold_left (fun m route =>
               if (totalCost route <? totalCost m)%num then route else m)
            rest first.

Definition validateBudgetFeasibility (routes : list Route) (budgetUSD : number)
  : list string :=
  match routes with
  | [] => []
  | first :: rest =>
      let cheapestRoute := cheapest first rest in
      let budgetUtilization :=
        (totalCost cheapestRoute / budgetUSD * Fin 100)%num in
      if (budgetUtilization >? Fin 100)%num
      then [("Even the cheapest option exceeds budget by "
             ++ Number_toFixed (budgetUtilization - Fin 100)%num 1
             ++ "%")%string]
      else if (budgetUtilization >? Fin 90)%num
      then [("Budget utilization is " ++ Number_toFixed budgetUtilization 1
             ++ "% - very tight budget")%string]
      else if (budgetUtilization <? Fin 60)%num
      then [("Budget utilization is only "
             ++ Number_toFixed budgetUtilization 1
             ++ "% - consider upgrading experiences")%string]
      else []
  end.

(** The outliers one category contributes: the inner [routes.forEach]. *)
Definition categoryOutliers (routes : list Route) (category : string)
  : list Outlier :=
  let values := map (categoryValue category) routes in
  let stats := calculateStatistics values in
  flat_map
    (fun route =>
       let value := categoryValue category route in
       let z := zScoreOf stats value in
       if (z >? Fin 2)%num
       then [ {| routeId := id route; category := category; value := value;
                 zScore := Number_toFixed z 2;
                 isHigh := (value >? mean stats)%num |} ]
       else [])
    routes.

Definition detectPriceOutliers (routes : list Route) : Detection :=
  if (List.length routes <? 2)%nat
  then {| detectionWarnings := []; outliers := [] |}
  else
    let found := flat_map (categoryOutliers routes) categories in
    {| detectionWarnings :=
         if (0 <? List.length found)%nat
         then [("Found " ++ Str.ofNat (List.length found)
               ++ " price outliers that may need verification")%string]
         else [];
       outliers := found |}.

(** One turn of the [for] loop over [travelPlan.mainRoutes]. *)
Definition validateStep (budgetInUSD duration travelers multiplier : number)
  (travelStyle : string) (acc : ValidationResults) (route : Route)
  : ValidationResults :=
  let routeValidation :=
    validateRoute route budgetInUSD duration travelers multiplier
                  travelStyle in
  let details := validationDetails acc in
  {| reportIsValid := reportIsValid acc && routeIsValid routeValidation;
     reportWarnings := reportWarnings acc ++ routeWarnings routeValidation;
     reportErrors :=
       reportErrors acc
       ++ (if routeIsValid routeValidation then []
           else routeErrors routeValidation);
     validationDetails :=
       {| routeDetails :=
            routeDetails details
            ++ [(("route_" ++ show (id route))%string, routeValidation)];
          budgetDetails := budgetDetails details;
          outlierDetails := outlierDetails details;
          errorDetail := errorDetail details |} |}.

Definition emptyResults : ValidationResults :=
  {| reportIsValid := true; reportWarnings := []; reportErrors := [];
     validationDetails :=
       {| routeDetails := []; budgetDetails := None; outlierDetails := None;
          errorDetail := None |} |}.

(** The body of the [try] block once the budget is in USD. *)
Definition validateWithBudget (travelPlan : GeneratedPlan)
  (request : PlanRequest) (budgetInUSD : number) : ValidationResults :=
  let duration :=
    PlanUtils.calculateTripDuration (startDate request) (endDate request) in
  let travelers := Num.orElse (travelers request) (Fin 1) in
  let destination := extractCountry (destination request) in
  let defaultMultiplier :=
    match Str.lookup "default" countryMultipliers with
    | Some m => m
    | None => NaN
    end in
  let multiplier :=
    Num.orElse (Str.lookup destination countryMultipliers)
               defaultMultiplier in
  let travelStyle :=
    match preferences request with
    | Some p => match travelStyle p with Some s => s | None => "mid-range" end
    | None => "mid-range"
    end in
  let afterRoutes :=
    fold_left (validateStep budgetInUSD duration travelers multiplier
                            travelStyle)
              (mainRoutes travelPlan) emptyResults in
  let budgetValidation :=
    validateBudgetFeasibility (mainRoutes travelPlan) budgetInUSD in
  let outlierDetection := detectPriceOutliers (mainRoutes travelPlan) in
  {| reportIsValid := reportIsValid afterRoutes;
     reportWarnings :=
       reportWarnings afterRoutes ++ budgetValidation
       ++ detectionWarnings outlierDetection;
     reportErrors := reportErrors afterRoutes;
     validationDetails :=
       {| routeDetails := routeDetails (validationDetails afterRoutes);
          budgetDetails := Some budgetValidation;
          outlierDetails := Some outlierDetection;
          errorDetail := None |} |}.

(** The report of the [catch] block. *)
Definition unavailable (message : string) : ValidationResults :=
  {| reportIsValid := false;
     reportWarnings := [];
     reportErrors := ["Price validation system temporarily unavailable"];
     validationDetails :=
       {| routeDetails := []; budgetDetails := None; outlierDetails := None;
          errorDetail := Some message |} |}.

(** The first step of [validateTravelPlan]: the budget in USD, converted by
    [currencyService.convertCurrency] unless the request is already in USD.
    [fetched] is the outcome of the exchange-rate lookup behind it. *)
Definition referenceBudget (fetched : Except Currency.Rates)
  (request : PlanRequest) : Except number :=
  if negb (String.eqb (currency request) "USD")
  then
    (conversion <-
       Currency.convertCurrency fetched (budget request) (currency request)
                                "USD" ;;
     Ok (Currency.convertedAmount conversion))%except
  else Ok (budget request).

(** [validateTravelPlan]: the [try] block, and the report of the [catch]
    block when it throws. *)
Definition validateTravelPlan (fetched : Except Currency.Rates)
  (travelPlan : GeneratedPlan) (request : PlanRequest) : ValidationResults :=
  match referenceBudget fetched request with
  | Ok budgetInUSD => validateWithBudget travelPlan request budgetInUSD
  | Throw message => unavailable message
  end.

End WithHost.

End PriceValidation.

(** ** The outlier detector on binary64 numbers *)

(** [detectPriceOutliers] divides by a standard deviation that is 0 when the
    values of a category agree, so what it reports there depends on how the
    sums and quotients of [calculateStatistics] are rounded.  For the facts
    that depend on the rounding the detector is embedded a second time, on
    the binary64 numbers of IEEE 754 themselves: every operator is the
    correctly rounded one, [Math.sqrt] is the rounded square root and
    [Math.abs] clears the sign.  Zeros carry a sign here. *)

Module Binary64.

Import PrimFloat.
Local Open Scope float_scope.

(** What the detector asks of the engine beyond IEEE 754 arithmetic. *)
Class FloatHost : Type := {
  (** [Math.pow(base, exponent)], which the language leaves to the engine
      as an approximation of the power *)
  Math_pow : float -> float -> float;
  (** [x.toFixed(digits)] *)
  toFixed : float -> nat -> string
}.

Record Breakdown : Type := {
  flights : float;
  hotels : float;
  activities : float
}.

Record Route : Type := {
  id : float;
  name : string;
  totalCost : float;
  breakdown : Breakdown
}.

Record Outlier : Type := {
  routeId : float;
  category : string;
  value : float;
  zScore : string;
  isHigh : bool
}.

Record Detection : Type := {
  detectionWarnings : list string;
  outliers : list Outlier
}.

Record Statistics : Type := {
  mean : float;
  variance : float;
  stdDev : float
}.

(** [values.length], an array length, as a number. *)
Definition ofNat (n : nat) : float := of_uint63 (Uint63.of_Z (Z.of_nat n)).

Definition categories : list string :=
  ["totalCost"; "flights"; "hotels"; "activities"]%string.

(** [category === 'totalCost' ? route.totalCost : route.breakdown[category]] *)
Definition categoryValue (category : string) (route : Route) : float :=
  if String.eqb category "totalCost" then totalCost route
  else if String.eqb category "flights" then flights (breakdown route)
  else if String.eqb category "hotels" then hotels (breakdown route)
  else if String.eqb category "activities" then activities (breakdown route)
  else nan.

Section WithHost.

Context {host : FloatHost}.

Definition calculateStatistics (values : list float) : Statistics :=
  let n := ofNat (List.length values) in
  let mean := fold_left (fun sum val => sum + val) values 0 / n in
  let variance :=
    fold_left (fun sum val => sum + Math_pow (val - mean) 2) values 0 / n in
  {| mean := mean; variance := variance; stdDev := sqrt variance |}.

(** The z-score of [value] against [stats]. *)
Definition zScoreOf (stats : Statistics) (value : float) : float :=
  abs ((value - mean stats) / stdDev stats).

(** The outliers one category contributes: the inner [routes.forEach]. *)
Definition categoryOutliers (routes : list Route) (category : string)
  : list Outlier :=
  let values := map (categoryValue category) routes in
  let stats := calculateStatistics values in
  flat_map
    (fun route =>
       let value := categoryValue category route in
       let z := zScoreOf stats value in
       if 2 <? z
       then [ {| routeId := id route; category := category; value := value;
                 zScore := toFixed z 2;
                 isHigh := mean stats <? value |} ]
       else [])
    routes.

Definition detectPriceOutliers (routes : list Route) : Detection :=
  if (List.length routes <? 2)%nat
  then {| detectionWarnings := []; outliers := [] |}
  else
    let found := flat_map (categoryOutliers routes) categories in
    {| detectionWarnings :=
         if (0 <? List.length found)%nat
         then [("Found " ++ Str.ofNat (List.length found)
               ++ " price outliers that may need verification")%string]
         else [];
       outliers := found |}.

End WithHost.

End Binary64.

(** ** Plan orchestrator (travel controller) *)

Module Controller.

Open Scope string_scope.
Open Scope list_scope.

(** The [metadata] of a stored plan.  Of the paths that the schema declares
    ([generatedAt], [creditsUsed], [responseTime], [geminiModel],
    [promptVersion]) the record keeps the one that does not come from the
    clock or the configuration; [creditsUsed] defaults to 0.  The schema
    declares no other path under [metadata], and Mongoose, in its strict
    mode, stores none: the [priceValidation] summary that [processTravelPlan]
    assigns and the ['metadata.error'] of its failure update are dropped. *)
Record Metadata : Type := {
  creditsUsed : number
}.

(** A document of the [TravelPlan] collection. *)
Record TravelPlan : Type := {
  planId : string;
  user : string;
  request : PlanRequest;
  status : string;
  planRoutes : list Route;
  planAlternatives : list SurpriseAlternative;
  planTips : list string;
  planTiming : option TimingAdvice;
  metadata : Metadata
}.

(** The collection; [planId] is its unique key.  Writes are taken to
    succeed. *)
Definition Store : Type := list TravelPlan.

Definition create (doc : TravelPlan) (db : Store) : Store := db ++ [doc].

Definition replace (doc : TravelPlan) (db : Store) : Store :=
  map (fun d => if String.eqb (planId d) (planId doc) then doc else d) db.

(** [TravelPlan.findOneAndUpdate({ planId }, { status: 'failed',
    'metadata.error': message })].  The update sets [status]; its second
    path is not in the schema and is stripped, so [message] is not stored. *)
Definition markFailed (pid message : string) (db : Store) : Store :=
  map (fun d =>
         if String.eqb (planId d) pid
         then {| planId := planId d; user := user d; request := request d;
                 status := "failed"; planRoutes := planRoutes d;
                 planAlternatives := planAlternatives d;
                 planTips := planTips d; planTiming := planTiming d;
                 metadata := metadata d |}
         else d)
      db.

Definition draft (pid userId : string) (planRequest : PlanRequest)
  : TravelPlan :=
  {| planId := pid; user := userId; request := planRequest;
     status := "draft"; planRoutes := []; planAlternatives := [];
     planTips := []; planTiming := None;
     metadata := {| creditsUsed := Fin 0 |} |}.

Definition priceAlert (warning : string) : string :=
  "⚠️ Price Alert: " ++ warning.

Definition travelAdvisoryTip (warning : string) : string :=
  "🚨 Travel Advisory: " ++ warning.

Definition travelInfoTip (rec : string) : string :=
  "📋 Travel Info: " ++ rec.

Definition nonEmpty {A : Type} (l : list A) : bool :=
  (0 <? List.length l)%nat.

(** The three steps that extend [travelPlan.localTips]. *)
Definition foldTips (tips validationWarnings : list string)
  (destinationInfo : Destination.Verdict) : list string :=
  let tips1 :=
    if nonEmpty validationWarnings
    then tips ++ map priceAlert (firstn 3 validationWarnings)
    else tips in
  let tips2 :=
    if nonEmpty (Destination.warnings destinationInfo)
    then tips1 ++ map travelAdvisoryTip (Destination.warnings destinationInfo)
    else tips1 in
  if nonEmpty (Destination.recommendations destinationInfo)
  then tips2 ++ map travelInfoTip
                    (firstn 2 (Destination.recommendations destinationInfo))
  else tips2.

Section WithHost.

Context {host : Host}.

(** The document saved on the success path.  Of the metadata that the source
    assigns, [{ ...aiResponse.metadata, priceValidation: { ... } }], the
    stored document keeps the paths of the schema. *)
Definition completed (pid userId : string) (planRequest : PlanRequest)
  (destinationInfo : Destination.Verdict) (aiResponse : GeneratedPlan)
  (validation : PriceValidation.ValidationResults) : TravelPlan :=
  {| planId := pid; user := userId; request := planRequest;
     status := "completed";
     planRoutes := mainRoutes aiResponse;
     planAlternatives := surpriseAlternatives aiResponse;
     planTips :=
       foldTips (localTips aiResponse)
                (PriceValidation.reportWarnings validation) destinationInfo;
     planTiming := Some (timingAdvice aiResponse);
     metadata := {| creditsUsed := generationCredits aiResponse |} |}.

(** [processTravelPlan], the background continuation.  [aiOutcome] is the
    outcome of [geminiService.generateTravelPlan] and [fetched] that of the
    exchange-rate lookup.  The metric counters and the user's plan count are
    not part of the state. *)
Definition processTravelPlan (pid : string) (planRequest : PlanRequest)
  (userId : string) (destinationInfo : Destination.Verdict)
  (aiOutcome : Except GeneratedPlan) (fetched : Except Currency.Rates)
  (db : Store) : Store :=
  let db1 := create (draft pid userId planRequest) db in
  match aiOutcome with
  | Ok aiResponse =>
      let validation :=
        PriceValidation.validateTravelPlan fetched aiResponse planRequest in
      replace (completed pid userId planRequest destinationInfo aiResponse
                         validation) db1
  | Throw message => markFailed pid message db1
  end.

(** The incoming HTTP request after the middleware: the errors found by the
    request validator, the body, and the authenticated user. *)
Record HttpRequest : Type := {
  validationErrors : list string;
  body : PlanRequest;
  userOfRequest : string;
  userLanguage : option string
}.

Inductive Response : Type :=
| ValidationFailed (details : list string)
| DestinationRejected (warnings : list string)
    (travelAdvisory : option string)
    (safeAlternatives : list Destination.Alternative)
| Processing (pid : string) (estimatedTime : number).

Definition statusCode (r : Response) : nat :=
  match r with
  | ValidationFailed _ | DestinationRejected _ _ _ => 400
  | Processing _ _ => 202
  end.

(** The arguments of the call to [processTravelPlan]. *)
Record Background : Type := {
  bgPlanId : string;
  bgRequest : PlanRequest;
  bgUser : string;
  bgVerdict : Destination.Verdict
}.

(** [generateTravelPlan], the request handler.  [pid] is the identifier
    drawn by [generatePlanId].  The result is the response and, when the
    handler reaches it, the background call it starts. *)
Definition generateTravelPlan (req : HttpRequest) (pid : string)
  : Response * option Background :=
  if negb (Gemini.isEmpty (validationErrors req))
  then (ValidationFailed (validationErrors req), None)
  else
    let b := body req in
    let planRequest :=
      {| destination := destination b; startDate := startDate b;
         endDate := endDate b; budget := budget b; currency := currency b;
         travelers := travelers b; preferences := preferences b;
         userId := userOfRequest req;
         language := PlanUtils.strOrElse (userLanguage req) "en" |} in
    let duration :=
      PlanUtils.calculateTripDuration (startDate planRequest)
                                      (endDate planRequest) in
    let estimatedTime :=
      PlanUtils.estimateProcessingTime
        (destination planRequest) duration
        (Num.orElse (travelers planRequest) (Fin 1)) in
    let destinationInfo :=
      Destination.verifyDestination (destination planRequest) in
    if negb (Destination.isAccessible destinationInfo)
       || negb (Destination.isSafe destinationInfo)
    then (DestinationRejected
            (Destination.warnings destinationInfo)
            (Destination.travelAdvisory destinationInfo)
            (Destination.getSafeAlternatives (destination planRequest)),
          None)
    else (Processing pid estimatedTime,
          Some {| bgPlanId := pid; bgRequest := planRequest;
                  bgUser := userOfRequest req;
                  bgVerdict := destinationInfo |}).

(** One submission end to end: the handler's response, and the collection
    after the background call (if any) has run. *)
Definition submitPlanRequest (req : HttpRequest) (pid : string)
  (aiOutcome : Except GeneratedPlan) (fetched : Except Currency.Rates)
  (db : Store) : Response * Store :=
  match generateTravelPlan req pid with
  | (response, Some bg) =>
      (response,
       processTravelPlan (bgPlanId bg) (bgRequest bg) (bgUser bg)
                         (bgVerdict bg) aiOutcome fetched db)
  | (response, None) => (response, db)
  end.

End WithHost.

End Controller.

(** ** Data for closed examples *)

Module Examples.

Open Scope string_scope.
Open Scope list_scope.

Definition dq : string := String (ascii_of_nat 34) EmptyString.

(** The JSON text of an object with the four top-level fields, in which
    [mainRoutes] holds one route [{ id: 1 }], [surpriseAlternatives] and
    [localTips] are empty arrays and [timingAdvice] is an empty object. *)
Definition incompleteText : string :=
  ("{" ++ dq ++ "mainRoutes" ++ dq ++ ":[{" ++ dq ++ "id" ++ dq ++ ":1}],"
   ++ dq ++ "surpriseAlternatives" ++ dq ++ ":[],"
   ++ dq ++ "localTips" ++ dq ++ ":[],"
   ++ dq ++ "timingAdvice" ++ dq ++ ":{}}")%string.

(** The value of [JSON.parse] on [incompleteText]. *)
Definition incompletePlan : json :=
  JObject
    [ ("mainRoutes", JArray [ JObject [ ("id", JNumber (Fin 1)) ] ]);
      ("surpriseAlternatives", JArray []);
      ("localTips", JArray []);
      ("timingAdvice", JObject []) ].

(** A host for closed examples.  The theorems below hold for every host;
    this one stands in where an example needs a particular one.  It parses
    the two dates and the one document used in the examples, takes a text
    that is one JSON object as its own brace match, and renders numbers,
    key data and digests by placeholders. *)
Definition exampleHost : Host :=
  {| Number_toString := fun _ => "#";
     Number_toFixed := fun _ _ => "#";
     Date_getTime :=
       fun s =>
         if String.eqb s "2026-06-01" then Fin 1780272000000
         else if String.eqb s "2026-06-07" then Fin 1780790400000
         else NaN;
     JSON_parse :=
       fun s =>
         if String.eqb s incompleteText then Ok incompletePlan
         else Throw "Unexpected token";
     match_fenced_json := fun _ => None;
     match_braces := fun s => Some s;
     JSON_stringify := fun k => keyDestination k;
     md5_hex := fun s => s |}.

Definition paris (requestBudget : number) (requestCurrency : string)
  : PlanRequest :=
  {| destination := "Paris, France";
     startDate := "2026-06-01"; endDate := "2026-06-07";
     budget := requestBudget; currency := requestCurrency;
     travelers := Some (Fin 1); preferences := None;
     userId := "u1"; language := "en" |}.

Definition route (n total flightCost hotelCost activityCost : R) : Route :=
  {| id := Fin n; name := "Option";
     totalCost := Fin total;
     breakdown :=
       {| flights := Fin flightCost; hotels := Fin hotelCost;
          activities := Fin activityCost |} |}.

(** A request for [destinationText] that passed the request validator. *)
Definition submission (destinationText : string) : Controller.HttpRequest :=
  {| Controller.validationErrors := [];
     Controller.body :=
       {| destination := destinationText;
          startDate := "2026-06-01"; endDate := "2026-06-07";
          budget := Fin 2000; currency := "USD";
          travelers := Some (Fin 1); preferences := None;
          userId := ""; language := "" |};
     Controller.userOfRequest := "u1";
     Controller.userLanguage := None |}.

(** Three routes that cost 1000, 1050 and 5000 in total. *)
Definition threeRoutes : list Route :=
  [ route 1 1000 600 300 100; route 2 1050 620 320 110;
    route 3 5000 3000 1500 500 ].

Definition plan (routes : list Route) : GeneratedPlan :=
  {| mainRoutes := routes; surpriseAlternatives := []; localTips := [];
     timingAdvice :=
       {| bestTimeToVisit := ""; weatherInfo := ""; seasonalTips := [] |};
     generationCredits := Fin 1 |}.

(** A request for Rio de Janeiro and a plan for it whose one route is cheap
    in every component and costs 2100 against a budget of 2000. *)
Definition rio : PlanRequest :=
  {| destination := "Rio de Janeiro, Brazil";
     startDate := "2026-06-01"; endDate := "2026-06-07";
     budget := Fin 2000; currency := "USD";
     travelers := Some (Fin 1); preferences := None;
     userId := "u1"; language := "en" |}.

Definition rioPlan : GeneratedPlan :=
  {| mainRoutes := [route 1 2100 100 60 6]; surpriseAlternatives := [];
     localTips := ["Carry some cash"];
     timingAdvice :=
       {| bestTimeToVisit := ""; weatherInfo := ""; seasonalTips := [] |};
     generationCredits := Fin 1 |}.

End Examples.

(** Data for the detector on binary64 numbers. *)

Module Examples64.

Import PrimFloat.
Local Open Scope float_scope.
Import Binary64.

#[local] Set Warnings "-inexact-float".

(** An engine whose [Math.pow(x, 2)] is the rounded square of [x], and whose
    [toFixed] prints the two values that need no digits. *)
Definition engine : FloatHost :=
  {| Math_pow := fun base exponent =>
       if exponent =? 2 then base * base else nan;
     toFixed := fun x _ =>
       if is_nan x then "NaN"%string
       else if x =? infinity then "Infinity"%string
       else "#"%string |}.

Definition route (n total flightCost hotelCost activityCost : float) : Route :=
  {| id := n; name := "Option"%string; totalCost := total;
     breakdown := {| flights := flightCost; hotels := hotelCost;
                     activities := activityCost |} |}.

(** The number that the literal [7e-150] denotes. *)
Definition tiny : float := 7e-150.

(** Three routes with the same total cost, [tiny]. *)
Definition tinyRoutes : list Route :=
  [ route 1 tiny 600 300 100; route 2 tiny 620 320 110;
    route 3 tiny 3000 1500 500 ].

Definition twoEqualRoutes : list Route :=
  [ route 1 1200 700 400 100; route 2 1200 600 450 150 ].

End Examples64.

(* ================================================================== *)
(** * Part II: properties *)
(* ================================================================== *)

(** ** Facts about numbers *)

#[local] Arguments Rabs : simpl never.
#[local] Arguments Zceil : simpl never.
#[local] Arguments Zfloor : simpl never.
#[local] Arguments R_sqrt.sqrt : simpl never.

Section NumFacts.

Open Scope R_scope.

Lemma Rltb_true (x y : R) : x < y -> Num.Rltb x y = true.
Proof.
  intros H; unfold Num.Rltb.
  destruct (Rlt_dec x y); [reflexivity | contradiction].
Qed.

Lemma Rltb_false (x y : R) : y <= x -> Num.Rltb x y = false.
Proof.
  intros H; unfold Num.Rltb.
  destruct (Rlt_dec x y); [lra | reflexivity].
Qed.

Lemma Reqb_true (x y : R) : x = y -> Num.Reqb x y = true.
Proof.
  intros H; unfold Num.Reqb.
  destruct (Req_dec_T x y); [reflexivity | contradiction].
Qed.

Lemma Reqb_false (x y : R) : x <> y -> Num.Reqb x y = false.
Proof.
  intros H; unfold Num.Reqb.
  destruct (Req_dec_T x y); [contradiction | reflexivity].
Qed.

Lemma min_Fin (a b : R) : Num.min (Fin a) (Fin b) = Fin (Rmin a b).
Proof.
  unfold Num.min, Num.ltb, Num.Rltb, Rmin.
  destruct (Rlt_dec b a), (Rle_dec a b); try reflexivity; lra.
Qed.

Lemma div_Fin (a b : R) : b <> 0 -> Num.div (Fin a) (Fin b) = Fin (a / b).
Proof. intros H; simpl; now rewrite (Reqb_false H). Qed.

Lemma ceil_between (x : R) (z : Z) :
  IZR z - 1 < x <= IZR z -> Num.ceil (Fin x) = Fin (IZR z).
Proof. intros H; simpl; do 2 f_equal; now apply Zceil_eq. Qed.

Lemma round_between (x : R) (z : Z) :
  IZR z - / 2 <= x < IZR z + / 2 -> Num.round (Fin x) = Fin (IZR z).
Proof. intros H; simpl; do 2 f_equal; apply Zfloor_eq; lra. Qed.

End NumFacts.

(** Decide the comparisons on reals that a goal exposes, by [lra]. *)
Ltac num_step :=
  match goal with
  | |- context [Num.Reqb ?a ?b] =>
      first [ rewrite (@Reqb_true a b) by lra
            | rewrite (@Reqb_false a b) by lra ]
  | |- context [Num.Rltb ?a ?b] =>
      first [ rewrite (@Rltb_true a b) by lra
            | rewrite (@Rltb_false a b) by lra ]
  end.

Ltac num_simpl := repeat (progress simpl || num_step).

(** ** Plan utilities *)

Section PlanUtilsFacts.

Open Scope R_scope.

Lemma prefix_append (sub s : string) :
  String.prefix sub s = true <-> exists post, s = (sub ++ post)%string.
Proof.
  revert s; induction sub as [| a sub IH]; intros [| b s];
    cbn [String.prefix String.append].
  - split; [now exists ""%string | reflexivity].
  - split; [now exists (String b s) | reflexivity].
  - split; [discriminate | intros (post & H); discriminate].
  - destruct (ascii_dec a b) as [<- | N].
    + rewrite IH. split; intros (post & H); exists post; congruence.
    + split; [discriminate | intros (post & H)]. congruence.
Qed.

(** [s.includes(sub)] holds exactly when [sub] occurs in [s]. *)
Lemma includes_occurs (s sub : string) :
  Str.includes s sub = true
  <-> exists pre post, s = (pre ++ sub ++ post)%string.
Proof.
  induction s as [| c s IH].
  - cbn [Str.includes]. rewrite orb_false_r, prefix_append. split.
    + intros (post & H). now exists ""%string, post.
    + intros (pre & post & H). destruct pre; [now exists post |].
      discriminate.
  - cbn [Str.includes]. rewrite orb_true_iff, prefix_append, IH. split.
    + intros [(post & H) | (pre & post & H)].
      * now exists ""%string, post.
      * exists (String c pre), post. simpl. now rewrite H.
    + intros (pre & post & H). destruct pre as [| c' pre].
      * left. now exists post.
      * right. exists pre, post. simpl in H. congruence.
Qed.

Lemma isComplex_occurs (destination : string) :
  PlanUtils.isComplex destination = true
  <-> exists keyword pre post,
        In keyword ["asia"; "africa"; "multiple"; "tour"]%string
        /\ Str.toLowerCase destination = (pre ++ keyword ++ post)%string.
Proof.
  unfold PlanUtils.isComplex. rewrite existsb_exists. split.
  - intros (keyword & Hin & H). apply includes_occurs in H.
    destruct H as (pre & post & H). now exists keyword, pre, post.
  - intros (keyword & pre & post & Hin & H). exists keyword.
    split; [exact Hin |]. apply includes_occurs. now exists pre, post.
Qed.

(** C7.  For a duration [d >= 0] and a traveler count [t >= 0] the estimate
    is [min (10 + min (2d) 20 + min (2t) 10 + bonus) 45], where the bonus is
    10 when one of the keywords [asia], [africa], [multiple], [tour] occurs
    in the lowercased destination and 0 otherwise; the estimate therefore
    lies between 10 and 45. *)
Theorem estimateProcessingTime_formula (destination : string) (d t : R) :
  0 <= d -> 0 <= t ->
  let complex :=
    exists keyword pre post,
      In keyword ["asia"; "africa"; "multiple"; "tour"]%string
      /\ Str.toLowerCase destination = (pre ++ keyword ++ post)%string in
  exists bonus : R,
    (complex /\ bonus = 10 \/ ~ complex /\ bonus = 0)
    /\ PlanUtils.estimateProcessingTime destination (Fin d) (Fin t)
       = Fin (Rmin (10 + Rmin (d * 2) 20 + Rmin (t * 2) 10 + bonus) 45)
    /\ 10 <= Rmin (10 + Rmin (d * 2) 20 + Rmin (t * 2) 10 + bonus) 45 <= 45.
Proof.
  intros Hd Ht complex.
  exists (if PlanUtils.isComplex destination then 10 else 0).
  split; [| split].
  - pose proof (isComplex_occurs destination) as Hc. fold complex in Hc.
    destruct (PlanUtils.isComplex destination).
    + left. split; [now apply Hc | reflexivity].
    + right. split; [| reflexivity]. intros C. apply Hc in C. discriminate.
  - unfold PlanUtils.estimateProcessingTime.
    destruct (PlanUtils.isComplex destination); simpl Num.mul;
      rewrite !min_Fin; simpl Num.add; rewrite !min_Fin;
      f_equal; f_equal; lra.
  - assert (H1 : 0 <= Rmin (d * 2) 20) by (apply Rmin_glb; lra).
    assert (H2 : 0 <= Rmin (t * 2) 10) by (apply Rmin_glb; lra).
    split; [ apply Rmin_glb | apply Rmin_r ];
      destruct (PlanUtils.isComplex destination); lra.
Qed.

Lemma estimateProcessingTime_formula_witness :
  PlanUtils.estimateProcessingTime "Rome" (Fin 3) (Fin 2) = Fin 20
  /\ PlanUtils.estimateProcessingTime "Safari in AFRICA" (Fin 3) (Fin 2)
     = Fin 30.
Proof.
  assert (E : forall bonus,
             Rmin (10 + Rmin (3 * 2) 20 + Rmin (2 * 2) 10 + bonus) 45
             = Rmin (20 + bonus) 45).
  { intros bonus. rewrite (Rmin_left (3 * 2) 20), (Rmin_left (2 * 2) 10)
      by lra. f_equal. lra. }
  split.
  - destruct (@estimateProcessingTime_formula "Rome" 3 2)
      as (bonus & [[C _] | [_ ->]] & H & _); [lra | lra | |].
    + apply isComplex_occurs in C. discriminate.
    + rewrite H, E. f_equal. rewrite Rmin_left; lra.
  - destruct (@estimateProcessingTime_formula "Safari in AFRICA" 3 2)
      as (bonus & [[_ ->] | [C _]] & H & _); [lra | lra | |].
    + rewrite H, E. f_equal. rewrite Rmin_left; lra.
    + exfalso. apply C.
      exists "africa"%string, "safari in "%string, ""%string.
      split; [right; now left | reflexivity].
Defined.

End PlanUtilsFacts.

(** ** AI plan generator: credits *)

Section CreditFacts.

Open Scope R_scope.

Example credits_two_thousand_tokens :
  Gemini.calculateCreditsUsed
    (Some {| Gemini.promptTokenCount := Some (Fin 500);
             Gemini.candidatesTokenCount := Some (Fin 1500) |})
  = Fin 2.
Proof.
  unfold Gemini.calculateCreditsUsed, Num.orElse; num_simpl.
  do 2 f_equal. apply Zceil_eq. lra.
Qed.

Example credits_five_hundred_tokens :
  Gemini.calculateCreditsUsed
    (Some {| Gemini.promptTokenCount := Some (Fin 100);
             Gemini.candidatesTokenCount := Some (Fin 400) |})
  = Fin 1.
Proof.
  unfold Gemini.calculateCreditsUsed, Num.orElse; num_simpl.
  do 2 f_equal. apply Zceil_eq. lra.
Qed.

Lemma orElse_absent_or_zero (o : option number) (d : number) :
  o = None \/ o = Some (Fin 0) -> Num.orElse o d = d.
Proof.
  intros [-> | ->]; [reflexivity |].
  unfold Num.orElse, Num.truthy. now rewrite Reqb_true.
Qed.

(** C10.  When the usage metadata object is present and both token counts
    are absent or zero, the credit cost is 0 (and so is not 1); the cost is
    the default 1 when the usage metadata object itself is absent. *)
Theorem calculateCreditsUsed_zero_usage (u : Gemini.UsageMetadata) :
  Gemini.promptTokenCount u = None
  \/ Gemini.promptTokenCount u = Some (Fin 0) ->
  Gemini.candidatesTokenCount u = None
  \/ Gemini.candidatesTokenCount u = Some (Fin 0) ->
  Gemini.calculateCreditsUsed (Some u) = Fin 0
  /\ Gemini.calculateCreditsUsed (Some u) <> Fin 1
  /\ Gemini.calculateCreditsUsed None = Fin 1.
Proof.
  intros Hp Hc.
  assert (H0 : Gemini.calculateCreditsUsed (Some u) = Fin 0).
  { unfold Gemini.calculateCreditsUsed.
    rewrite (orElse_absent_or_zero (Fin 0) Hp),
            (orElse_absent_or_zero (Fin 0) Hc).
    num_simpl. do 2 f_equal. apply Zceil_eq. lra. }
  split; [exact H0 | split; [ | reflexivity]].
  rewrite H0. intros E. injection E as E. lra.
Qed.

Lemma calculateCreditsUsed_zero_usage_witness :
  Gemini.calculateCreditsUsed
    (Some {| Gemini.promptTokenCount := None;
             Gemini.candidatesTokenCount := Some (Fin 0) |})
  = Fin 0.
Proof.
  refine (proj1 (@calculateCreditsUsed_zero_usage
                   {| Gemini.promptTokenCount := None;
                      Gemini.candidatesTokenCount := Some (Fin 0) |} _ _));
    simpl; [left | right]; reflexivity.
Defined.

End CreditFacts.

(** ** Destination safety gate *)

Section DestinationFacts.

Import Destination.

Lemma lookup_value_in {V : Type} (k : string) (table : list (string * V))
  (v : V) :
  Str.lookup k table = Some v -> In v (map snd table).
Proof.
  induction table as [| [k' v'] rest IH]; simpl; [discriminate |].
  destruct (String.eqb k k').
  - intros E; injection E as ->; now left.
  - intros E; right; auto.
Qed.

Lemma advisory_entries_unsafe :
  Forall (fun info => safe info = false) (map snd advisoryDestinations).
Proof. repeat constructor. Qed.

Lemma advisory_unsafe (c : string) (info : DestinationInfo) :
  Str.lookup c advisoryDestinations = Some info -> safe info = false.
Proof.
  intros H. apply lookup_value_in in H.
  exact (proj1 (Forall_forall _ _) advisory_entries_unsafe info H).
Qed.

Lemma classify_advisory (c : string) (info : DestinationInfo) :
  Str.lookup c advisoryDestinations = Some info ->
  isSafe (classify c) = false
  /\ isAccessible (classify c) = false
  /\ warnings (classify c) = infoWarnings info
  /\ travelAdvisory (classify c) = Some "do-not-travel"%string.
Proof.
  intros H. pose proof (advisory_unsafe _ H) as Hs.
  unfold classify. rewrite H. simpl. rewrite Hs. auto.
Qed.

(** The steps after [classify] leave the safety fields, the warnings and the
    advisory level untouched. *)
Local Notation "'sameGate' v w" :=
  (isSafe w = isSafe v /\ isAccessible w = isAccessible v
   /\ warnings w = warnings v /\ travelAdvisory w = travelAdvisory v)
  (at level 10, v at level 9, w at level 9).

Lemma sameGate_trans (u v w : Verdict) :
  sameGate u v -> sameGate v w -> sameGate u w.
Proof.
  intros (A1 & A2 & A3 & A4) (B1 & B2 & B3 & B4).
  repeat split; congruence.
Qed.

Lemma addCityInfo_gate (loc : LocationInfo) (v : Verdict) :
  sameGate v (addCityInfo loc v).
Proof. unfold addCityInfo. destruct (knownCity loc); repeat split. Qed.

Lemma addTurkishTravelerRecommendations_gate (v : Verdict) (c : string) :
  sameGate v (addTurkishTravelerRecommendations v c).
Proof.
  unfold addTurkishTravelerRecommendations.
  destruct (Str.mem c visaFreeForTurks); [repeat split |].
  destruct (Str.mem c eVisaCountries); [repeat split |].
  destruct (Str.mem c schengenCountries); repeat split.
Qed.

Lemma setAccessibility_gate (v : Verdict) (a : Accessibility) :
  sameGate v (setAccessibility v a).
Proof. repeat split. Qed.

Lemma verifyDestination_gate (destination : string) :
  sameGate (classify (locCountry (parseDestination destination)))
           (verifyDestination destination).
Proof.
  unfold verifyDestination.
  eapply sameGate_trans; [apply addCityInfo_gate |].
  eapply sameGate_trans; [apply addTurkishTravelerRecommendations_gate |].
  apply setAccessibility_gate.
Qed.

Lemma verifyDestination_advisory (destination : string)
  (info : DestinationInfo) :
  Str.lookup (locCountry (parseDestination destination)) advisoryDestinations
  = Some info ->
  isSafe (verifyDestination destination) = false
  /\ isAccessible (verifyDestination destination) = false
  /\ warnings (verifyDestination destination) = infoWarnings info
  /\ travelAdvisory (verifyDestination destination)
     = Some "do-not-travel"%string.
Proof.
  intros H.
  destruct (classify_advisory _ H) as (C1 & C2 & C3 & C4).
  destruct (verifyDestination_gate destination) as (G1 & G2 & G3 & G4).
  repeat split; congruence.
Qed.

End DestinationFacts.

(** ** Plan orchestrator *)

Section ControllerFacts.

Context {host : Host}.

Import Controller.

(** C1.  When the destination of a request resolves to a country of the
    travel-advisory table, the verdict has [isSafe = false]; the handler
    answers with status 400 and starts no background call, so the plan
    collection is left as it was; and when the request passed the request
    validator, the answer is the destination rejection carrying the
    verdict's warnings, the advisory level [do-not-travel] and the safe
    alternatives. *)
Theorem advisory_destination_rejected (req : HttpRequest) (pid : string)
  (aiOutcome : Except GeneratedPlan) (fetched : Except Currency.Rates)
  (db : Store) (info : Destination.DestinationInfo) :
  Str.lookup
    (Destination.locCountry
       (Destination.parseDestination (destination (body req))))
    Destination.advisoryDestinations = Some info ->
  let verdict := Destination.verifyDestination (destination (body req)) in
  let outcome := submitPlanRequest req pid aiOutcome fetched db in
  Destination.isSafe verdict = false
  /\ statusCode (fst outcome) = 400
  /\ snd (generateTravelPlan req pid) = None
  /\ snd outcome = db
  /\ (validationErrors req = [] ->
      fst outcome
      = DestinationRejected
          (Destination.infoWarnings info) (Some "do-not-travel"%string)
          (Destination.getSafeAlternatives (destination (body req)))).
Proof.
  intros H verdict outcome.
  destruct (verifyDestination_advisory _ H) as (V1 & V2 & V3 & V4).
  subst verdict outcome.
  unfold submitPlanRequest, generateTravelPlan.
  destruct (validationErrors req) as [| e es];
    cbn [Gemini.isEmpty negb destination fst snd].
  - rewrite V1, V2, V3, V4. cbn. repeat split; auto.
  - cbn. repeat split; auto. discriminate.
Qed.

End ControllerFacts.

Lemma advisory_destination_rejected_witness :
  Controller.submitPlanRequest (host := Examples.exampleHost)
    (Examples.submission "Kabul, Afghanistan") "plan_1"
    (Throw "not called") (Throw "not called") []
  = (Controller.DestinationRejected
       ["Do not travel - extreme security risk"%string]
       (Some "do-not-travel"%string)
       (Destination.getSafeAlternatives "Kabul, Afghanistan"),
     []).
Proof.
  destruct (@advisory_destination_rejected Examples.exampleHost
              (Examples.submission "Kabul, Afghanistan") "plan_1"%string
              (Throw "not called"%string) (Throw "not called"%string) []
              (Destination.advisory "Do not travel - extreme security risk")
              eq_refl)
    as (_ & _ & _ & Hdb & Hresp).
  rewrite (surjective_pairing (Controller.submitPlanRequest _ _ _ _ _)).
  rewrite Hdb, (Hresp eq_refl). reflexivity.
Defined.

(** ** Plan orchestrator: advisory tips *)

Section TipFacts.

Context {host : Host}.

Import Controller.

Lemma nonEmpty_false {A : Type} (l : list A) : nonEmpty l = false -> l = [].
Proof. destruct l; [reflexivity | discriminate]. Qed.

Lemma foldTips_shape (tips validationWarnings : list string)
  (destinationInfo : Destination.Verdict) :
  foldTips tips validationWarnings destinationInfo
  = tips
    ++ map priceAlert (firstn 3 validationWarnings)
    ++ map travelAdvisoryTip (Destination.warnings destinationInfo)
    ++ map travelInfoTip
           (firstn 2 (Destination.recommendations destinationInfo)).
Proof.
  unfold foldTips.
  destruct (nonEmpty validationWarnings) eqn:E1;
    destruct (nonEmpty (Destination.warnings destinationInfo)) eqn:E2;
    destruct (nonEmpty (Destination.recommendations destinationInfo)) eqn:E3;
    try (apply nonEmpty_false in E1; rewrite E1);
    try (apply nonEmpty_false in E2; rewrite E2);
    try (apply nonEmpty_false in E3; rewrite E3);
    simpl; rewrite <- ?app_assoc, ?app_nil_r; reflexivity.
Qed.

Lemma replace_created (doc : TravelPlan) (pid userId : string)
  (planRequest : PlanRequest) (db : Store) :
  planId doc = pid ->
  In doc (replace doc (create (draft pid userId planRequest) db)).
Proof.
  intros <-. unfold replace, create. rewrite map_app. apply in_or_app. right.
  simpl. rewrite String.eqb_refl. now left.
Qed.


End TipFacts.

(** ** AI plan generator: structural validation *)

Section GeminiFacts.

Context {host : Host}.

Import Gemini.

Open Scope string_scope.
Open Scope list_scope.

(** A route that passes the route check. *)
Local Notation "'complete' r" := (r <> JNull /\ routeMissing r = [])
  (at level 10, r at level 9).

Lemma filter_none {A : Type} (f : A -> bool) (l : list A) :
  Forall (fun x => f x = false) l -> filter f l = [].
Proof.
  induction 1 as [| x l Hx _ IH]; simpl; [reflexivity |].
  now rewrite Hx.
Qed.

Lemma checkRoutes_first_offender (pre : list json) (r : json)
  (post : list json) (index : nat) :
  Forall (fun q => complete q) pre ->
  r <> JNull -> routeMissing r <> [] ->
  checkRoutes (pre ++ r :: post) index
  = Throw ("Route " ++ Str.ofNat (index + List.length pre + 1)
           ++ " missing fields: " ++ Str.join ", " (routeMissing r)).
Proof.
  intros Hpre Hr Hm. revert index.
  induction Hpre as [| q pre [Hq Hqm] _ IH]; intros index.
  - cbn [app List.length checkRoutes]. rewrite Nat.add_0_r.
    destruct r; try congruence;
      destruct (routeMissing _); try congruence; reflexivity.
  - cbn [app List.length checkRoutes]. rewrite IH.
    replace (S index + List.length pre + 1)%nat
      with (index + S (List.length pre) + 1)%nat by lia.
    destruct q; try congruence; rewrite Hqm; reflexivity.
Qed.

(** What [validateTravelPlan] throws at the first incomplete route. *)
Lemma validateTravelPlan_first_offender (plan : json) (pre : list json)
  (r : json) (post : list json) :
  Forall (fun field => truthy (property plan field) = true) required ->
  property plan "mainRoutes" = Some (JArray (pre ++ r :: post)) ->
  Forall (fun q => complete q) pre ->
  r <> JNull -> routeMissing r <> [] ->
  validateTravelPlan plan
  = Throw ("Route " ++ Str.ofNat (List.length pre + 1) ++ " missing fields: "
           ++ Str.join ", " (routeMissing r)).
Proof.
  intros Htop Hroutes Hpre Hr Hm.
  unfold validateTravelPlan.
  destruct plan; try discriminate Hroutes.
  rewrite filter_none.
  - cbn [isEmpty negb]. rewrite Hroutes.
    destruct (pre ++ r :: post) eqn:E; [now destruct pre |].
    cbn [isEmpty]. rewrite <- E.
    now rewrite (@checkRoutes_first_offender pre r post 0 Hpre Hr Hm).
  - eapply Forall_impl; [| exact Htop].
    intros f Hf; cbv beta in *. now rewrite Hf.
Qed.

(** Every error raised while parsing or validating the text leaves
    [parseGeminiResponse] as one fixed message. *)
Lemma parseGeminiResponse_throws (responseText jsonStr : string)
  (plan : json) (message : string) :
  extractJson responseText = Ok jsonStr ->
  JSON_parse jsonStr = Ok plan ->
  validateTravelPlan plan = Throw message ->
  parseGeminiResponse responseText
  = Throw "Invalid response format from AI service".
Proof.
  intros Hx Hp Hv. unfold parseGeminiResponse. rewrite Hx. cbn [bind].
  rewrite Hp. cbn [bind]. rewrite Hv. reflexivity.
Qed.

(** C5 (as the code has it).  Let the AI text yield a parsed plan whose four
    top-level fields are present and whose routes are complete up to a first
    route [r] that lacks some of [id], [name], [totalCost], [breakdown],
    [dailyPlan].  Then [validateTravelPlan] aborts with the message that
    names the 1-based position of [r] and its missing fields, and the caller
    of [generateTravelPlan] observes the classified error
    [GEMINI_API_ERROR]. *)
Theorem malformed_route_error (responseText jsonStr : string) (plan : json)
  (pre : list json) (r : json) (post : list json)
  (usage : option UsageMetadata) :
  extractJson responseText = Ok jsonStr ->
  JSON_parse jsonStr = Ok plan ->
  Forall (fun field => truthy (property plan field) = true) required ->
  property plan "mainRoutes" = Some (JArray (pre ++ r :: post)) ->
  Forall (fun q => complete q) pre ->
  r <> JNull -> routeMissing r <> [] ->
  validateTravelPlan plan
  = Throw ("Route " ++ Str.ofNat (List.length pre + 1) ++ " missing fields: "
           ++ Str.join ", " (routeMissing r))
  /\ generateTravelPlan
       (Ok (Some {| text := Ok responseText; usageMetadata := usage |}))
     = Throw "GEMINI_API_ERROR".
Proof.
  intros Hx Hp Htop Hroutes Hpre Hr Hm.
  pose proof (@validateTravelPlan_first_offender plan pre r post
                Htop Hroutes Hpre Hr Hm) as Hv.
  split; [exact Hv |].
  unfold generateTravelPlan. cbn [bind text].
  rewrite (@parseGeminiResponse_throws responseText jsonStr plan _ Hx Hp Hv).
  reflexivity.
Qed.

End GeminiFacts.

Lemma malformed_route_error_witness :
  Gemini.generateTravelPlan (host := Examples.exampleHost)
    (Ok (Some {| Gemini.text := Ok Examples.incompleteText;
                 Gemini.usageMetadata := None |}))
  = Throw "GEMINI_API_ERROR".
Proof.
  refine (proj2
    (@malformed_route_error Examples.exampleHost
       Examples.incompleteText Examples.incompleteText
       Examples.incompletePlan []
       (JObject [("id"%string, JNumber (Fin 1))]) [] None
       eq_refl eq_refl _ eq_refl _ _ _)).
  - repeat constructor.
  - constructor.
  - discriminate.
  - discriminate.
Defined.

(** C5, the claim as stated, fails.  The parsed response
    [Examples.incompletePlan] has a route without [name], [totalCost],
    [breakdown] and [dailyPlan]; [validateTravelPlan] names route 1, but the
    caller of [generateTravelPlan] observes [GEMINI_API_ERROR], a message
    that contains no route index. *)
Lemma malformed_route_error_counterexample :
  Gemini.validateTravelPlan Examples.incompletePlan
  = Throw "Route 1 missing fields: name, totalCost, breakdown, dailyPlan"
  /\ Gemini.generateTravelPlan (host := Examples.exampleHost)
       (Ok (Some {| Gemini.text := Ok Examples.incompleteText;
                    Gemini.usageMetadata := None |}))
     = Throw "GEMINI_API_ERROR"
  /\ Str.includes "GEMINI_API_ERROR" (Str.ofNat 1) = false.
Proof. repeat split. Qed.

(** ** Plan utilities: the cache fingerprint *)

Section FingerprintFacts.

Import PlanUtils.

Open Scope R_scope.

Lemma keyBudget_hundreds (b : R) (z : Z) :
  IZR z - / 2 <= b / 100 < IZR z + / 2 ->
  (Num.round (Fin b / Fin 100) * Fin 100)%num = Fin (IZR z * 100).
Proof.
  intros H. rewrite div_Fin by lra. now rewrite (@round_between _ _ H).
Qed.

Lemma keyBudget_round (b : R) :
  (Num.round (Fin b / Fin 100) * Fin 100)%num
  = Fin (IZR (Zfloor (b / 100 + / 2)) * 100).
Proof. rewrite div_Fin by lra. reflexivity. Qed.

(** C6 (as the code has it).  The fingerprint is the digest of the key data:
    the lowercased and trimmed destination, the two dates, the budget
    rounded to the nearest hundred, the currency, the traveler count, the
    (defaulted) travel style and the sorted, comma-joined interests.  Two
    requests with finite budgets that agree on all of these have the same
    fingerprint; and unless the serialisation or the digest collides on
    their key data, two requests that differ in one of them have different
    fingerprints.  Budgets are told apart only by the hundred they round
    to. *)
Theorem generateCacheKey_fingerprint {host : Host} (r1 r2 : PlanRequest)
  (b1 b2 : R) :
  budget r1 = Fin b1 -> budget r2 = Fin b2 ->
  (md5_hex (JSON_stringify (keyData r1)) = md5_hex (JSON_stringify (keyData r2))
   -> keyData r1 = keyData r2) ->
  generateCacheKey r1 = generateCacheKey r2
  <-> Str.trim (Str.toLowerCase (destination r1))
      = Str.trim (Str.toLowerCase (destination r2))
      /\ startDate r1 = startDate r2
      /\ endDate r1 = endDate r2
      /\ Zfloor (b1 / 100 + / 2) = Zfloor (b2 / 100 + / 2)
      /\ currency r1 = currency r2
      /\ travelers r1 = travelers r2
      /\ keyStyle r1 = keyStyle r2
      /\ keyInterestList r1 = keyInterestList r2.
Proof.
  intros Hb1 Hb2 Hfree. unfold generateCacheKey. split.
  - intros E. apply Hfree in E.
    pose proof (f_equal keyDestination E) as E1.
    pose proof (f_equal keyStartDate E) as E2.
    pose proof (f_equal keyEndDate E) as E3.
    pose proof (f_equal keyBudget E) as E4.
    pose proof (f_equal keyCurrency E) as E5.
    pose proof (f_equal keyTravelers E) as E6.
    pose proof (f_equal keyTravelStyle E) as E7.
    pose proof (f_equal keyInterests E) as E8.
    cbn [keyData keyDestination keyStartDate keyEndDate keyBudget
         keyCurrency keyTravelers keyTravelStyle keyInterests]
      in E1, E2, E3, E4, E5, E6, E7, E8.
    rewrite Hb1, Hb2, !keyBudget_round in E4. injection E4 as E4.
    repeat split; try assumption.
    apply eq_IZR. lra.
  - intros (E1 & E2 & E3 & E4 & E5 & E6 & E7 & E8).
    unfold keyData.
    rewrite Hb1, Hb2, !keyBudget_round, E1, E2, E3, E4, E5, E6, E7, E8.
    reflexivity.
Qed.

Lemma generateCacheKey_fingerprint_witness :
  PlanUtils.generateCacheKey (host := Examples.exampleHost)
    (Examples.paris (Fin 2000) "USD")
  <> PlanUtils.generateCacheKey (host := Examples.exampleHost) Examples.rio
  /\ PlanUtils.generateCacheKey (host := Examples.exampleHost)
       {| destination := "Paris, France"; startDate := "2026-06-01";
          endDate := "2026-06-07"; budget := Fin 2000; currency := "USD";
          travelers := Some (Fin 1);
          preferences :=
            Some {| travelStyle := None;
                    interests := Some ["food"; "art"]%string |};
          userId := "u1"; language := "en" |}
     = PlanUtils.generateCacheKey (host := Examples.exampleHost)
         {| destination := "Paris, France"; startDate := "2026-06-01";
            endDate := "2026-06-07"; budget := Fin 2040; currency := "USD";
            travelers := Some (Fin 1);
            preferences :=
              Some {| travelStyle := Some "mid-range"%string;
                      interests := Some ["art"; "food"]%string |};
            userId := "u2"; language := "tr" |}.
Proof.
  split.
  - intros E.
    apply (@generateCacheKey_fingerprint Examples.exampleHost
             (Examples.paris (Fin 2000) "USD") Examples.rio 2000 2000
             eq_refl eq_refl) in E.
    + destruct E as (E & _). discriminate E.
    + intros C. discriminate C.
  - assert (R : Zfloor (2000 / 100 + / 2) = Zfloor (2040 / 100 + / 2)).
    { rewrite (@Zfloor_eq 20 (2000 / 100 + / 2)),
              (@Zfloor_eq 20 (2040 / 100 + / 2)); [reflexivity | |];
        simpl; lra. }
    match goal with
    | |- generateCacheKey ?r1 = generateCacheKey ?r2 =>
        apply (@generateCacheKey_fingerprint Examples.exampleHost r1 r2
                 2000 2040 eq_refl eq_refl)
    end.
    + intros _. unfold keyData.
      cbn [budget]. rewrite !keyBudget_round, R. reflexivity.
    + repeat split. exact R.
Defined.

(** C6, the claim as stated, fails: two requests that are identical except
    for their budgets, 2000 and 2040, have the same key data and hence the
    same fingerprint on every host. *)
Lemma generateCacheKey_fingerprint_counterexample :
  budget (Examples.paris (Fin 2000) "USD")
  <> budget (Examples.paris (Fin 2040) "USD")
  /\ keyData (Examples.paris (Fin 2000) "USD")
     = keyData (Examples.paris (Fin 2040) "USD")
  /\ (forall host : Host,
        generateCacheKey (Examples.paris (Fin 2000) "USD")
        = generateCacheKey (Examples.paris (Fin 2040) "USD")).
Proof.
  assert (K : keyData (Examples.paris (Fin 2000) "USD")
              = keyData (Examples.paris (Fin 2040) "USD")).
  { unfold keyData, keyStyle, keyInterestList.
    cbn [Examples.paris budget destination startDate endDate
         currency travelers preferences].
    rewrite (@keyBudget_hundreds 2000 20), (@keyBudget_hundreds 2040 20)
      by lra.
    reflexivity. }
  split; [| split; [exact K |]].
  - cbn. intros E. injection E as E. lra.
  - intros host. unfold generateCacheKey. now rewrite K.
Qed.

End FingerprintFacts.

(** ** Price sanity validator: outlier detection *)

Section OutlierFacts.

Context {host : Host}.

Import PriceValidation.

Open Scope R_scope.

Lemma sum_Fin (xs : list R) (a : R) :
  fold_left (fun sum val => (sum + val)%num) (map Fin xs) (Fin a)
  = Fin (fold_left Rplus xs a).
Proof.
  revert a; induction xs as [| x xs IH]; intros a; simpl; [reflexivity |].
  apply IH.
Qed.

Lemma squares_Fin (m : R) (xs : list R) (a : R) :
  fold_left (fun sum val => (sum + Num.pow (val - Fin m) 2)%num)
            (map Fin xs) (Fin a)
  = Fin (fold_left (fun s x => s + (x + - m) * ((x + - m) * 1)) xs a).
Proof.
  revert a; induction xs as [| x xs IH]; intros a; simpl; [reflexivity |].
  apply IH.
Qed.

Lemma square_nonneg (d : R) : 0 <= d * (d * 1).
Proof. replace (d * (d * 1)) with (d * d) by ring. nra. Qed.

Lemma squares_nonneg (m : R) (xs : list R) (a : R) :
  0 <= a -> 0 <= fold_left (fun s x => s + (x + - m) * ((x + - m) * 1)) xs a.
Proof.
  revert a; induction xs as [| x xs IH]; intros a Ha; simpl; [exact Ha |].
  apply IH. pose proof (square_nonneg (x + - m)). lra.
Qed.

Lemma squares_grow (m : R) (xs : list R) (a : R) :
  a <= fold_left (fun s x => s + (x + - m) * ((x + - m) * 1)) xs a.
Proof.
  revert a; induction xs as [| x xs IH]; intros a; simpl; [lra |].
  eapply Rle_trans; [| apply IH].
  pose proof (square_nonneg (x + - m)). lra.
Qed.

(** Each squared deviation is at most the sum of all of them. *)
Lemma square_le_squares (m : R) (xs : list R) (a x : R) :
  0 <= a -> In x xs ->
  (x + - m) * ((x + - m) * 1)
  <= fold_left (fun s x => s + (x + - m) * ((x + - m) * 1)) xs a.
Proof.
  revert a; induction xs as [| y xs IH]; intros a Ha Hin; [destruct Hin |].
  simpl. destruct Hin as [-> | Hin].
  - eapply Rle_trans; [| apply squares_grow]. lra.
  - apply IH; [| exact Hin]. pose proof (square_nonneg (y + - m)). lra.
Qed.

Lemma INR_length_pos {A : Type} (l : list A) :
  l <> [] -> 0 < INR (List.length l).
Proof.
  destruct l; [congruence |]. intros _. apply lt_0_INR. simpl. lia.
Qed.

(** The statistics of a non-empty list of finite values. *)
Lemma calculateStatistics_Fin (xs : list R) :
  xs <> [] ->
  let n := INR (List.length xs) in
  let m := fold_left Rplus xs 0 / n in
  let V := fold_left (fun s x => s + (x + - m) * ((x + - m) * 1)) xs 0 / n in
  calculateStatistics (map Fin xs)
  = {| mean := Fin m; variance := Fin V; stdDev := Fin (R_sqrt.sqrt V) |}.
Proof.
  intros Hne n m V. pose proof (INR_length_pos Hne) as Hn.
  unfold calculateStatistics. rewrite length_map, sum_Fin.
  unfold Num.ofNat. rewrite div_Fin by lra.
  fold n. fold m. rewrite squares_Fin, div_Fin by (unfold n; lra).
  fold V.
  assert (HV : 0 <= V).
  { unfold V. apply Rmult_le_pos.
    - apply squares_nonneg. lra.
    - left. apply Rinv_0_lt_compat. exact Hn. }
  unfold Num.sqrt. now rewrite Rltb_false by lra.
Qed.

(** A value whose squared deviation is at most four times the variance is
    not flagged. *)
Lemma not_flagged (m V x : R) :
  0 <= V ->
  (x + - m) * ((x + - m) * 1) <= 4 * V ->
  Num.gtb (zScoreOf {| mean := Fin m; variance := Fin V;
                       stdDev := Fin (R_sqrt.sqrt V) |} (Fin x))
          (Fin 2) = false.
Proof.
  intros HV Hd. unfold zScoreOf. cbn [mean stdDev Num.sub Num.neg Num.add].
  set (d := x + - m) in *.
  pose proof (sqrt_pos V) as Hs0. pose proof (sqrt_sqrt V HV) as Hss.
  set (s := R_sqrt.sqrt V) in *.
  assert (Hdd : d * d <= 4 * (s * s)) by (rewrite Hss; lra).
  unfold Num.div. destruct (Req_dec_T s 0) as [Hz | Hnz].
  - rewrite (Reqb_true Hz).
    assert (d = 0) by (rewrite Hz in Hdd; nra).
    now rewrite (Reqb_true H).
  - rewrite (Reqb_false Hnz). cbn [Num.abs Num.gtb Num.ltb].
    apply Rltb_false. apply Rabs_le.
    assert (Hs : 0 < s) by lra.
    assert (E : d / s * s = d) by (field; lra).
    set (q := d / s) in *.
    assert (Hss' : 0 < s * s) by nra.
    assert (Hq : q * q * (s * s) <= 4 * (s * s)).
    { replace (q * q * (s * s)) with (q * s * (q * s)) by ring.
      rewrite E. exact Hdd. }
    assert (Hq4 : q * q <= 4)
      by (apply Rmult_le_reg_r with (s * s); assumption).
    split; nra.
Qed.

Lemma flat_map_none {A B : Type} (f : A -> list B) (l : list A) :
  (forall a, In a l -> f a = []) -> flat_map f l = [].
Proof.
  induction l as [| a l IH]; intros H; simpl; [reflexivity |].
  rewrite (H a) by now left. apply IH. intros b Hb. apply H. now right.
Qed.

(** With at most four routes no route can lie more than two population
    standard deviations from the mean. *)
Lemma few_routes_no_outliers (routes : list Route) (category : string)
  (xs : list R) :
  map (categoryValue category) routes = map Fin xs ->
  (List.length routes <= 4)%nat ->
  categoryOutliers routes category = [].
Proof.
  intros Hvalues Hlen.
  destruct routes as [| r0 routes']; [reflexivity |].
  set (routes := r0 :: routes') in *.
  assert (Hne : xs <> []).
  { intros ->. discriminate Hvalues. }
  assert (Hlen' : INR (List.length xs) <= 4).
  { replace (List.length xs) with (List.length routes).
    - replace 4 with (INR 4) by (simpl; lra). now apply le_INR.
    - rewrite <- (length_map (categoryValue category)), Hvalues.
      apply length_map. }
  pose proof (INR_length_pos Hne) as Hn.
  unfold categoryOutliers. rewrite Hvalues.
  rewrite (calculateStatistics_Fin Hne).
  apply flat_map_none. intros r Hr.
  assert (Hx : exists x, In x xs /\ categoryValue category r = Fin x).
  { apply (in_map (categoryValue category)) in Hr. rewrite Hvalues in Hr.
    apply in_map_iff in Hr. destruct Hr as (x & E & Hx). eauto. }
  destruct Hx as (x & Hx & ->).
  set (m := fold_left Rplus xs 0 / INR (List.length xs)).
  set (Q := fold_left (fun s x => s + (x + - m) * ((x + - m) * 1)) xs 0).
  assert (HQ : (x + - m) * ((x + - m) * 1) <= Q)
    by (apply square_le_squares; [lra | exact Hx]).
  assert (HQ0 : 0 <= Q) by (apply squares_nonneg; lra).
  assert (HV : Q <= 4 * (Q / INR (List.length xs))).
  { assert (E : Q / INR (List.length xs) * INR (List.length xs) = Q)
      by (field; lra).
    assert (0 <= Q / INR (List.length xs)).
    { apply Rmult_le_pos; [exact HQ0 |]. left. now apply Rinv_0_lt_compat. }
    nra. }
  rewrite not_flagged; [reflexivity | |].
  - apply Rmult_le_pos; [exact HQ0 |]. left. now apply Rinv_0_lt_compat.
  - fold m. fold Q. lra.
Qed.

Lemma categoryOutliers_category (routes : list Route) (c : string)
  (o : Outlier) :
  In o (categoryOutliers routes c) -> category o = c.
Proof.
  unfold categoryOutliers. intros H. apply in_flat_map in H.
  destruct H as (r & _ & H).
  destruct (Num.gtb _ _); [| destruct H].
  destruct H as [<- | []]. reflexivity.
Qed.

(** A category without outliers of its own contributes none to the report. *)
Lemma detectPriceOutliers_category (routes : list Route) (c : string) :
  categoryOutliers routes c = [] ->
  forall o, In o (outliers (detectPriceOutliers routes)) -> category o <> c.
Proof.
  intros Hnone o Ho Hc. unfold detectPriceOutliers in Ho.
  destruct (List.length routes <? 2)%nat; [destruct Ho |].
  cbn [outliers] in Ho. apply in_flat_map in Ho.
  destruct Ho as (c' & _ & Ho).
  pose proof (categoryOutliers_category _ _ _ Ho) as E.
  rewrite Hc in E. subst c'. rewrite Hnone in Ho. destruct Ho.
Qed.

(** C2 (as the code has it).  For a plan of three routes whose values in one
    cost category are 1000, 1050 and 5000, in any order, the detector, which
    uses the population standard deviation, flags none of the three routes
    in that category: no route lies more than 2 standard deviations from the
    mean, and the report holds no outlier of that category. *)
Theorem three_routes_none_flagged (routes : list Route) (c : string) :
  Permutation (map (categoryValue c) routes)
              [Fin 1000; Fin 1050; Fin 5000] ->
  categoryOutliers routes c = []
  /\ (forall o, In o (outliers (detectPriceOutliers routes)) ->
      category o <> c).
Proof.
  intros Hperm.
  assert (Hnone : categoryOutliers routes c = []).
  { destruct (Permutation_map_inv Fin [1000; 1050; 5000] Hperm)
      as (xs & Hxs & _).
    apply few_routes_no_outliers with (xs := xs); [exact Hxs |].
    rewrite <- (length_map (categoryValue c)).
    rewrite (Permutation_length Hperm). simpl. lia. }
  split; [exact Hnone | now apply detectPriceOutliers_category].
Qed.

End OutlierFacts.

Lemma three_routes_none_flagged_witness :
  PriceValidation.categoryOutliers (host := Examples.exampleHost)
    Examples.threeRoutes "totalCost" = [].
Proof.
  exact (proj1 (@three_routes_none_flagged Examples.exampleHost
                  Examples.threeRoutes "totalCost"%string
                  (Permutation_refl _))).
Defined.

(** C2, the claim as stated, fails: for the three routes of
    [Examples.threeRoutes], whose total costs are 1000, 1050 and 5000, the
    detector reports no outlier at all, so the route that costs 5000 is not
    flagged. *)
Lemma three_routes_none_flagged_counterexample :
  map totalCost Examples.threeRoutes = [Fin 1000; Fin 1050; Fin 5000]
  /\ PriceValidation.outliers
       (PriceValidation.detectPriceOutliers (host := Examples.exampleHost)
          Examples.threeRoutes) = [].
Proof.
  split; [reflexivity |].
  unfold PriceValidation.detectPriceOutliers.
  cbn [Examples.threeRoutes List.length Nat.ltb Nat.leb
       PriceValidation.outliers PriceValidation.categories flat_map].
  rewrite (@few_routes_no_outliers Examples.exampleHost Examples.threeRoutes
             "totalCost" [1000; 1050; 5000]%R eq_refl)
    by (simpl; lia).
  rewrite (@few_routes_no_outliers Examples.exampleHost Examples.threeRoutes
             "flights" [600; 620; 3000]%R eq_refl)
    by (simpl; lia).
  rewrite (@few_routes_no_outliers Examples.exampleHost Examples.threeRoutes
             "hotels" [300; 320; 1500]%R eq_refl)
    by (simpl; lia).
  rewrite (@few_routes_no_outliers Examples.exampleHost Examples.threeRoutes
             "activities" [100; 110; 500]%R eq_refl)
    by (simpl; lia).
  reflexivity.
Qed.

(** ** Price sanity validator: equal values, in binary64 *)

Section EqualValueFacts.

Import PrimFloat SpecFloat FloatOps FloatAxioms.
Import Binary64.

Context {host : FloatHost}.

(** Two numbers that compare equal differ by a zero, or by NaN when they
    are the same infinity. *)
Lemma SFsub_equal (x y : spec_float) :
  SFeqb x y = true ->
  SF64sub x y = S754_nan \/ exists s, SF64sub x y = S754_zero s.
Proof.
  unfold SFeqb, SF64sub.
  destruct x as [[] | [] | | [] mx ex], y as [[] | [] | | [] my ey];
    cbn [SFcompare SFsub negb]; try discriminate; eauto.
  - destruct (Z.compare ex ey) eqn:E; try discriminate.
    destruct (Pos.compare_cont Eq mx my) eqn:M; try discriminate.
    apply Z.compare_eq in E. apply (Pos.compare_eq mx my) in M. subst.
    intros _. right. exists false. cbn [cond_Zopp]. now rewrite Z.sub_diag.
  - destruct (Z.compare ex ey) eqn:E; try discriminate.
    destruct (Pos.compare_cont Eq mx my) eqn:M; try discriminate.
    apply Z.compare_eq in E. apply (Pos.compare_eq mx my) in M. subst.
    intros _. right. exists false. cbn [cond_Zopp]. now rewrite Z.sub_diag.
Qed.

(** A zero or NaN divided by anything is, in absolute value, zero or NaN. *)
Lemma SFdiv_zero_or_nan (d s : spec_float) :
  d = S754_nan \/ (exists b, d = S754_zero b) ->
  SFabs (SF64div d s) = S754_nan \/ SFabs (SF64div d s) = S754_zero false.
Proof.
  intros [-> | [b ->]]; unfold SF64div.
  - left. destruct s; reflexivity.
  - destruct s; cbn [SFdiv SFabs]; auto.
Qed.

(** The z-score of a value that equals the mean is NaN or 0, whatever the
    standard deviation, and is not greater than 2. *)
Lemma zScoreOf_at_mean (stats : Statistics) (v : float) :
  (v =? mean stats)%float = true ->
  (zScoreOf stats v = nan \/ zScoreOf stats v = 0%float)
  /\ (2 <? zScoreOf stats v)%float = false.
Proof.
  intros H. rewrite eqb_spec in H.
  assert (Hz : Prim2SF (zScoreOf stats v) = S754_nan
               \/ Prim2SF (zScoreOf stats v) = S754_zero false).
  { unfold zScoreOf. rewrite abs_spec, div_spec, sub_spec.
    apply SFdiv_zero_or_nan, SFsub_equal, H. }
  split.
  - destruct Hz as [Hz | Hz]; [left | right];
      rewrite <- (SF2Prim_Prim2SF (zScoreOf stats v)), Hz; reflexivity.
  - rewrite ltb_spec. destruct Hz as [-> | ->]; reflexivity.
Qed.

Lemma categoryOutliers_category64 (routes : list Route) (c : string)
  (o : Outlier) :
  In o (categoryOutliers routes c) -> category o = c.
Proof.
  unfold categoryOutliers. intros H. apply in_flat_map in H.
  destruct H as (r & _ & H).
  destruct (ltb _ _); [| destruct H].
  destruct H as [<- | []]. reflexivity.
Qed.

Lemma detectPriceOutliers_category64 (routes : list Route) (c : string) :
  categoryOutliers routes c = [] ->
  forall o, In o (outliers (detectPriceOutliers routes)) -> category o <> c.
Proof.
  intros Hnone o Ho Hc. unfold detectPriceOutliers in Ho.
  destruct (List.length routes <? 2)%nat; [destruct Ho |].
  cbn [outliers] in Ho. apply in_flat_map in Ho.
  destruct Ho as (c' & _ & Ho).
  pose proof (@categoryOutliers_category64 _ _ _ Ho) as E.
  rewrite Hc in E. subst c'. rewrite Hnone in Ho. destruct Ho.
Qed.


End EqualValueFacts.

Section EqualValueExamples.

Import PrimFloat.



End EqualValueExamples.

(** ** Price sanity validator: currency conversion and budget thresholds *)

Section ValidatorFacts.

Context {host : Host}.

Import PriceValidation.

Open Scope R_scope.

Lemma convertCurrency_same (fetched : Except Currency.Rates)
  (amount : number) (c : string) :
  Currency.convertCurrency fetched amount c c
  = Ok {| Currency.originalAmount := amount;
          Currency.convertedAmount := amount; Currency.rate := Fin 1 |}.
Proof. unfold Currency.convertCurrency. now rewrite String.eqb_refl. Qed.

(** C3 (as the code has it).  When the currency conversion throws,
    [validateTravelPlan] does not throw and validates no route: it returns
    the report of its [catch] block, with [isValid = false], the single error
    [Price validation system temporarily unavailable], no warning, no route
    detail, and the message of the failure in the details. *)
Theorem conversion_failure_report (fetched : Except Currency.Rates)
  (travelPlan : GeneratedPlan) (request : PlanRequest) (message : string) :
  Currency.convertCurrency fetched (budget request) (currency request) "USD"
  = Throw message ->
  let report := validateTravelPlan fetched travelPlan request in
  reportIsValid report = false
  /\ reportWarnings report = []
  /\ reportErrors report
     = ["Price validation system temporarily unavailable"%string]
  /\ routeDetails (validationDetails report) = []
  /\ budgetDetails (validationDetails report) = None
  /\ outlierDetails (validationDetails report) = None
  /\ errorDetail (validationDetails report) = Some message.
Proof.
  intros Hthrow report.
  assert (Hreport : report = unavailable message).
  { subst report. unfold validateTravelPlan, referenceBudget.
    destruct (String.eqb (currency request) "USD") eqn:E.
    - apply String.eqb_eq in E. rewrite E, convertCurrency_same in Hthrow.
      discriminate.
    - cbn [negb]. now rewrite Hthrow. }
  rewrite Hreport. repeat split.
Qed.

(** *** Budget thresholds *)

Lemma validateStep_isValid (budgetInUSD duration travelers multiplier : number)
  (travelStyle : string) (routes : list Route) (acc : ValidationResults) :
  reportIsValid
    (fold_left (validateStep budgetInUSD duration travelers multiplier
                             travelStyle) routes acc)
  = reportIsValid acc
    && forallb (fun route =>
                  routeIsValid (validateRoute route budgetInUSD duration
                                              travelers multiplier
                                              travelStyle))
               routes.
Proof.
  revert acc; induction routes as [| r routes IH]; intros acc; simpl.
  - now rewrite andb_true_r.
  - rewrite IH. cbn [reportIsValid validateStep]. now rewrite andb_assoc.
Qed.

Lemma forallb_false {A : Type} (f : A -> bool) (l : list A) (a : A) :
  In a l -> f a = false -> forallb f l = false.
Proof.
  intros Hin Hf. destruct (forallb f l) eqn:E; [| reflexivity].
  rewrite forallb_forall in E. rewrite (E a Hin) in Hf. discriminate.
Qed.

(** A route that costs 130% of the per-traveler budget is invalid, whatever
    its components. *)
Lemma over_budget_invalid (route : Route)
  (budgetUSD duration partySize multiplier : number) (travelStyle : string)
  (b : R) :
  (budgetUSD / partySize)%num = Fin b -> 0 < b ->
  totalCost route = Fin (1.3 * b) ->
  let validation :=
    validateRoute route budgetUSD duration partySize multiplier travelStyle in
  routeIsValid validation = false
  /\ In (exceedsMessage (totalCost route)) (routeErrors validation).
Proof.
  intros Hb Hpos Htotal validation. subst validation.
  unfold validateRoute. cbn [routeIsValid routeErrors].
  rewrite Hb, Htotal. cbn [Num.mul Num.gtb Num.ltb].
  rewrite (@Rltb_true (b * 1.2) (1.3 * b)) by lra.
  split; [now rewrite !andb_false_r |].
  apply in_or_app; right. apply in_or_app; right. now left.
Qed.

(** C4.  Let [b > 0] be the per-traveler reference budget (the budget in USD
    divided by the traveler count).  A route whose total cost is 130% of [b]
    is marked invalid, with the over-budget error, and every report on a
    plan that contains it has [isValid = false].  A route whose total cost
    is 105% of [b], and whose per-person flight cost and per-night hotel cost
    lie within their scaled bands, stays valid: it has no error and carries
    the warning that it slightly exceeds the budget. *)
Theorem budget_thresholds (route : Route)
  (budgetUSD duration partySize multiplier : number) (travelStyle : string)
  (b : R) :
  (budgetUSD / partySize)%num = Fin b -> 0 < b ->
  let validation :=
    validateRoute route budgetUSD duration partySize multiplier travelStyle in
  let adjusted :=
    adjustBoundariesForCountry multiplier
                               (getTravelStyleMultiplier travelStyle) in
  let flightBand := international (flightBands adjusted) in
  let hotelBand := styleBand travelStyle (hotelBands adjusted) in
  let costPerPerson := (flights (breakdown route) / partySize)%num in
  let costPerNight := (hotels (breakdown route) / duration)%num in
  (totalCost route = Fin (1.3 * b) ->
   routeIsValid validation = false
   /\ In (exceedsMessage (totalCost route)) (routeErrors validation)
   /\ (forall (fetched : Except Currency.Rates) (travelPlan : GeneratedPlan)
              (request : PlanRequest),
         In route (mainRoutes travelPlan) ->
         referenceBudget fetched request = Ok budgetUSD ->
         Num.orElse (travelers request) (Fin 1) = partySize ->
         reportIsValid (validateTravelPlan fetched travelPlan request)
         = false))
  /\ (totalCost route = Fin (1.05 * b) ->
      (costPerPerson <? min flightBand)%num = false ->
      (costPerPerson >? max flightBand)%num = false ->
      (costPerNight <? min hotelBand)%num = false ->
      (costPerNight >? max hotelBand)%num = false ->
      routeIsValid validation = true
      /\ routeErrors validation = []
      /\ In (slightlyExceedsMessage (totalCost route))
            (routeWarnings validation)).
Proof.
  intros Hb Hpos validation adjusted flightBand hotelBand costPerPerson
         costPerNight.
  split.
  - intros Htotal.
    destruct (@over_budget_invalid route budgetUSD duration partySize
                multiplier travelStyle b Hb Hpos Htotal) as [Hinv Herr].
    split; [exact Hinv | split; [exact Herr |]].
    intros fetched travelPlan request Hin Hbudget Htrav.
    unfold validateTravelPlan. rewrite Hbudget.
    unfold validateWithBudget. cbn [reportIsValid].
    rewrite validateStep_isValid. cbn [emptyResults reportIsValid andb].
    apply forallb_false with (a := route); [exact Hin |].
    rewrite Htrav.
    refine (proj1 (@over_budget_invalid route budgetUSD _ partySize _ _ b
                     Hb Hpos Htotal)).
  - intros Htotal Hf1 Hf2 Hh1 Hh2. subst validation.
    unfold validateRoute. cbn [routeIsValid routeErrors routeWarnings].
    fold adjusted.
    unfold validateFlightPrices, validateHotelPrices.
    fold flightBand hotelBand costPerPerson costPerNight.
    rewrite Hf1, Hf2, Hh1, Hh2, Hb, Htotal.
    cbn [Num.mul Num.gtb Num.ltb].
    rewrite (@Rltb_false (b * 1.2) (1.05 * b)) by lra.
    rewrite (@Rltb_true b (1.05 * b)) by lra.
    assert (Hvalid : forall (c : bool) (w1 w2 : list string),
               isValid (if c then passed w1 else passed w2) = true)
      by (intros [] ? ?; reflexivity).
    rewrite !Hvalid. cbn [andb negb app].
    split; [reflexivity | split; [reflexivity |]].
    apply in_or_app; right. apply in_or_app; right.
    apply in_or_app; right. now left.
Qed.

End ValidatorFacts.

Lemma budget_thresholds_witness :
  PriceValidation.routeIsValid
    (PriceValidation.validateRoute (host := Examples.exampleHost)
       (Examples.route 1 2600 1500 900 200)
       (Fin 2000) (Fin 6) (Fin 1) (Fin 1.1) "mid-range")
  = false
  /\ PriceValidation.routeIsValid
       (PriceValidation.validateRoute (host := Examples.exampleHost)
          (Examples.route 2 2100 1100 900 100)
          (Fin 2000) (Fin 6) (Fin 1) (Fin 1.1) "mid-range")
     = true.
Proof.
  assert (Hb : (Fin 2000 / Fin 1)%num = Fin 2000)
    by (rewrite div_Fin by lra; f_equal; lra).
  split.
  - apply (@budget_thresholds Examples.exampleHost
             (Examples.route 1 2600 1500 900 200)
             (Fin 2000) (Fin 6) (Fin 1) (Fin 1.1) "mid-range"%string 2000%R
             Hb ltac:(lra)).
    cbn. f_equal. lra.
  - apply (@budget_thresholds Examples.exampleHost
             (Examples.route 2 2100 1100 900 100)
             (Fin 2000) (Fin 6) (Fin 1) (Fin 1.1) "mid-range"%string 2000%R
             Hb ltac:(lra)).
    + cbn. f_equal. lra.
    + unfold PriceValidation.getTravelStyleMultiplier, Num.orElse. num_simpl.
      reflexivity.
    + unfold PriceValidation.getTravelStyleMultiplier, Num.orElse,
        Num.gtb. num_simpl. reflexivity.
    + unfold PriceValidation.getTravelStyleMultiplier, Num.orElse. num_simpl.
      reflexivity.
    + unfold PriceValidation.getTravelStyleMultiplier, Num.orElse,
        Num.gtb. num_simpl. reflexivity.
Defined.

(** ** Worked examples *)

Section WorkedExamples.

Import PriceValidation.

Open Scope R_scope.

Example resolves_city_first :
  Destination.locCountry (Destination.parseDestination "Paris, Texas")
  = "France"%string.
Proof. reflexivity. Qed.

Example resolves_advisory_country :
  Destination.locCountry (Destination.parseDestination "  Kabul, AFGHANISTAN ")
  = "Afghanistan"%string.
Proof. reflexivity. Qed.

Example unknown_destination_is_not_rejected :
  Destination.isSafe (Destination.verifyDestination "Atlantis") = true
  /\ Destination.isAccessible (Destination.verifyDestination "Atlantis") = true
  /\ Destination.visaRequired (Destination.verifyDestination "Atlantis") = true.
Proof. repeat split. Qed.

(** The duration test of the repository: from 2026-06-01 to 2026-06-07. *)
Example six_days :
  PlanUtils.calculateTripDuration (host := Examples.exampleHost)
    "2026-06-01" "2026-06-07" = Fin 6.
Proof.
  unfold PlanUtils.calculateTripDuration. num_simpl.
  do 2 f_equal. apply Zceil_eq.
  unfold Rabs. destruct (Rcase_abs _); lra.
Qed.

(** A route of 1800 against a budget of 2000 for one traveler, six nights,
    France, mid-range: every check passes without a warning. *)
Example paris_route :
  let v := validateRoute (host := Examples.exampleHost)
             (Examples.route 1 1800 800 700 300)
             (Fin 2000) (Fin 6) (Fin 1) (Fin 1.1) "mid-range" in
  routeIsValid v = true /\ routeErrors v = [] /\ routeWarnings v = [].
Proof.
  cbv zeta.
  unfold validateRoute.
  assert (Hs : getTravelStyleMultiplier "mid-range" = Fin 1.0).
  { unfold getTravelStyleMultiplier, Num.orElse. num_simpl. reflexivity. }
  rewrite Hs.
  assert (Hf : validateFlightPrices (host := Examples.exampleHost)
                 (Fin 800) (Fin 1)
                 (adjustBoundariesForCountry (Fin 1.1) (Fin 1.0))
               = passed []).
  { unfold validateFlightPrices, Num.gtb. num_simpl. reflexivity. }
  assert (Hh : validateHotelPrices (host := Examples.exampleHost)
                 (Fin 700) (Fin 6) (Fin 1)
                 (adjustBoundariesForCountry (Fin 1.1) (Fin 1.0)) "mid-range"
               = passed []).
  { unfold validateHotelPrices, Num.gtb. num_simpl. reflexivity. }
  assert (Ha : validateActivityPrices (host := Examples.exampleHost)
                 (Fin 300) (Fin 6) (Fin 1)
                 (adjustBoundariesForCountry (Fin 1.1) (Fin 1.0))
               = passed []).
  { unfold validateActivityPrices, Num.gtb. num_simpl. reflexivity. }
  cbn [Examples.route breakdown flights hotels activities totalCost
       routeIsValid routeErrors routeWarnings].
  rewrite Hf, Hh, Ha.
  cbn [isValid errors warnings passed andb app].
  unfold Num.gtb. num_simpl. repeat split.
Qed.

(** The validation proper of that route against a budget of 2000, whatever
    the currency of the request: the report is valid.  At exactly 90% of the
    budget no warning is produced, the tight-budget warning needs more than
    90%. *)
Lemma paris_validation (requestCurrency : string) :
  let report :=
    validateWithBudget (host := Examples.exampleHost)
      (Examples.plan [Examples.route 1 1800 800 700 300])
      (Examples.paris (Fin 2000) requestCurrency) (Fin 2000) in
  reportIsValid report = true
  /\ reportErrors report = []
  /\ reportWarnings report = [].
Proof.
  cbv zeta.
  destruct paris_route as (H1 & H2 & H3).
  unfold validateWithBudget.
  cbn [Examples.paris startDate endDate travelers destination preferences].
  rewrite six_days.
  replace (Num.orElse (Some (Fin 1)) (Fin 1)) with (Fin 1)
    by (unfold Num.orElse; num_simpl; reflexivity).
  replace (extractCountry "Paris, France") with "France"%string
    by reflexivity.
  replace (Num.orElse (Str.lookup "France" countryMultipliers) _)
    with (Fin 1.1)
    by (unfold Num.orElse; num_simpl; reflexivity).
  cbn [Examples.plan mainRoutes fold_left].
  unfold validateStep. cbn [reportIsValid reportErrors reportWarnings].
  rewrite ?H1, ?H2, ?H3.
  assert (Hb : validateBudgetFeasibility (host := Examples.exampleHost)
                 [Examples.route 1 1800 800 700 300] (Fin 2000) = []).
  { unfold validateBudgetFeasibility, cheapest, Num.gtb. num_simpl.
    reflexivity. }
  rewrite Hb. repeat split.
Qed.

(** The end-to-end scenario of the specification: the report on that route
    for the request to Paris, in USD, is valid. *)
Example paris_scenario :
  let report :=
    validateTravelPlan (host := Examples.exampleHost)
      (Throw "not called")
      (Examples.plan [Examples.route 1 1800 800 700 300])
      (Examples.paris (Fin 2000) "USD") in
  reportIsValid report = true
  /\ reportErrors report = []
  /\ reportWarnings report = [].
Proof. exact (paris_validation "USD"). Qed.

(** The route to Rio de Janeiro: cheap in every component, 5% over the
    budget. *)
Lemma rio_route :
  routeWarnings
    (validateRoute (host := Examples.exampleHost)
       (Examples.route 1 2100 100 60 6)
       (Fin 2000) (Fin 6) (Fin 1) (Fin 0.8) "mid-range")
  = [ "Flight price (# per person) seems unusually low";
      "Hotel price (# per night) seems low for mid-range category";
      "Activity cost (# per day) seems low - consider adding more activities";
      "Route total cost (#) slightly exceeds budget" ]%string.
Proof.
  unfold validateRoute.
  assert (Hs : getTravelStyleMultiplier "mid-range" = Fin 1.0).
  { unfold getTravelStyleMultiplier, Num.orElse. num_simpl. reflexivity. }
  rewrite Hs.
  assert (Hf : validateFlightPrices (host := Examples.exampleHost)
                 (Fin 100) (Fin 1)
                 (adjustBoundariesForCountry (Fin 0.8) (Fin 1.0))
               = passed
                   ["Flight price (# per person) seems unusually low"
                    %string]).
  { unfold validateFlightPrices, Num.gtb. num_simpl. reflexivity. }
  assert (Hh : validateHotelPrices (host := Examples.exampleHost)
                 (Fin 60) (Fin 6) (Fin 1)
                 (adjustBoundariesForCountry (Fin 0.8) (Fin 1.0)) "mid-range"
               = passed
                   ["Hotel price (# per night) seems low for mid-range category"
                    %string]).
  { unfold validateHotelPrices, Num.gtb. num_simpl. reflexivity. }
  assert (Ha : validateActivityPrices (host := Examples.exampleHost)
                 (Fin 6) (Fin 6) (Fin 1)
                 (adjustBoundariesForCountry (Fin 0.8) (Fin 1.0))
               = passed
                   [("Activity cost (# per day) seems low"
                     ++ " - consider adding more activities")%string]).
  { unfold validateActivityPrices, Num.gtb. num_simpl. reflexivity. }
  cbn [Examples.route breakdown flights hotels activities totalCost
       routeIsValid routeErrors routeWarnings].
  rewrite Hf, Hh, Ha.
  cbn [isValid errors warnings passed andb app].
  unfold Num.gtb. num_simpl. reflexivity.
Qed.

Lemma rio_warnings :
  reportWarnings
    (validateTravelPlan (host := Examples.exampleHost)
       (Throw "not called") Examples.rioPlan Examples.rio)
  = [ "Flight price (# per person) seems unusually low";
      "Hotel price (# per night) seems low for mid-range category";
      "Activity cost (# per day) seems low - consider adding more activities";
      "Route total cost (#) slightly exceeds budget";
      "Even the cheapest option exceeds budget by #%" ]%string.
Proof.
  unfold validateTravelPlan, referenceBudget.
  cbn [Examples.rio currency String.eqb Ascii.eqb Bool.eqb negb budget].
  unfold validateWithBudget.
  cbn [Examples.rio startDate endDate travelers destination preferences].
  rewrite six_days.
  replace (Num.orElse (Some (Fin 1)) (Fin 1)) with (Fin 1)
    by (unfold Num.orElse; num_simpl; reflexivity).
  replace (extractCountry "Rio de Janeiro, Brazil") with "default"%string
    by reflexivity.
  replace (Num.orElse (Str.lookup "default" countryMultipliers) _)
    with (Fin 0.8)
    by (unfold Num.orElse; num_simpl; reflexivity).
  cbn [Examples.rioPlan mainRoutes fold_left].
  unfold validateStep. cbn [reportIsValid reportErrors reportWarnings].
  rewrite rio_route.
  assert (Hb : validateBudgetFeasibility (host := Examples.exampleHost)
                 [Examples.route 1 2100 100 60 6] (Fin 2000)
               = ["Even the cheapest option exceeds budget by #%"%string]).
  { unfold validateBudgetFeasibility, cheapest, Num.gtb. num_simpl.
    reflexivity. }
  rewrite Hb. reflexivity.
Qed.

End WorkedExamples.

(** *** The tips of a completed plan, worked *)


(** *** A failed conversion, worked *)

Lemma conversion_failure_report_witness :
  PriceValidation.reportIsValid
    (PriceValidation.validateTravelPlan (host := Examples.exampleHost)
       (Ok [("GBP", Fin 0.86)]%string)
       (Examples.plan [Examples.route 1 1800 800 700 300])
       (Examples.paris (Fin 2000) "EUR"))
  = false.
Proof.
  exact (proj1
    (@conversion_failure_report Examples.exampleHost
       (Ok [("GBP", Fin 0.86)]%string)
       (Examples.plan [Examples.route 1 1800 800 700 300])
       (Examples.paris (Fin 2000) "EUR")
       "Unable to convert EUR to USD"%string eq_refl)).
Defined.

(** C3, the claim as stated, fails.  The request is the one to Paris with a
    budget of 2000 EUR, the plan has the route of 1800, and the answer of
    the rate service lists no rate for USD, so the conversion throws.  The
    report then has [isValid = false], one error and no warning, although
    the validation of the same plan against the unconverted budget of 2000
    is valid. *)
Lemma conversion_failure_report_counterexample :
  Currency.convertCurrency (Ok [("GBP", Fin 0.86)]%string)
    (Fin 2000) "EUR" "USD"
  = Throw "Unable to convert EUR to USD"
  /\ PriceValidation.reportIsValid
       (PriceValidation.validateTravelPlan (host := Examples.exampleHost)
          (Ok [("GBP", Fin 0.86)]%string)
          (Examples.plan [Examples.route 1 1800 800 700 300])
          (Examples.paris (Fin 2000) "EUR"))
     = false
  /\ PriceValidation.reportWarnings
       (PriceValidation.validateTravelPlan (host := Examples.exampleHost)
          (Ok [("GBP", Fin 0.86)]%string)
          (Examples.plan [Examples.route 1 1800 800 700 300])
          (Examples.paris (Fin 2000) "EUR"))
     = []
  /\ PriceValidation.reportIsValid
       (PriceValidation.validateWithBudget (host := Examples.exampleHost)
          (Examples.plan [Examples.route 1 1800 800 700 300])
          (Examples.paris (Fin 2000) "EUR") (Fin 2000))
     = true.
Proof.
  split; [reflexivity |]. split; [reflexivity |]. split; [reflexivity |].
  exact (proj1 (paris_validation "EUR")).
Qed.

(* ================================================================== *)
(** * Part III: further properties of the code *)
(* ================================================================== *)

(** ** Destination safety gate: resolution and decision *)

Section GateFacts.

Import Destination.

Lemma safe_entries_safe :
  Forall (fun info => safe info = true) (map snd safeDestinations).
Proof. repeat constructor. Qed.

Lemma safe_lookup_safe (c : string) (info : DestinationInfo) :
  Str.lookup c safeDestinations = Some info -> safe info = true.
Proof.
  intros H. apply lookup_value_in in H.
  exact (proj1 (Forall_forall _ _) safe_entries_safe info H).
Qed.

Lemma classify_not_advisory (c : string) :
  Str.lookup c advisoryDestinations = None ->
  isSafe (classify c) = true /\ isAccessible (classify c) = true
  /\ travelAdvisory (classify c) = None.
Proof.
  intros H. unfold classify. rewrite H.
  destruct (Str.lookup c safeDestinations) as [info |] eqn:E; cbn.
  - rewrite (safe_lookup_safe _ E). auto.
  - auto.
Qed.

Lemma verifyDestination_not_advisory (destination : string) :
  Str.lookup (locCountry (parseDestination destination)) advisoryDestinations
  = None ->
  isSafe (verifyDestination destination) = true
  /\ isAccessible (verifyDestination destination) = true
  /\ travelAdvisory (verifyDestination destination) = None.
Proof.
  intros H.
  destruct (classify_not_advisory _ H) as (C1 & C2 & C3).
  destruct (verifyDestination_gate destination) as (G1 & G2 & _ & G4).
  repeat split; congruence.
Qed.

Lemma lookup_key_in {V : Type} (k : string) (table : list (string * V))
  (v : V) :
  Str.lookup k table = Some v -> In k (Str.keys table).
Proof.
  induction table as [| [k' v'] rest IH]; simpl; [discriminate |].
  destruct (String.eqb k k') eqn:E.
  - apply String.eqb_eq in E. subst. now left.
  - intros H. right. auto.
Qed.

Lemma lookup_of_key {V : Type} (k : string) (table : list (string * V)) :
  In k (Str.keys table) -> Str.lookup k table <> None.
Proof.
  induction table as [| [k' v'] rest IH]; simpl; [tauto |].
  intros [-> | H].
  - now rewrite String.eqb_refl.
  - destruct (String.eqb k k'); [discriminate | auto].
Qed.

(** The country found through a city is the country of a listed city. *)
Lemma findCity_some (cleaned : string) (cities : list (string * CityInfo))
  (loc : LocationInfo) :
  findCity cleaned cities = Some loc ->
  exists name info,
    In (name, info) cities /\ locCity loc = Some name
    /\ locCountry loc = cityCountry info /\ isCity loc = true
    /\ Str.includes cleaned (Str.toLowerCase name) = true.
Proof.
  induction cities as [| [name info] rest IH]; simpl; [discriminate |].
  destruct (Str.includes cleaned (Str.toLowerCase name)) eqn:E.
  - intros H. injection H as <-. exists name, info. cbn. auto.
  - intros H. destruct (IH H) as (n & i & Hin & rest').
    exists n, i. auto.
Qed.

Lemma findCity_none (cleaned : string) (cities : list (string * CityInfo)) :
  findCity cleaned cities = None ->
  forall name info, In (name, info) cities ->
    Str.includes cleaned (Str.toLowerCase name) = false.
Proof.
  induction cities as [| [n i] rest IH]; simpl; [tauto |].
  destruct (Str.includes cleaned (Str.toLowerCase n)) eqn:E; [discriminate |].
  intros H name info [Heq | Hin].
  - injection Heq as <- <-. exact E.
  - eauto.
Qed.

Lemma findCountry_some (cleaned : string) (countryKeys : list string)
  (loc : LocationInfo) :
  findCountry cleaned countryKeys = Some loc ->
  In (locCountry loc) countryKeys /\ locCity loc = None
  /\ isCity loc = false.
Proof.
  induction countryKeys as [| c rest IH]; simpl; [discriminate |].
  destruct (Str.includes cleaned (Str.toLowerCase c)).
  - intros H. injection H as <-. cbn. auto.
  - intros H. destruct (IH H) as (? & ? & ?). auto.
Qed.

Lemma mem_In (s : string) (l : list string) : Str.mem s l = true -> In s l.
Proof.
  unfold Str.mem. rewrite existsb_exists. intros (x & Hx & E).
  apply String.eqb_eq in E. now subst.
Qed.

Lemma city_countries_safe :
  forallb (fun entry => Str.mem (cityCountry (snd entry))
                                (Str.keys safeDestinations))
          cityInfo = true.
Proof. reflexivity. Qed.

Lemma city_country_safe (name : string) (info : CityInfo) :
  In (name, info) cityInfo ->
  In (cityCountry info) (Str.keys safeDestinations).
Proof.
  intros H. apply mem_In.
  exact (proj1 (forallb_forall _ _) city_countries_safe (name, info) H).
Qed.

Lemma safe_keys_not_advisory :
  forallb (fun c => negb (Str.mem c (Str.keys advisoryDestinations)))
          (Str.keys safeDestinations) = true.
Proof. reflexivity. Qed.

Lemma lookup_none_of_not_mem {V : Type} (k : string)
  (table : list (string * V)) :
  Str.mem k (Str.keys table) = false -> Str.lookup k table = None.
Proof.
  induction table as [| [k' v'] rest IH]; simpl; [reflexivity |].
  destruct (String.eqb k k'); [discriminate | exact IH].
Qed.

Lemma safe_key_not_advisory (c : string) :
  In c (Str.keys safeDestinations) ->
  Str.lookup c advisoryDestinations = None.
Proof.
  intros H. apply lookup_none_of_not_mem.
  pose proof (proj1 (forallb_forall _ _) safe_keys_not_advisory c H) as E.
  now apply negb_true_iff in E.
Qed.

(** X1.  [parseDestination] resolves every string to a country of the safe
    or of the advisory table, or to [Unknown]; it reports a city exactly when
    it sets [isCity], and a reported city is a listed city whose country is
    in the safe table. *)
Theorem parseDestination_resolves (destination : string) :
  let loc := parseDestination destination in
  (In (locCountry loc)
      (Str.keys safeDestinations ++ Str.keys advisoryDestinations)
   \/ locCountry loc = "Unknown"%string)
  /\ (isCity loc = true <-> locCity loc <> None)
  /\ (forall name, locCity loc = Some name ->
      exists info,
        In (name, info) cityInfo /\ locCountry loc = cityCountry info
        /\ In (locCountry loc) (Str.keys safeDestinations)).
Proof.
  cbv zeta. unfold parseDestination.
  set (cleaned := Str.toLowerCase (Str.trim destination)).
  destruct (findCity cleaned cityInfo) as [loc |] eqn:Ecity.
  - destruct (findCity_some _ _ Ecity)
      as (name & info & Hin & Hc & Hk & Hi & _).
    pose proof (@city_country_safe name info Hin) as Hsafe.
    repeat split.
    + left. apply in_or_app. left. now rewrite Hk.
    + intros _. rewrite Hc. discriminate.
    + intros _. exact Hi.
    + intros n Hn. rewrite Hc in Hn. injection Hn as <-.
      exists info. rewrite Hk. auto.
  - destruct (findCountry cleaned _) as [loc |] eqn:Ecountry.
    + destruct (findCountry_some _ _ Ecountry) as (Hin & Hnone & Hflag).
      repeat split.
      * now left.
      * congruence.
      * congruence.
      * congruence.
    + assert (Hsafe : forall c, Str.mem c (Str.keys safeDestinations) = true ->
                (In (locCountry (countryOnly c))
                    (Str.keys safeDestinations
                     ++ Str.keys advisoryDestinations)
                 \/ locCountry (countryOnly c) = "Unknown"%string)
                /\ (isCity (countryOnly c) = true
                    <-> locCity (countryOnly c) <> None)
                /\ (forall name, locCity (countryOnly c) = Some name ->
                    exists info,
                      In (name, info) cityInfo
                      /\ locCountry (countryOnly c) = cityCountry info
                      /\ In (locCountry (countryOnly c))
                            (Str.keys safeDestinations))).
      { intros c Hc. unfold countryOnly. cbn [locCountry locCity isCity].
        repeat split; try discriminate; try congruence.
        left. apply in_or_app. left. now apply mem_In. }
      repeat match goal with
             | |- context [if ?b then _ else _] =>
                 destruct b; [apply Hsafe; reflexivity |]
             end.
      unfold countryOnly. cbn [locCountry locCity isCity].
      repeat split; try discriminate; try congruence. now right.
Qed.

Lemma parsed_country_lookup (destination : string) :
  Str.mem (locCountry (parseDestination destination)) Str.inheritedKeys
  = false.
Proof.
  destruct (parseDestination_resolves destination) as ([Hin | Hu] & _).
  - assert (Hall : forallb (fun c => negb (Str.mem c Str.inheritedKeys))
                     (Str.keys safeDestinations
                      ++ Str.keys advisoryDestinations) = true)
      by reflexivity.
    pose proof (proj1 (forallb_forall _ _) Hall _ Hin) as E.
    now apply negb_true_iff in E.
  - rewrite Hu. reflexivity.
Qed.

Lemma resolved_city_known (destination name : string) :
  locCity (parseDestination destination) = Some name ->
  knownCity (parseDestination destination) <> None.
Proof.
  intros H. unfold knownCity. rewrite H.
  destruct (parseDestination_resolves destination) as (_ & _ & Hc).
  destruct (Hc name H) as (info & Hin & _).
  apply lookup_of_key. unfold Str.keys.
  change name with (fst (name, info)). now apply in_map.
Qed.

(** X2.  A destination whose text (trimmed, in lower case) contains the name
    of a listed city is never rejected, whatever else the text names: the
    verdict is safe and accessible, carries no advisory, reports an airport,
    and its country is not in the advisory table. *)
Theorem listed_city_is_accepted (destination name : string)
  (info : CityInfo) :
  In (name, info) cityInfo ->
  Str.includes (Str.toLowerCase (Str.trim destination))
               (Str.toLowerCase name) = true ->
  let verdict := verifyDestination destination in
  isSafe verdict = true /\ isAccessible verdict = true
  /\ travelAdvisory verdict = None
  /\ hasAirport (accessibility verdict) = true
  /\ Str.lookup (locCountry (parseDestination destination))
                advisoryDestinations = None.
Proof.
  intros Hin Hinc verdict.
  assert (Hcity : exists n, locCity (parseDestination destination) = Some n
                            /\ In (locCountry (parseDestination destination))
                                  (Str.keys safeDestinations)).
  { destruct (parseDestination_resolves destination) as (_ & _ & Hc).
    unfold parseDestination in *.
    destruct (findCity (Str.toLowerCase (Str.trim destination)) cityInfo)
      as [loc |] eqn:E.
    - destruct (findCity_some _ _ E) as (n & i & _ & Hn & _).
      exists n. split; [exact Hn |].
      destruct (Hc n Hn) as (i' & _ & _ & Hs). exact Hs.
    - pose proof (findCity_none _ _ E name info Hin). congruence. }
  destruct Hcity as (n & Hn & Hsafe).
  pose proof (@safe_key_not_advisory _ Hsafe) as Hadv.
  destruct (verifyDestination_not_advisory destination Hadv) as (V1 & V2 & V3).
  repeat split; auto.
  subst verdict. unfold verifyDestination, setAccessibility, checkAccessibility.
  cbn [accessibility hasAirport].
  destruct (knownCity (parseDestination destination)) eqn:K.
  - reflexivity.
  - exfalso. exact (resolved_city_known destination Hn K).
Qed.

(** X3.  The alternatives offered for a destination are never countries of
    the advisory table: each is marked safe, there are at most three, and
    there is none at all unless the destination resolves to an advisory
    country. *)
Theorem getSafeAlternatives_safe (originalDestination : string) :
  let alternatives := getSafeAlternatives originalDestination in
  (forall a, In a alternatives ->
     Str.lookup (altDestination a) advisoryDestinations = None
     /\ safe (altAccessibility a) = true)
  /\ (List.length alternatives <= 3)%nat
  /\ (Str.lookup (locCountry (parseDestination originalDestination))
                 advisoryDestinations = None -> alternatives = []).
Proof.
  cbv zeta. unfold getSafeAlternatives.
  set (c := locCountry (parseDestination originalDestination)).
  destruct (Str.lookup c advisoryDestinations) as [info |].
  - repeat match goal with
           | |- context [if String.eqb c ?k then _ else _] =>
               destruct (String.eqb c k)
           end;
      (split; [| split; [simpl; lia | discriminate]]);
      intros a Ha; simpl in Ha;
      repeat (destruct Ha as [<- | Ha]; [split; reflexivity |]);
      contradiction.
  - simpl. repeat split; auto. contradiction.
Qed.

(** X4.  [isDestinationRecommended] and [verifyDestination] agree: a
    destination is recommended exactly when its verdict is safe, and that is
    exactly when its country is not in the advisory table; the confidence is
    low exactly when the country is in neither table. *)
Theorem isDestinationRecommended_agrees (destination : string) :
  let c := locCountry (parseDestination destination) in
  recommended (isDestinationRecommended destination)
  = isSafe (verifyDestination destination)
  /\ (recommended (isDestinationRecommended destination) = true
      <-> Str.lookup c advisoryDestinations = None)
  /\ (confidence (isDestinationRecommended destination) = "low"%string
      <-> countryInfo c = None).
Proof.
  cbv zeta. unfold isDestinationRecommended, countryInfo.
  set (c := locCountry (parseDestination destination)).
  destruct (Str.lookup c advisoryDestinations) as [info |] eqn:A.
  - destruct (verifyDestination_advisory destination A) as (V1 & _).
    rewrite V1. cbn [recommended confidence].
    repeat split; try discriminate.
    destruct (Str.lookup c safeDestinations); discriminate.
  - destruct (verifyDestination_not_advisory destination A) as (V1 & _).
    rewrite V1.
    destruct (Str.lookup c safeDestinations); cbn [recommended confidence];
      repeat split; auto; discriminate.
Qed.

Lemma countryInfo_classify (c : string) :
  visaRequired (classify c)
  = match countryInfo c with
    | Some info => infoVisaRequired info
    | None => true
    end.
Proof.
  unfold classify, countryInfo.
  destruct (Str.lookup c safeDestinations) as [i |] eqn:S.
  - rewrite (@safe_key_not_advisory _ (@lookup_key_in _ _ _ _ S)). reflexivity.
  - destruct (Str.lookup c advisoryDestinations); reflexivity.
Qed.

(** X5.  The visa flag of a verdict is the one of [getVisaRequirements] for
    the resolved country, except that it is cleared for the countries that
    Turkish passport holders enter without a visa: the verdict never asks
    for a visa where [getVisaRequirements] does not. *)
Theorem verdict_visa_flag (destination : string) :
  let c := locCountry (parseDestination destination) in
  country (verifyDestination destination) = c
  /\ Some (visaRequired (verifyDestination destination))
     = (if Str.mem c visaFreeForTurks then Some false
        else required (getVisaRequirements c))
  /\ (visaRequired (verifyDestination destination) = true ->
      required (getVisaRequirements c) = Some true).
Proof.
  cbv zeta.
  set (loc := parseDestination destination).
  set (c := locCountry loc).
  assert (Hreq : required (getVisaRequirements c)
                 = Some (visaRequired (classify c))).
  { unfold getVisaRequirements.
    pose proof (parsed_country_lookup destination) as Hown.
    fold loc in Hown. fold c in Hown.
    rewrite Hown, countryInfo_classify.
    destruct (countryInfo c); reflexivity. }
  assert (Hcity : forall v,
             visaRequired (addCityInfo loc v) = visaRequired v
             /\ country (addCityInfo loc v) = country v).
  { intros v. unfold addCityInfo.
    destruct (knownCity loc); split; reflexivity. }
  assert (Hc : country (classify c) = c).
  { unfold classify. destruct (Str.lookup c advisoryDestinations);
      [reflexivity |]. destruct (Str.lookup c safeDestinations); reflexivity. }
  unfold verifyDestination. fold loc. fold c.
  destruct (Hcity (classify c)) as (Hv & Hk).
  set (v := addCityInfo loc (classify c)) in *.
  unfold setAccessibility, addTurkishTravelerRecommendations.
  cbn [country visaRequired pushRecommendations].
  destruct (Str.mem c visaFreeForTurks) eqn:T.
  - cbn [country visaRequired pushRecommendations markVisaFree].
    rewrite Hk, Hc. repeat split. discriminate.
  - assert (E : forall r1 r2 r3 : Verdict,
               visaRequired r1 = visaRequired r3 ->
               visaRequired r2 = visaRequired r3 ->
               country r1 = country r3 -> country r2 = country r3 ->
               forall b1 b2 : bool,
               visaRequired (if b1 then r1 else if b2 then r2 else r3)
               = visaRequired r3
               /\ country (if b1 then r1 else if b2 then r2 else r3)
                  = country r3).
    { intros. destruct b1, b2; auto. }
    destruct (E (pushRecommendations v
                   ["E-visa available for Turkish passport holders"%string])
                (pushRecommendations v
                   ["Schengen visa required - can visit multiple EU countries"
                    %string])
                v eq_refl eq_refl eq_refl eq_refl
                (Str.mem c eVisaCountries) (Str.mem c schengenCountries))
      as (E1 & E2).
    rewrite E1, E2, Hv, Hk, Hc, Hreq. repeat split.
    intros ->. reflexivity.
Qed.

End GateFacts.

Lemma listed_city_is_accepted_witness :
  Destination.isSafe
    (Destination.verifyDestination "Istanbul to Damascus, Syria") = true
  /\ Str.lookup
       (Destination.locCountry
          (Destination.parseDestination "Istanbul to Damascus, Syria"))
       Destination.advisoryDestinations = None.
Proof.
  destruct (@listed_city_is_accepted "Istanbul to Damascus, Syria"
              "Istanbul" (Destination.city "Turkey" "IST" "+03:00")
              (or_introl eq_refl) eq_refl)
    as (H1 & _ & _ & _ & H5).
  exact (conj H1 H5).
Defined.

(** ** Plan orchestrator: the decision of the handler and the record kept *)

Section OrchestratorFacts.

Context {host : Host}.

Import Controller.

(** X6.  The handler answers 202 exactly when the request validator found
    no error and the destination does not resolve to a country of the
    advisory table; it starts the background call exactly then, for the
    plan identifier of the answer and with the verdict of the gate; and a
    request answered otherwise leaves the plan collection as it was. *)
Theorem handler_decision (req : HttpRequest) (pid : string)
  (aiOutcome : Except GeneratedPlan) (fetched : Except Currency.Rates)
  (db : Store) :
  let d := destination (body req) in
  let c := Destination.locCountry (Destination.parseDestination d) in
  let answer := generateTravelPlan req pid in
  (statusCode (fst answer) = 202
   <-> validationErrors req = []
       /\ Str.lookup c Destination.advisoryDestinations = None)
  /\ (statusCode (fst answer) = 202 <-> snd answer <> None)
  /\ (forall bg, snd answer = Some bg ->
        bgPlanId bg = pid /\ bgUser bg = userOfRequest req
        /\ bgVerdict bg = Destination.verifyDestination d
        /\ exists estimatedTime, fst answer = Processing pid estimatedTime)
  /\ (statusCode (fst answer) <> 202 ->
      snd (submitPlanRequest req pid aiOutcome fetched db) = db).
Proof.
  cbv zeta. unfold submitPlanRequest, generateTravelPlan.
  destruct (validationErrors req) as [| e es];
    cbn [Gemini.isEmpty negb destination].
  - destruct (Str.lookup
                (Destination.locCountry
                   (Destination.parseDestination (destination (body req))))
                Destination.advisoryDestinations) as [info |] eqn:A.
    + destruct (verifyDestination_advisory _ A) as (V1 & V2 & _).
      rewrite V1, V2. cbn.
      split; [| split; [| split]].
      * split; [discriminate | intros (_ & H); discriminate].
      * split; [discriminate | tauto].
      * discriminate.
      * reflexivity.
    + destruct (verifyDestination_not_advisory _ A) as (V1 & V2 & _).
      rewrite V1, V2. cbn.
      split; [| split; [| split]].
      * tauto.
      * split; [discriminate | reflexivity].
      * intros bg Hbg. injection Hbg as <-. cbn. eauto.
      * tauto.
  - cbn. split; [| split; [| split]].
    + split; [discriminate | intros (H & _); discriminate].
    + split; [discriminate | tauto].
    + discriminate.
    + reflexivity.
Qed.

Lemma map_unchanged {A : Type} (f : A -> A) (l : list A) :
  (forall x, In x l -> f x = x) -> map f l = l.
Proof.
  intros H. induction l as [| x l IH]; simpl; [reflexivity |].
  rewrite H by now left. rewrite IH; [reflexivity |].
  intros y Hy. apply H. now right.
Qed.


End OrchestratorFacts.


(** ** Plan utilities: trip length and the date validator *)

Section DateFacts.

Context {host : Host}.

Import PlanUtils.

Open Scope R_scope.

Local Notation "'day'" := (1000 * 60 * 60 * 24).

Lemma day_pos : 0 < day.
Proof. lra. Qed.

(** The trip length between two parsable dates. *)
Lemma duration_Fin (startDate endDate : string) (a b : R) :
  Date_getTime startDate = Fin a -> Date_getTime endDate = Fin b ->
  calculateTripDuration startDate endDate
  = Fin (IZR (Zceil (Rabs (b - a) / day))).
Proof.
  intros Ha Hb. unfold calculateTripDuration. rewrite Ha, Hb.
  cbn [Num.sub Num.neg Num.add Num.abs Num.div].
  rewrite Reqb_false by lra. reflexivity.
Qed.

Lemma days_bound (x : R) :
  0 <= x ->
  let n := Zceil (x / day) in
  (0 <= n)%Z /\ (IZR n - 1) * day < x <= IZR n * day.
Proof.
  intros Hx n.
  destruct (Zceil_bound (x / day)) as [Hlo Hhi]. fold n in Hlo, Hhi.
  assert (Hq : 0 <= x / day).
  { apply Rmult_le_pos; [exact Hx |]. left. apply Rinv_0_lt_compat. lra. }
  assert (E : x / day * day = x) by (field; lra).
  split; [| split].
  - apply le_IZR. lra.
  - apply Rlt_le_trans with (x / day * day);
      [apply Rmult_lt_compat_r; lra | rewrite E; lra].
  - apply Rle_trans with (x / day * day);
      [rewrite E; lra | apply Rmult_le_compat_r; lra].
Qed.

(** X8.  Between two parsable dates the trip length is a whole number [n]
    of days, with [n - 1] days less than the distance of the two instants,
    which is at most [n] days: a started day counts as a whole one.  The
    length is 0 exactly when the two instants coincide, and it is the same
    in both directions. *)
Theorem calculateTripDuration_days (startDate endDate : string) (a b : R) :
  Date_getTime startDate = Fin a -> Date_getTime endDate = Fin b ->
  exists n : Z,
    calculateTripDuration startDate endDate = Fin (IZR n)
    /\ (0 <= n)%Z
    /\ (IZR n - 1) * day < Rabs (b - a) <= IZR n * day
    /\ (n = 0%Z <-> a = b)
    /\ calculateTripDuration endDate startDate = Fin (IZR n).
Proof.
  intros Ha Hb.
  exists (Zceil (Rabs (b - a) / day)).
  destruct (@days_bound (Rabs (b - a)) (Rabs_pos _)) as (Hn & Hlo & Hhi).
  split; [now apply duration_Fin |].
  split; [exact Hn |]. split; [split; assumption |]. split.
  - split.
    + intros E. rewrite E in Hhi. simpl in Hhi.
      assert (Hz : Rabs (b - a) = 0) by (pose proof (Rabs_pos (b - a)); lra).
      destruct (Req_dec (b - a) 0) as [Hd | Hd]; [lra |].
      apply Rabs_no_R0 in Hd. contradiction.
    + intros ->. apply Zceil_eq.
      replace (b - b) with 0 by ring. rewrite Rabs_R0.
      replace (0 / day) with 0 by (field; lra). simpl. lra.
  - rewrite (duration_Fin endDate startDate Hb Ha).
    now rewrite (Rabs_minus_sym a b).
Qed.

Lemma duration_unparsable (startDate endDate : string) :
  Date_getTime startDate = NaN \/ Date_getTime endDate = NaN ->
  calculateTripDuration startDate endDate = NaN.
Proof.
  unfold calculateTripDuration.
  intros [H | H]; rewrite H.
  - destruct (Date_getTime endDate); reflexivity.
  - destruct (Date_getTime startDate); reflexivity.
Qed.

(** X9.  The date validator does not reject a date that cannot be parsed:
    with an unparsable start date it reports no error at all, and with an
    unparsable end date its only possible error is the one about a start in
    the past. *)
Theorem validateDateRange_unparsable (today : number)
  (startDate endDate : string) :
  Date_getTime startDate = NaN \/ Date_getTime endDate = NaN ->
  validateDateRange today startDate endDate
  = (if (Date_getTime startDate <? today)%num
     then ["Start date cannot be in the past"%string] else [])
  /\ (Date_getTime startDate = NaN ->
      validateDateRange today startDate endDate = []).
Proof.
  intros H.
  assert (E : validateDateRange today startDate endDate
              = if (Date_getTime startDate <? today)%num
                then ["Start date cannot be in the past"%string] else []).
  { unfold validateDateRange. rewrite (duration_unparsable _ _ H).
    assert (L : Num.leb (Date_getTime endDate) (Date_getTime startDate)
                = false).
    { destruct H as [H | H]; rewrite H;
        [destruct (Date_getTime endDate) | destruct (Date_getTime startDate)];
        reflexivity. }
    rewrite L. cbn. now rewrite app_nil_r. }
  split; [exact E |].
  intros Hs. rewrite E, Hs. reflexivity.
Qed.

Lemma whole_days_over (n : Z) (x : R) :
  (IZR n - 1) * day < x <= IZR n * day ->
  (365 < IZR n <-> 365 * day < x).
Proof.
  intros [Hlo Hhi]. split.
  - intros H. apply lt_IZR in H.
    assert (H' : (366 <= n)%Z) by lia. apply IZR_le in H'.
    assert (365 * day <= (IZR n - 1) * day)
      by (apply Rmult_le_compat_r; lra).
    lra.
  - intros H.
    assert (365 * day < IZR n * day) by lra.
    apply Rmult_lt_reg_r with (r := day); lra.
Qed.

(** X10.  For parsable dates the date validator reports no error exactly
    when the start is not before today, the end is after the start, and the
    two are at most 365 days apart.  The error about a trip shorter than one
    day is reported exactly when the two instants coincide, and then the
    error about the end date is reported too. *)
Theorem validateDateRange_accepts (startDate endDate : string)
  (t a b : R) :
  Date_getTime startDate = Fin a -> Date_getTime endDate = Fin b ->
  let problems := validateDateRange (Fin t) startDate endDate in
  (problems = [] <-> t <= a /\ a < b /\ b - a <= 365 * day)
  /\ (In "Trip must be at least 1 day"%string problems <-> a = b)
  /\ (a = b -> In "End date must be after start date"%string problems).
Proof.
  intros Ha Hb problems. subst problems.
  unfold validateDateRange.
  rewrite (duration_Fin startDate endDate Ha Hb), Ha, Hb.
  destruct (@days_bound (Rabs (b - a)) (Rabs_pos _)) as (Hn & Hbound).
  pose proof (whole_days_over _ Hbound) as Hover.
  set (n := Zceil (Rabs (b - a) / day)) in *.
  cbn [Num.ltb Num.gtb Num.leb negb].
  assert (Hzero : IZR n < 1 <-> a = b).
  { split.
    - intros H. apply lt_IZR in H. assert (E : n = 0%Z) by lia.
      rewrite E in Hbound. simpl in Hbound.
      pose proof (Rabs_pos (b - a)).
      destruct (Req_dec (b - a) 0) as [Hd | Hd]; [lra |].
      apply Rabs_no_R0 in Hd. lra.
    - intros ->. replace (b - b) with 0 in Hbound by ring.
      rewrite Rabs_R0 in Hbound.
      assert (H : (IZR n - 1) < 0).
      { apply Rmult_lt_reg_r with (r := day); lra. }
      assert (H' : IZR n < IZR 1) by (simpl; lra).
      apply lt_IZR in H'. apply IZR_lt in H'. exact H'. }
  unfold Num.Rltb.
  destruct (Rlt_dec a t) as [P | P], (Rlt_dec a b) as [Q | Q],
           (Rlt_dec 365 (IZR n)) as [U | U], (Rlt_dec (IZR n) 1) as [V | V];
    cbn [negb app In];
    (split; [split; [try discriminate; intros _ | intros (I1 & I2 & I3)]
            | split; [split; [intros I | intros I] | intros I]]);
    try (exfalso; lra);
    try (exfalso; tauto);
    try reflexivity;
    try (repeat split; try lra);
    try (apply Hzero in V; exfalso; lra);
    try (apply Hzero; assumption);
    try (apply Hzero in I; exfalso; lra);
    try (repeat (destruct I as [I | I]; try discriminate I); contradiction);
    try (assert (Rabs (b - a) = b - a) as Eabs by (apply Rabs_right; lra);
         rewrite Eabs in Hover; apply Hover in U; lra);
    try (assert (Rabs (b - a) = b - a) as Eabs by (apply Rabs_right; lra);
         rewrite Eabs in Hover;
         apply Rnot_lt_le; intros C; apply Hover in C; lra);
    try (left; reflexivity);
    try (right; left; reflexivity);
    try (right; right; left; reflexivity);
    try (right; right; right; left; reflexivity).
Qed.

End DateFacts.

Lemma calculateTripDuration_days_witness :
  exists n : Z,
    PlanUtils.calculateTripDuration (host := Examples.exampleHost)
      "2026-06-01" "2026-06-07" = Fin (IZR n).
Proof.
  destruct (@calculateTripDuration_days Examples.exampleHost
              "2026-06-01" "2026-06-07" 1780272000000 1780790400000
              eq_refl eq_refl) as (n & H & _).
  exists n. exact H.
Defined.

Lemma validateDateRange_unparsable_witness :
  PlanUtils.validateDateRange (host := Examples.exampleHost)
    (Fin 1780272000000) "31/12/2026" "2026-06-07" = [].
Proof.
  exact (proj2 (@validateDateRange_unparsable Examples.exampleHost
                  (Fin 1780272000000) "31/12/2026" "2026-06-07"
                  (or_introl eq_refl)) eq_refl).
Defined.

Lemma validateDateRange_accepts_witness :
  PlanUtils.validateDateRange (host := Examples.exampleHost)
    (Fin 1780272000000) "2026-06-01" "2026-06-07" = [].
Proof.
  apply (proj1 (@validateDateRange_accepts Examples.exampleHost
                  "2026-06-01" "2026-06-07"
                  1780272000000 1780272000000 1780790400000
                  eq_refl eq_refl)).
  lra.
Defined.

(** ** Plan utilities: estimate, budget, party size and sanitising *)

Section UtilityFacts.

Context {host : Host}.

Import PlanUtils.

Open Scope R_scope.

Lemma Rmin_mono (a b c : R) : a <= b -> Rmin a c <= Rmin b c.
Proof.
  intros H. unfold Rmin.
  destruct (Rle_dec a c), (Rle_dec b c); lra.
Qed.

Lemma estimate_Fin (destination : string) (d t : R) :
  estimateProcessingTime destination (Fin d) (Fin t)
  = Fin (Rmin (10 + Rmin (d * 2) 20 + Rmin (t * 2) 10
               + (if isComplex destination then 10 else 0)) 45).
Proof.
  unfold estimateProcessingTime.
  destruct (isComplex destination); simpl Num.mul;
    rewrite !min_Fin; simpl Num.add; rewrite !min_Fin;
    f_equal; f_equal; lra.
Qed.

(** X11.  The processing-time estimate never decreases when the trip gets
    longer or the party larger, and it grows by at most 10 seconds when the
    destination is one of the complex ones. *)
Theorem estimateProcessingTime_monotone (destination : string)
  (d d' t t' : R) :
  d <= d' -> t <= t' ->
  exists e e',
    estimateProcessingTime destination (Fin d) (Fin t) = Fin e
    /\ estimateProcessingTime destination (Fin d') (Fin t') = Fin e'
    /\ e <= e'
    /\ Rmin (10 + Rmin (d * 2) 20 + Rmin (t * 2) 10) 45 <= e
       <= Rmin (10 + Rmin (d * 2) 20 + Rmin (t * 2) 10) 45 + 10.
Proof.
  intros Hd Ht. do 2 eexists.
  split; [apply estimate_Fin |]. split; [apply estimate_Fin |].
  assert (H1 : Rmin (d * 2) 20 <= Rmin (d' * 2) 20)
    by (apply Rmin_mono; lra).
  assert (H2 : Rmin (t * 2) 10 <= Rmin (t' * 2) 10)
    by (apply Rmin_mono; lra).
  split.
  - apply Rmin_mono. lra.
  - set (A := 10 + Rmin (d * 2) 20 + Rmin (t * 2) 10).
    destruct (isComplex destination).
    + unfold Rmin. destruct (Rle_dec A 45), (Rle_dec (A + 10) 45); lra.
    + rewrite Rplus_0_r. lra.
Qed.

(** *** Traveler count *)

(** X12.  The traveler count is accepted exactly when it is one of the whole
    numbers from 1 to 20; a fraction, an infinity and NaN are refused. *)
Theorem validateTravelerCount_accepts (travelers : number) :
  validateTravelerCount travelers = None
  <-> exists n : Z, (1 <= n <= 20)%Z /\ travelers = Fin (IZR n).
Proof.
  unfold validateTravelerCount. split.
  - destruct travelers as [x | | |]; cbn [Num.isInteger negb orb];
      try discriminate.
    unfold Num.gtb, Num.ltb, Num.Reqb, Num.Rltb.
    destruct (Req_dec_T (IZR (Zfloor x)) x) as [E |]; [| discriminate].
    destruct (Rlt_dec x 1); [discriminate |].
    destruct (Rlt_dec 20 x); [discriminate |].
    intros _. exists (Zfloor x). split; [| now rewrite E].
    split; apply le_IZR; rewrite E; lra.
  - intros (n & [Hlo Hhi] & ->).
    apply IZR_le in Hlo, Hhi.
    cbn [Num.isInteger]. rewrite ZfloorZ, Reqb_true by reflexivity.
    cbn [negb orb Num.gtb Num.ltb].
    rewrite !Rltb_false by lra. reflexivity.
Qed.

(** *** Budget *)

Lemma perDay_minimum (currency : string) :
  exists m : R,
    Num.orElse (Str.lookup currency minimumBudgets) (Fin 50) = Fin m
    /\ 40 <= m <= 1500
    /\ (Str.lookup currency minimumBudgets = None -> m = 50).
Proof.
  unfold minimumBudgets. cbn [Str.lookup].
  repeat match goal with
         | |- context [if String.eqb currency ?k then _ else _] =>
             destruct (String.eqb currency k)
         end;
    eexists; (split; [unfold Num.orElse, Num.truthy;
                      try (rewrite Reqb_false by lra); reflexivity |]);
    (split; [lra | try discriminate; reflexivity]).
Qed.

(** X13.  For a currency code that is not an inherited property name, a
    finite budget and a finite trip length [d], the budget is accepted
    exactly when it is at least the daily minimum of the currency times [d]
    and at most 1000000; a currency without an entry is held to the minimum
    of 50.  A budget of NaN is never refused. *)
Theorem validateBudget_accepts (formatCurrency : number -> string -> string)
  (b d : R) (currency : string) :
  Str.mem currency Str.inheritedKeys = false ->
  exists m : R,
    Num.orElse (Str.lookup currency minimumBudgets) (Fin 50) = Fin m
    /\ (Str.lookup currency minimumBudgets = None -> m = 50)
    /\ (validateBudget formatCurrency (Fin b) currency (Fin d) = None
        <-> m * d <= b <= 1000000)
    /\ forall duration,
         validateBudget formatCurrency NaN currency duration = None.
Proof.
  intros Hown.
  destruct (perDay_minimum currency) as (m & Hm & _ & Hdefault).
  exists m. split; [exact Hm |]. split; [exact Hdefault |].
  unfold validateBudget. rewrite Hown, Hm. split.
  - cbn [Num.mul Num.ltb Num.gtb]. unfold Num.Rltb.
    destruct (Rlt_dec b (m * d)); [split; [discriminate | lra] |].
    destruct (Rlt_dec 1000000 b); [split; [discriminate | lra] |].
    split; [lra | reflexivity].
  - intros duration.
    assert (L : forall x, (NaN <? x)%num = false) by reflexivity.
    rewrite L. cbn [Num.gtb]. destruct duration; reflexivity.
Qed.

End UtilityFacts.

Lemma estimateProcessingTime_monotone_witness :
  exists e e',
    PlanUtils.estimateProcessingTime "Rome" (Fin 3) (Fin 2) = Fin e
    /\ PlanUtils.estimateProcessingTime "Rome" (Fin 7) (Fin 2) = Fin e'
    /\ (e <= e')%R.
Proof.
  destruct (@estimateProcessingTime_monotone "Rome" 3 7 2 2)
    as (e & e' & H1 & H2 & H3 & _); [lra | lra |].
  exists e, e'. auto.
Defined.

Lemma validateBudget_accepts_witness :
  PlanUtils.validateBudget (host := Examples.exampleHost)
    (fun _ _ => "#"%string) (Fin 450) "EUR" (Fin 7) = None.
Proof.
  destruct (@validateBudget_accepts Examples.exampleHost
              (fun _ _ => "#"%string) 450 7 "EUR" eq_refl)
    as (m & Hm & _ & Haccepts & _).
  apply Haccepts.
  assert (E : m = 45%R).
  { change (Str.lookup "EUR" PlanUtils.minimumBudgets)
      with (Some (Fin 45)) in Hm.
    unfold Num.orElse, Num.truthy in Hm.
    rewrite Reqb_false in Hm by lra. cbn [negb] in Hm.
    now injection Hm as <-. }
  rewrite E. lra.
Defined.

(** ** Plan utilities: sanitising a destination *)

Section SanitizeFacts.

Import PlanUtils.

Lemma isWhiteSpace_spec (c : N) :
  isWhiteSpace c = true
  <-> (9 <= c <= 13 \/ c = 32 \/ c = 160 \/ c = 5760 \/ 8192 <= c <= 8202
       \/ c = 8232 \/ c = 8233 \/ c = 8239 \/ c = 8287 \/ c = 12288
       \/ c = 65279)%N.
Proof.
  unfold isWhiteSpace.
  rewrite !orb_true_iff, !andb_true_iff, !N.leb_le, !N.eqb_eq. tauto.
Qed.

Lemma isAllowed_spec (c : N) :
  isAllowed c = true
  <-> (97 <= c <= 122 \/ 65 <= c <= 90 \/ 48 <= c <= 57
       \/ isWhiteSpace c = true \/ c = 44 \/ c = 46 \/ c = 45)%N.
Proof.
  unfold isAllowed.
  rewrite !orb_true_iff, !andb_true_iff, !N.leb_le, !N.eqb_eq. tauto.
Qed.

Lemma trimStartUnits_suffix (s : list N) :
  exists dropped, s = dropped ++ trimStartUnits s.
Proof.
  induction s as [| c s (dropped & IH)]; simpl.
  - now exists [].
  - destruct (isWhiteSpace c); [| now exists []].
    exists (c :: dropped). simpl. now rewrite <- IH.
Qed.

Lemma trimStartUnits_fixed (s : list N) :
  (forall c, hd_error s = Some c -> isWhiteSpace c = false) ->
  trimStartUnits s = s.
Proof.
  destruct s as [| c s]; simpl; [reflexivity |].
  intros H. now rewrite (H c eq_refl).
Qed.

Lemma trimUnits_part (s : list N) :
  exists before after, s = before ++ trimUnits s ++ after.
Proof.
  unfold trimUnits.
  destruct (trimStartUnits_suffix s) as (d1 & H1).
  destruct (trimStartUnits_suffix (rev (trimStartUnits s))) as (d2 & H2).
  exists d1, (rev d2).
  rewrite <- rev_app_distr, <- H2, rev_involutive. exact H1.
Qed.

Lemma filter_shorter {A : Type} (f : A -> bool) (l : list A) :
  (List.length (filter f l) <= List.length l)%nat.
Proof.
  induction l as [| x l IH]; simpl; [lia |].
  destruct (f x); simpl; lia.
Qed.

Lemma filter_fixed {A : Type} (f : A -> bool) (l : list A) :
  (forall x, In x l -> f x = true) -> filter f l = l.
Proof.
  induction l as [| x l IH]; simpl; intros H; [reflexivity |].
  rewrite (H x) by now left. f_equal. apply IH. intros y Hy. apply H.
  now right.
Qed.

(** X14.  A sanitised destination has at most 100 code units, each of them
    a code unit of the input that is a letter [a-z] or [A-Z], a digit, white
    space, a comma, a full stop or a hyphen, and it is never longer than the
    input.  A destination that is already of this form, without white space
    at either end, is returned unchanged. *)
Theorem sanitizeDestination_clean (destination : list N) :
  let whiteSpace := fun c : N =>
    (9 <= c <= 13 \/ c = 32 \/ c = 160 \/ c = 5760 \/ 8192 <= c <= 8202
     \/ c = 8232 \/ c = 8233 \/ c = 8239 \/ c = 8287 \/ c = 12288
     \/ c = 65279)%N in
  let allowed := fun c : N =>
    (97 <= c <= 122 \/ 65 <= c <= 90 \/ 48 <= c <= 57 \/ whiteSpace c
     \/ c = 44 \/ c = 46 \/ c = 45)%N in
  let cleaned := sanitizeDestination destination in
  (List.length cleaned <= 100)%nat
  /\ (forall c, In c cleaned -> In c destination /\ allowed c)
  /\ (List.length cleaned <= List.length destination)%nat
  /\ ((forall c, In c destination -> allowed c) ->
      (forall c, hd_error destination = Some c -> ~ whiteSpace c) ->
      (forall c, hd_error (rev destination) = Some c -> ~ whiteSpace c) ->
      (List.length destination <= 100)%nat ->
      cleaned = destination).
Proof.
  intros whiteSpace allowed cleaned. subst cleaned.
  assert (Hallowed : forall c, isAllowed c = true <-> allowed c).
  { intros c. subst allowed whiteSpace. cbv beta.
    rewrite isAllowed_spec, isWhiteSpace_spec. tauto. }
  unfold sanitizeDestination.
  destruct (trimUnits_part destination) as (before & after & Hpart).
  split; [apply firstn_le_length |]. split; [| split].
  - intros c Hc.
    assert (Hf : In c (filter isAllowed (trimUnits destination))).
    { rewrite <- (firstn_skipn 100 (filter _ _)). apply in_or_app.
      now left. }
    apply filter_In in Hf. destruct Hf as [Hin Hok].
    split; [| now apply Hallowed].
    rewrite Hpart. apply in_or_app. right. apply in_or_app. now left.
  - pose proof (filter_shorter isAllowed (trimUnits destination)).
    pose proof (firstn_le_length 100
                  (filter isAllowed (trimUnits destination))).
    apply (f_equal (@List.length N)) in Hpart.
    rewrite !length_app in Hpart. rewrite length_firstn. lia.
  - intros Hall Hhead Hlast Hlen.
    assert (Hspace : forall c, ~ whiteSpace c -> isWhiteSpace c = false).
    { intros c Hc. destruct (isWhiteSpace c) eqn:E; [| reflexivity].
      apply isWhiteSpace_spec in E. contradiction. }
    assert (Htrim : trimUnits destination = destination).
    { unfold trimUnits.
      rewrite (trimStartUnits_fixed destination)
        by (intros c Hc; apply Hspace; now apply Hhead).
      rewrite (trimStartUnits_fixed (rev destination))
        by (intros c Hc; apply Hspace; now apply Hlast).
      apply rev_involutive. }
    rewrite Htrim, filter_fixed.
    + now apply firstn_all2.
    + intros c Hc. apply Hallowed. now apply Hall.
Qed.

End SanitizeFacts.

(** [Paris,] followed by a no-break space and [Fr]: nothing is removed. *)
Lemma sanitizeDestination_clean_witness :
  PlanUtils.sanitizeDestination [80; 97; 114; 105; 115; 44; 160; 70; 114]%N
  = [80; 97; 114; 105; 115; 44; 160; 70; 114]%N.
Proof.
  apply (proj2 (proj2 (proj2
    (@sanitizeDestination_clean
       [80; 97; 114; 105; 115; 44; 160; 70; 114]%N)))).
  - intros c H. cbn [In] in H.
    repeat (destruct H as [<- | H]; [lia |]). contradiction.
  - intros c H. injection H as <-. lia.
  - intros c H. injection H as <-. lia.
  - simpl. lia.
Defined.

(** ** Plan utilities: the cache fingerprint and the order of interests *)

Section SortFacts.

Import PlanUtils.

Lemma leb_trans (s1 s2 s3 : string) :
  String.leb s1 s2 = true -> String.leb s2 s3 = true ->
  String.leb s1 s3 = true.
Proof.
  unfold String.leb.
  revert s2 s3; induction s1 as [| a s1 IH]; intros [| b s2] [| c s3];
    simpl; try reflexivity; try discriminate.
  unfold Ascii.compare.
  destruct (N.compare_spec (N_of_ascii a) (N_of_ascii b)) as [E1 | L1 | G1];
    destruct (N.compare_spec (N_of_ascii b) (N_of_ascii c)) as [E2 | L2 | G2];
    destruct (N.compare_spec (N_of_ascii a) (N_of_ascii c)) as [E3 | L3 | G3];
    try discriminate; try reflexivity; try (intros _ _; exfalso; lia);
    try (intros; exfalso; lia).
  apply IH.
Qed.

Local Notation "'sorted' l" :=
  (StronglySorted (fun x y => String.leb x y = true) l)
  (at level 10, l at level 9).

Lemma insertSorted_perm (s : string) (l : list string) :
  Permutation (s :: l) (insertSorted s l).
Proof.
  induction l as [| h t IH]; simpl; [reflexivity |].
  destruct (String.leb s h); [reflexivity |].
  rewrite perm_swap. now constructor.
Qed.

Lemma insertSorted_sorted (s : string) (l : list string) :
  sorted l -> sorted (insertSorted s l).
Proof.
  induction 1 as [| h t Ht IH Hh]; simpl.
  - repeat constructor.
  - destruct (String.leb s h) eqn:E.
    + constructor; [now constructor |].
      constructor; [exact E |].
      eapply Forall_impl; [| exact Hh].
      intros x Hx. simpl in Hx. now apply leb_trans with h.
    + constructor; [exact IH |].
      rewrite <- (insertSorted_perm s t).
      constructor; [| exact Hh].
      destruct (String.leb_total s h) as [C | C]; congruence.
Qed.

Lemma sort_perm (l : list string) : Permutation l (sort l).
Proof.
  induction l as [| s l IH]; simpl; [reflexivity |].
  rewrite <- insertSorted_perm. now constructor.
Qed.

Lemma sort_sorted (l : list string) : sorted (sort l).
Proof.
  induction l as [| s l IH]; simpl; [constructor |].
  now apply insertSorted_sorted.
Qed.

Lemma sorted_unique (l1 l2 : list string) :
  sorted l1 -> sorted l2 -> Permutation l1 l2 -> l1 = l2.
Proof.
  intros H1; revert l2; induction H1 as [| a l1 Hl1 IH Ha]; intros l2 H2 P.
  - apply Permutation_nil in P. now subst.
  - destruct H2 as [| b l2 Hl2 Hb].
    + symmetry in P. apply Permutation_nil in P. discriminate.
    + assert (E : a = b).
      { apply String.leb_antisym.
        - assert (I : In b (a :: l1))
            by (eapply Permutation_in; [symmetry; exact P | now left]).
          destruct I as [-> | I];
            [destruct (String.leb_total b b); assumption |].
          exact (proj1 (Forall_forall _ _) Ha b I).
        - assert (I : In a (b :: l2))
            by (eapply Permutation_in; [exact P | now left]).
          destruct I as [-> | I];
            [destruct (String.leb_total a a); assumption |].
          exact (proj1 (Forall_forall _ _) Hb a I). }
      subst b. f_equal. apply IH; [exact Hl2 |].
      now apply Permutation_cons_inv with a.
Qed.

Lemma sort_permutation (l1 l2 : list string) :
  Permutation l1 l2 -> sort l1 = sort l2.
Proof.
  intros P. apply sorted_unique; try apply sort_sorted.
  rewrite <- (sort_perm l1), <- (sort_perm l2). exact P.
Qed.

(** X15.  The cache fingerprint does not depend on the order in which the
    interests are listed, nor on the case of the letters of the destination
    or on white space around it: two requests that differ only in these
    have the same key data and the same fingerprint. *)
Theorem generateCacheKey_order_and_case {host : Host} (r : PlanRequest)
  (style : option string) (d1 d2 : string) (i1 i2 : list string) :
  Permutation i1 i2 ->
  Str.trim (Str.toLowerCase d1) = Str.trim (Str.toLowerCase d2) ->
  let request := fun d i =>
    {| destination := d; startDate := startDate r; endDate := endDate r;
       budget := budget r; currency := currency r; travelers := travelers r;
       preferences := Some {| travelStyle := style; interests := Some i |};
       userId := userId r; language := language r |} in
  keyData (request d1 i1) = keyData (request d2 i2)
  /\ generateCacheKey (request d1 i1) = generateCacheKey (request d2 i2).
Proof.
  intros P D request.
  assert (K : keyData (request d1 i1) = keyData (request d2 i2)).
  { unfold keyData, keyInterestList, keyStyle. subst request.
    cbn [destination startDate endDate budget currency travelers preferences
         interests travelStyle option_map].
    now rewrite D, (sort_permutation P). }
  split; [exact K |]. unfold generateCacheKey. now rewrite K.
Qed.

End SortFacts.

Lemma generateCacheKey_order_and_case_witness :
  PlanUtils.generateCacheKey (host := Examples.exampleHost)
    {| destination := " Paris, France"; startDate := "2026-06-01";
       endDate := "2026-06-07"; budget := Fin 2000; currency := "USD";
       travelers := Some (Fin 1);
       preferences :=
         Some {| travelStyle := None;
                 interests := Some ["food"; "art"]%string |};
       userId := "u1"; language := "en" |}
  = PlanUtils.generateCacheKey (host := Examples.exampleHost)
    {| destination := "PARIS, france"; startDate := "2026-06-01";
       endDate := "2026-06-07"; budget := Fin 2000; currency := "USD";
       travelers := Some (Fin 1);
       preferences :=
         Some {| travelStyle := None;
                 interests := Some ["art"; "food"]%string |};
       userId := "u1"; language := "en" |}.
Proof.
  exact (proj2 (@generateCacheKey_order_and_case Examples.exampleHost
                  (Examples.paris (Fin 2000) "USD") None
                  " Paris, France" "PARIS, france"
                  ["food"; "art"]%string ["art"; "food"]%string
                  (perm_swap _ _ _) eq_refl)).
Defined.

(** ** AI plan generator: accepted plans, outcomes and credits *)

Section GeneratorFacts.

Context {host : Host}.

Import Gemini.

Local Notation "'complete' r" := (r <> JNull /\ routeMissing r = [])
  (at level 10, r at level 9).

Lemma filter_nil_iff {A : Type} (f : A -> bool) (l : list A) :
  filter f l = [] <-> Forall (fun x => f x = false) l.
Proof.
  induction l as [| x l IH]; simpl.
  - split; [constructor | reflexivity].
  - destruct (f x) eqn:E; split.
    + discriminate.
    + intros H. inversion H; congruence.
    + intros H. constructor; [exact E | now apply IH].
    + intros H. inversion H. now apply IH.
Qed.

Lemma isEmpty_true {A : Type} (l : list A) : isEmpty l = true <-> l = [].
Proof. destruct l; simpl; split; congruence. Qed.

Lemma checkRoutes_ok (routes : list json) (index : nat) :
  checkRoutes routes index = Ok tt <-> Forall (fun r => complete r) routes.
Proof.
  revert index; induction routes as [| r routes IH]; intros index.
  - split; [constructor | reflexivity].
  - cbn [checkRoutes]. split.
    + intros H. destruct r; try discriminate;
        destruct (routeMissing _) eqn:M; try discriminate;
        cbn [isEmpty negb] in H;
        (constructor; [split; [discriminate | exact M] |
                       exact (proj1 (IH _) H)]).
    + intros H. inversion H as [| ? ? [Hr Hm] Hrest]; subst.
      destruct r; try congruence; rewrite Hm; cbn [isEmpty negb];
        now apply IH.
Qed.

(** X16.  A parsed plan passes the structural validation exactly when its
    four top-level fields are present with truthy values, [mainRoutes] is a
    non-empty array, and every route in it is not [null] and has all of
    [id], [name], [totalCost], [breakdown] and [dailyPlan]. *)
Theorem validateTravelPlan_accepts (plan : json) :
  validateTravelPlan plan = Ok tt
  <-> Forall (fun field => truthy (property plan field) = true) required
      /\ exists routes,
           property plan "mainRoutes" = Some (JArray routes)
           /\ routes <> []
           /\ Forall (fun r => complete r) routes.
Proof.
  assert (Hnull : ~ Forall (fun field => truthy (property JNull field) = true)
                     required).
  { intros H. inversion H. discriminate. }
  assert (Hmissing :
    forall p,
      filter (fun field => negb (truthy (property p field))) required = []
      <-> Forall (fun field => truthy (property p field) = true) required).
  { intros p. rewrite filter_nil_iff. split; intros H;
      (eapply Forall_impl; [| exact H]); cbv beta; intros f Hf;
      [now apply negb_false_iff in Hf | now rewrite Hf]. }
  assert (Hbody :
    forall p,
      (let missing :=
         filter (fun field => negb (truthy (property p field))) required in
       if negb (isEmpty missing)
       then Throw ("Missing required fields: " ++ Str.join ", " missing)
       else
         match property p "mainRoutes" with
         | Some (JArray routes) =>
             if isEmpty routes
             then Throw "At least one main route is required"
             else checkRoutes routes 0
         | _ => Throw "At least one main route is required"
         end) = Ok tt
      <-> Forall (fun field => truthy (property p field) = true) required
          /\ exists routes,
               property p "mainRoutes" = Some (JArray routes)
               /\ routes <> []
               /\ Forall (fun r => complete r) routes).
  { intros p. cbv zeta.
    destruct (filter (fun field => negb (truthy (property p field))) required)
      as [| m ms] eqn:F; cbn [isEmpty negb].
    - apply Hmissing in F. split.
      + intros H. split; [exact F |].
        destruct (property p "mainRoutes") as [[| | | | routes |] |];
          try discriminate.
        destruct routes as [| r routes]; [discriminate |].
        exists (r :: routes). cbn [isEmpty] in H.
        split; [reflexivity | split; [discriminate |]].
        now apply (checkRoutes_ok (r :: routes) 0).
      + intros (_ & routes & -> & Hne & Hall).
        destruct routes as [| r routes]; [congruence |].
        cbn [isEmpty]. now apply checkRoutes_ok.
    - split; [discriminate |].
      intros (H & _). apply Hmissing in H.
      rewrite H in F. discriminate. }
  unfold validateTravelPlan.
  destruct plan; try apply Hbody.
  split; [discriminate | intros (H & _); contradiction].
Qed.

(** X17.  [parseGeminiResponse] returns a plan exactly when the text holds
    JSON that parses to this plan and the plan passes the structural
    validation; every failure, whatever its cause, is reported by the one
    message [Invalid response format from AI service]. *)
Theorem parseGeminiResponse_result (responseText : string) :
  (forall plan,
     parseGeminiResponse responseText = Ok plan
     <-> exists jsonStr,
           extractJson responseText = Ok jsonStr
           /\ JSON_parse jsonStr = Ok plan
           /\ validateTravelPlan plan = Ok tt)
  /\ (forall message,
        parseGeminiResponse responseText = Throw message ->
        message = "Invalid response format from AI service"%string).
Proof.
  unfold parseGeminiResponse. split.
  - intros plan. split.
    + destruct (extractJson responseText) as [jsonStr |]; cbn [bind tryCatch];
        [| discriminate].
      destruct (JSON_parse jsonStr) as [parsed |] eqn:P; cbn [bind tryCatch];
        [| discriminate].
      destruct (validateTravelPlan parsed) as [[] |] eqn:V;
        cbn [bind tryCatch]; [| discriminate].
      intros E. injection E as <-. eauto.
    + intros (jsonStr & -> & P & V). cbn [bind]. rewrite P. cbn [bind].
      rewrite V. reflexivity.
  - intros message.
    destruct (extractJson responseText) as [jsonStr |]; cbn [bind tryCatch];
      [| congruence].
    destruct (JSON_parse jsonStr) as [parsed |]; cbn [bind tryCatch];
      [| congruence].
    destruct (validateTravelPlan parsed) as [[] |]; cbn [bind tryCatch];
      [discriminate | congruence].
Qed.

Lemma handleGeminiError_codes (message : string) :
  In (handleGeminiError message)
     [ "GEMINI_QUOTA_EXCEEDED"; "CONTENT_FILTERED"; "RATE_LIMIT_EXCEEDED";
       "GEMINI_API_ERROR" ]%string.
Proof.
  unfold handleGeminiError.
  destruct (Str.includes message "quota"); [now left |].
  destruct (Str.includes message "safety"); [right; now left |].
  destruct (Str.includes message "rate limit"); [do 2 right; now left |].
  do 3 right. now left.
Qed.

(** X18.  A plan returned by [generateTravelPlan] has passed the structural
    validation and is charged by the usage of its response.  Every failure
    carries one of the four error codes, and the failures of the parsing
    stage (no response, malformed or incomplete JSON) all carry
    [GEMINI_API_ERROR], whatever the text of the response says. *)
Theorem generateTravelPlan_outcomes
  (apiOutcome : Except (option ApiResponse)) :
  (forall generated,
     generateTravelPlan apiOutcome = Ok generated ->
     validateTravelPlan (travelPlan generated) = Ok tt
     /\ exists response,
          apiOutcome = Ok (Some response)
          /\ creditsUsed generated
             = calculateCreditsUsed (usageMetadata response))
  /\ (forall message,
        generateTravelPlan apiOutcome = Throw message ->
        In message
           [ "GEMINI_QUOTA_EXCEEDED"; "CONTENT_FILTERED";
             "RATE_LIMIT_EXCEEDED"; "GEMINI_API_ERROR" ]%string)
  /\ (apiOutcome = Ok None ->
      generateTravelPlan apiOutcome = Throw "GEMINI_API_ERROR")
  /\ (forall response responseText message,
        apiOutcome = Ok (Some response) ->
        text response = Ok responseText ->
        parseGeminiResponse responseText = Throw message ->
        generateTravelPlan apiOutcome = Throw "GEMINI_API_ERROR").
Proof.
  unfold generateTravelPlan. split; [| split; [| split]].
  - intros generated.
    destruct apiOutcome as [[response |] |]; cbn [bind tryCatch];
      try discriminate.
    destruct (text response) as [responseText |]; cbn [bind tryCatch];
      try discriminate.
    destruct (parseGeminiResponse responseText) as [plan |] eqn:P;
      cbn [bind tryCatch]; try discriminate.
    intros E. injection E as <-. cbn [travelPlan creditsUsed].
    apply (proj1 (parseGeminiResponse_result responseText)) in P.
    destruct P as (jsonStr & _ & _ & V). split; [exact V |]. eauto.
  - intros message H.
    destruct (bind apiOutcome _) as [g | m]; cbn [tryCatch] in H;
      [discriminate |].
    injection H as <-. apply handleGeminiError_codes.
  - intros ->. reflexivity.
  - intros response responseText message -> T P.
    cbn [bind]. rewrite T. cbn [bind]. rewrite P.
    rewrite (proj2 (parseGeminiResponse_result responseText) message P).
    reflexivity.
Qed.

Open Scope R_scope.

(** X19.  With [p] prompt tokens and [c] answer tokens, either of which may
    be missing and then counts as 0, the credit cost is the whole number [n]
    with [1000 (n - 1) < p + c <= 1000 n]: a started thousand of tokens costs
    a whole credit. *)
Theorem calculateCreditsUsed_thousands (p c : option R) :
  let count := fun o : option R => match o with Some x => x | None => 0 end in
  exists n : Z,
    calculateCreditsUsed
      (Some {| promptTokenCount := option_map Fin p;
               candidatesTokenCount := option_map Fin c |})
    = Fin (IZR n)
    /\ 1000 * (IZR n - 1) < count p + count c <= 1000 * IZR n.
Proof.
  intros count.
  assert (Hcount : forall o : option R,
             Num.orElse (option_map Fin o) (Fin 0) = Fin (count o)).
  { intros [x |]; [| reflexivity].
    unfold Num.orElse, Num.truthy, Num.Reqb. cbn [option_map count].
    destruct (Req_dec_T x 0) as [-> |]; reflexivity. }
  unfold calculateCreditsUsed.
  cbn [promptTokenCount candidatesTokenCount]. rewrite !Hcount.
  cbn [Num.add]. rewrite div_Fin by lra. cbn [Num.ceil].
  exists (Zceil ((count p + count c) / 1000)). split; [reflexivity |].
  pose proof (Zceil_bound ((count p + count c) / 1000)). lra.
Qed.

End GeneratorFacts.

(** ** Currency conversion *)

Section CurrencyFacts.

Import Currency.

Open Scope R_scope.

(** The conversion by a finite rate other than 0. *)
Lemma convertCurrency_Ok (fetched : Except Rates) (rates : Rates)
  (a r : R) (fromCurrency toCurrency : string) :
  String.eqb fromCurrency toCurrency = false ->
  getExchangeRates fetched fromCurrency = Ok rates ->
  Str.lookup toCurrency rates = Some (Fin r) -> r <> 0 ->
  convertCurrency fetched (Fin a) fromCurrency toCurrency
  = Ok {| originalAmount := Fin a;
          convertedAmount := Fin (IZR (Zfloor (a * r * 100 + / 2)) / 100);
          rate := Fin r |}.
Proof.
  intros Hne Hrates Hr Hnz.
  unfold convertCurrency. rewrite Hne, Hrates. cbn [bind]. rewrite Hr.
  unfold Num.truthy. rewrite (Reqb_false Hnz).
  cbn [negb tryCatch Num.mul Num.round].
  rewrite div_Fin by lra. reflexivity.
Qed.

(** X20.  When the rate table of the source currency holds a finite rate
    [r <> 0] for the target currency, the conversion succeeds, and the
    converted amount is a whole number of hundredths within half a
    hundredth of [amount * r]. *)
Theorem convertCurrency_rounds (fetched : Except Rates) (rates : Rates)
  (a r : R) (fromCurrency toCurrency : string) :
  String.eqb fromCurrency toCurrency = false ->
  getExchangeRates fetched fromCurrency = Ok rates ->
  Str.lookup toCurrency rates = Some (Fin r) -> r <> 0 ->
  exists n : Z,
    convertCurrency fetched (Fin a) fromCurrency toCurrency
    = Ok {| originalAmount := Fin a; convertedAmount := Fin (IZR n / 100);
            rate := Fin r |}
    /\ Rabs (IZR n / 100 - a * r) <= / 200.
Proof.
  intros Hne Hrates Hr Hnz.
  exists (Zfloor (a * r * 100 + / 2)).
  split; [now apply convertCurrency_Ok with rates |].
  pose proof (Zfloor_bound (a * r * 100 + / 2)) as [Hlo Hhi].
  apply Rabs_le. lra.
Qed.

(** X21.  Every failure of a conversion is reported by the one message that
    names the two currencies, and a conversion of a currency into itself
    never fails.  A rate of 0 or NaN in the rate table is treated like a
    currency that is not supported: the conversion fails. *)
Theorem convertCurrency_failure (fetched : Except Rates) (amount : number)
  (fromCurrency toCurrency : string) :
  (forall message,
     convertCurrency fetched amount fromCurrency toCurrency = Throw message ->
     message
     = ("Unable to convert " ++ fromCurrency ++ " to " ++ toCurrency)%string
     /\ fromCurrency <> toCurrency)
  /\ (forall rates r,
        fromCurrency <> toCurrency ->
        getExchangeRates fetched fromCurrency = Ok rates ->
        Str.lookup toCurrency rates = Some r ->
        Num.truthy r = false ->
        convertCurrency fetched amount fromCurrency toCurrency
        = Throw ("Unable to convert " ++ fromCurrency ++ " to "
                 ++ toCurrency)%string).
Proof.
  unfold convertCurrency. split.
  - intros message.
    destruct (String.eqb fromCurrency toCurrency) eqn:E;
      [discriminate |].
    apply String.eqb_neq in E.
    destruct (bind _ _); cbn [tryCatch]; [discriminate |].
    intros H. injection H as <-. auto.
  - intros rates r Hne Hrates Hr Hz.
    apply String.eqb_neq in Hne. rewrite Hne, Hrates. cbn [bind].
    now rewrite Hr, Hz.
Qed.

Lemma fallback_rate (fromCurrency toCurrency : string) :
  In fromCurrency ["USD"; "EUR"; "TRY"; "GBP"]%string ->
  In toCurrency ["USD"; "EUR"; "TRY"; "GBP"]%string ->
  exists (rates : Rates) (r : R),
    getFallbackRates fromCurrency = Ok rates
    /\ Str.lookup toCurrency rates = Some (Fin r) /\ 0 < r.
Proof.
  intros Hf Ht. simpl in Hf, Ht.
  repeat (destruct Hf as [<- | Hf]; [| try contradiction]);
    repeat (destruct Ht as [<- | Ht]; [| try contradiction]);
    (eexists; eexists; split; [reflexivity | split; [reflexivity | lra]]).
Qed.

(** With the rate service down, the static table converts among its four
    currencies. *)
Lemma fallback_converts (message : string) (a : R)
  (fromCurrency toCurrency : string) :
  In fromCurrency ["USD"; "EUR"; "TRY"; "GBP"]%string ->
  In toCurrency ["USD"; "EUR"; "TRY"; "GBP"]%string ->
  exists conversion x,
    convertCurrency (Throw message) (Fin a) fromCurrency toCurrency
    = Ok conversion
    /\ originalAmount conversion = Fin a
    /\ convertedAmount conversion = Fin x
    /\ (0 <= a -> 0 <= x).
Proof.
  intros Hf Ht.
  destruct (String.eqb fromCurrency toCurrency) eqn:E.
  - exists {| originalAmount := Fin a; convertedAmount := Fin a;
              rate := Fin 1 |}, a.
    unfold convertCurrency. rewrite E. auto.
  - destruct (@fallback_rate fromCurrency toCurrency Hf Ht)
      as (rates & r & Hr & Hl & Hpos).
    assert (Hnz : r <> 0) by lra.
    eexists; eexists.
    split; [exact (@convertCurrency_Ok (Throw message) rates a r
                     fromCurrency toCurrency E Hr Hl Hnz) |].
    split; [reflexivity |]. split; [reflexivity |].
    intros Ha.
    assert (H0 : (0 <= Zfloor (a * r * 100 + / 2))%Z).
    { apply Zfloor_lub. simpl. nra. }
    apply IZR_le in H0. lra.
Qed.

(** X22.  With the rate service down, an amount in one of USD, EUR, TRY and
    GBP is still converted into any of the four, by a positive rate of the
    static table; for any other source currency the conversion into a
    different currency fails. *)
Theorem convertCurrency_fallback (message : string) (a : R)
  (fromCurrency toCurrency : string) :
  In toCurrency ["USD"; "EUR"; "TRY"; "GBP"]%string ->
  (In fromCurrency ["USD"; "EUR"; "TRY"; "GBP"]%string ->
   exists conversion x,
     convertCurrency (Throw message) (Fin a) fromCurrency toCurrency
     = Ok conversion
     /\ originalAmount conversion = Fin a
     /\ convertedAmount conversion = Fin x
     /\ (0 <= a -> 0 <= x))
  /\ (~ In fromCurrency ["USD"; "EUR"; "TRY"; "GBP"]%string ->
      fromCurrency <> toCurrency ->
      convertCurrency (Throw message) (Fin a) fromCurrency toCurrency
      = Throw ("Unable to convert " ++ fromCurrency ++ " to "
               ++ toCurrency)%string).
Proof.
  intros Ht. split.
  - intros Hf. now apply fallback_converts.
  - intros Hf Hne. apply String.eqb_neq in Hne.
    unfold convertCurrency, getExchangeRates, getFallbackRates.
    rewrite Hne. cbn [tryCatch].
    destruct (Str.lookup fromCurrency fallbackRates) eqn:L; [| reflexivity].
    exfalso. apply Hf.
    exact (@lookup_key_in _ fromCurrency fallbackRates _ L).
Qed.

End CurrencyFacts.

Lemma convertCurrency_rounds_witness :
  exists n : Z,
    Currency.convertCurrency (Throw "All currency APIs unavailable")
      (Fin 1999.999) "EUR" "USD"
    = Ok {| Currency.originalAmount := Fin 1999.999;
            Currency.convertedAmount := Fin (IZR n / 100);
            Currency.rate := Fin 1.18 |}.
Proof.
  destruct (@convertCurrency_rounds (Throw "All currency APIs unavailable")
              [ ("USD", Fin 1.18); ("GBP", Fin 0.86); ("TRY", Fin 40.24);
                ("EUR", Fin 1) ]%string
              1999.999 1.18 "EUR" "USD" eq_refl eq_refl eq_refl)
    as (n & H & _); [lra |].
  exists n. exact H.
Defined.

Lemma convertCurrency_fallback_witness :
  exists conversion,
    Currency.convertCurrency (Throw "All currency APIs unavailable")
      (Fin 2000) "TRY" "USD" = Ok conversion.
Proof.
  destruct (proj1 (@convertCurrency_fallback "All currency APIs unavailable"
                     2000 "TRY" "USD" (or_introl eq_refl))
                  (or_intror (or_intror (or_introl eq_refl))))
    as (conversion & x & H & _).
  exists conversion. exact H.
Defined.

(** ** Price sanity validator: validity of routes and reports *)

Section PriceFacts.

Context {host : Host}.

Import PriceValidation.

Open Scope R_scope.

Lemma flight_isValid (flightCost partySize : number) (b : Boundaries) :
  let c := (flightCost / partySize)%num in
  let band := international (flightBands b) in
  isValid (validateFlightPrices flightCost partySize b)
  = (c <? min band)%num || negb (c >? max band)%num.
Proof.
  cbv zeta. unfold validateFlightPrices.
  destruct (_ <? min _)%num; [reflexivity |].
  destruct (_ >? max _)%num; [reflexivity |].
  destruct (_ >? _)%num; reflexivity.
Qed.

Lemma hotel_isValid (hotelCost duration partySize : number) (b : Boundaries)
  (style : string) :
  let c := (hotelCost / duration)%num in
  let band := styleBand style (hotelBands b) in
  isValid (validateHotelPrices hotelCost duration partySize b style)
  = (c <? min band)%num || negb (c >? max band)%num.
Proof.
  cbv zeta. unfold validateHotelPrices.
  destruct (_ <? min _)%num; [reflexivity |].
  destruct (_ >? max _)%num; [reflexivity |].
  destruct (_ >? _)%num; reflexivity.
Qed.

Lemma activity_isValid (activityCost duration partySize : number)
  (b : Boundaries) :
  isValid (validateActivityPrices activityCost duration partySize b) = true.
Proof.
  unfold validateActivityPrices.
  destruct (_ >? _)%num; [reflexivity |].
  destruct (_ <? _)%num; reflexivity.
Qed.

Lemma flight_errors (flightCost partySize : number) (b : Boundaries) :
  isValid (validateFlightPrices flightCost partySize b) = false ->
  errors (validateFlightPrices flightCost partySize b) <> [].
Proof.
  unfold validateFlightPrices.
  destruct (_ <? min _)%num; [discriminate |].
  destruct (_ >? max _)%num; [discriminate |].
  destruct (_ >? _)%num; discriminate.
Qed.

Lemma hotel_errors (hotelCost duration partySize : number) (b : Boundaries)
  (style : string) :
  isValid (validateHotelPrices hotelCost duration partySize b style) = false ->
  errors (validateHotelPrices hotelCost duration partySize b style) <> [].
Proof.
  unfold validateHotelPrices.
  destruct (_ <? min _)%num; [discriminate |].
  destruct (_ >? max _)%num; [discriminate |].
  destruct (_ >? _)%num; discriminate.
Qed.

(** A route is valid exactly when it carries no error. *)
Lemma route_valid_iff_no_error (route : Route)
  (budgetUSD duration partySize multiplier : number) (style : string) :
  let validation :=
    validateRoute route budgetUSD duration partySize multiplier style in
  routeIsValid validation = true <-> routeErrors validation = [].
Proof.
  cbv zeta. unfold validateRoute. cbn [routeIsValid routeErrors].
  set (f := validateFlightPrices _ _ _).
  set (h := validateHotelPrices _ _ _ _ _).
  set (over := (_ >? _)%num).
  pose proof (@flight_errors (flights (breakdown route)) partySize
    (adjustBoundariesForCountry multiplier (getTravelStyleMultiplier style)))
    as Hf.
  pose proof (@hotel_errors (hotels (breakdown route)) duration partySize
    (adjustBoundariesForCountry multiplier (getTravelStyleMultiplier style))
    style) as Hh.
  fold f in Hf. fold h in Hh.
  destruct (isValid f), (isValid h), over; cbn [andb negb];
    split; try discriminate; try reflexivity; intros E; exfalso;
    repeat match goal with
           | H : _ ++ _ = [] |- _ =>
               apply app_eq_nil in H; destruct H
           end;
    first [ discriminate | now apply Hf | now apply Hh ].
Qed.

Lemma scaled_band_order (K lo hi : R) (x : number) :
  0 <= K -> lo <= hi ->
  (x <? min (scale (Fin K) (range lo hi)))%num = true ->
  (x >? max (scale (Fin K) (range lo hi)))%num = false.
Proof.
  intros HK Hle. unfold scale, range. cbn [min max Num.mul].
  destruct x as [v | | |]; cbn [Num.ltb Num.gtb]; try reflexivity;
    try discriminate.
  unfold Num.Rltb.
  destruct (Rlt_dec v (lo * K)); [| discriminate].
  destruct (Rlt_dec (hi * K) v); [| reflexivity].
  intros _. exfalso.
  assert (lo * K <= hi * K) by (apply Rmult_le_compat_r; lra). lra.
Qed.

Lemma styleMultiplier_pos (style : string) :
  exists s : R, getTravelStyleMultiplier style = Fin s /\ 0 < s.
Proof.
  unfold getTravelStyleMultiplier. cbn [Str.lookup].
  destruct (String.eqb style "budget");
    [exists 0.7; unfold Num.orElse, Num.truthy;
     rewrite Reqb_false by lra; split; [reflexivity | lra] |].
  destruct (String.eqb style "mid-range");
    [exists 1.0; unfold Num.orElse, Num.truthy;
     rewrite Reqb_false by lra; split; [reflexivity | lra] |].
  destruct (String.eqb style "luxury");
    [exists 1.8; unfold Num.orElse, Num.truthy;
     rewrite Reqb_false by lra; split; [reflexivity | lra] |].
  exists 1.0. split; [reflexivity | lra].
Qed.

(** X23.  For a country multiplier [k >= 0] and a travel style that is not
    an inherited property name, a route is valid exactly when its flight
    cost per person is not above the scaled international band, its hotel
    cost per night is not above the scaled band of the style, and its total
    cost is not above 120% of the budget per traveler.  A price below a band
    and the activity cost never make a route invalid, and a route is valid
    exactly when it carries no error.  (For an inherited property name the
    source reads a function, not a number, from its table of style
    multipliers.) *)
Theorem validateRoute_validity (route : Route)
  (budgetUSD duration partySize : number) (k : R) (style : string) :
  Str.mem style Str.inheritedKeys = false -> 0 <= k ->
  let validation :=
    validateRoute route budgetUSD duration partySize (Fin k) style in
  let adjusted :=
    adjustBoundariesForCountry (Fin k) (getTravelStyleMultiplier style) in
  let flightBand := international (flightBands adjusted) in
  let hotelBand := styleBand style (hotelBands adjusted) in
  let costPerPerson := (flights (breakdown route) / partySize)%num in
  let costPerNight := (hotels (breakdown route) / duration)%num in
  (routeIsValid validation = true
   <-> (costPerPerson >? max flightBand)%num = false
       /\ (costPerNight >? max hotelBand)%num = false
       /\ (totalCost route >? budgetUSD / partySize * Fin 1.2)%num = false)
  /\ (routeIsValid validation = true <-> routeErrors validation = [])
  /\ isValid (activityCheck validation) = true.
Proof.
  intros _ Hk validation adjusted flightBand hotelBand costPerPerson
         costPerNight.
  split; [| split; [apply route_valid_iff_no_error | apply activity_isValid]].
  subst validation. unfold validateRoute. cbn [routeIsValid].
  rewrite flight_isValid, hotel_isValid.
  fold adjusted. fold flightBand hotelBand costPerPerson costPerNight.
  destruct (styleMultiplier_pos style) as (s & Hs & Hpos).
  assert (HK : 0 <= k * s) by (apply Rmult_le_pos; lra).
  assert (Hflight : (costPerPerson <? min flightBand)%num = true ->
                    (costPerPerson >? max flightBand)%num = false).
  { subst flightBand adjusted. unfold adjustBoundariesForCountry.
    rewrite Hs. cbn [Num.mul].
    apply (@scaled_band_order (k * s) 200 5000 costPerPerson HK). lra. }
  assert (Hhotel : (costPerNight <? min hotelBand)%num = true ->
                   (costPerNight >? max hotelBand)%num = false).
  { subst hotelBand adjusted. unfold adjustBoundariesForCountry, styleBand.
    rewrite Hs. cbn [Num.mul].
    destruct (String.eqb style "budget");
      [apply (@scaled_band_order (k * s) 15 100 costPerNight HK); lra |].
    destruct (String.eqb style "luxury");
      [apply (@scaled_band_order (k * s) 200 2000 costPerNight HK); lra |].
    apply (@scaled_band_order (k * s) 50 300 costPerNight HK); lra. }
  destruct (costPerPerson <? min flightBand)%num;
    destruct (costPerNight <? min hotelBand)%num;
    try (rewrite (Hflight eq_refl)); try (rewrite (Hhotel eq_refl));
    destruct (costPerPerson >? max flightBand)%num;
    destruct (costPerNight >? max hotelBand)%num;
    destruct (totalCost route >? _)%num; cbn [orb negb andb];
    try (specialize (Hflight eq_refl)); try (specialize (Hhotel eq_refl));
    try discriminate;
    (split; [try discriminate; auto | intros (? & ? & ?);
                                       try discriminate; reflexivity]).
Qed.

Lemma fold_valid_iff_no_error
  (budgetInUSD duration partySize multiplier : number) (style : string)
  (routes : list Route) (acc : ValidationResults) :
  (reportIsValid acc = true <-> reportErrors acc = []) ->
  let report :=
    fold_left (validateStep budgetInUSD duration partySize multiplier style)
              routes acc in
  reportIsValid report = true <-> reportErrors report = [].
Proof.
  revert acc; induction routes as [| r routes IH]; intros acc Hacc;
    cbn [fold_left]; [exact Hacc |].
  apply IH. unfold validateStep. cbn [reportIsValid reportErrors].
  pose proof (@route_valid_iff_no_error r budgetInUSD duration partySize
                multiplier style) as Hr. cbv zeta in Hr.
  destruct (routeIsValid _).
  - rewrite app_nil_r, andb_true_r. exact Hacc.
  - rewrite andb_false_r. split; [discriminate |].
    intros E. apply app_eq_nil in E. destruct E as [_ E].
    apply Hr in E. discriminate.
Qed.

(** X24.  The report of the price validator is valid exactly when it lists
    no error; the warnings of the budget check and of the outlier detector
    never make it invalid. *)
Theorem report_valid_iff_no_error (fetched : Except Currency.Rates)
  (travelPlan : GeneratedPlan) (request : PlanRequest) :
  let report := validateTravelPlan fetched travelPlan request in
  reportIsValid report = true <-> reportErrors report = [].
Proof.
  cbv zeta. unfold validateTravelPlan.
  destruct (referenceBudget fetched request) as [budgetInUSD | message].
  - unfold validateWithBudget. cbn [reportIsValid reportErrors].
    apply fold_valid_iff_no_error. split; reflexivity.
  - cbn. split; discriminate.
Qed.

(** *** The budget check *)

Lemma cheapest_spec (rest : list Route) (first : Route) :
  (forall r, In r (first :: rest) -> exists y, totalCost r = Fin y) ->
  In (cheapest first rest) (first :: rest)
  /\ exists c,
       totalCost (cheapest first rest) = Fin c
       /\ forall r, In r (first :: rest) ->
                    exists y, totalCost r = Fin y /\ c <= y.
Proof.
  unfold cheapest. revert first.
  induction rest as [| r rest IH]; intros first Hfin.
  - cbn [fold_left]. split; [now left |].
    destruct (Hfin first (or_introl eq_refl)) as (c & Hc).
    exists c. split; [exact Hc |].
    intros q [<- | []]. exists c. split; [exact Hc | lra].
  - cbn [fold_left].
    destruct (Hfin first (or_introl eq_refl)) as (x & Hx).
    destruct (Hfin r (or_intror (or_introl eq_refl))) as (y & Hy).
    rewrite Hx, Hy. cbn [Num.ltb]. unfold Num.Rltb.
    destruct (Rlt_dec y x) as [L | L].
    + destruct (IH r) as (Hin & c & Hc & Hmin).
      { intros q Hq. apply Hfin. now right. }
      split; [now right |].
      exists c. split; [exact Hc |].
      destruct (Hmin r (or_introl eq_refl)) as (y' & Hy' & Hle).
      assert (y' = y) by congruence. subst y'.
      intros q [<- | Hq]; [exists x; split; [exact Hx | lra] |].
      now apply Hmin.
    + destruct (IH first) as (Hin & c & Hc & Hmin).
      { intros q [<- | Hq]; apply Hfin; [now left | now do 2 right]. }
      split; [destruct Hin as [<- | Hin]; [now left | now do 2 right] |].
      exists c. split; [exact Hc |].
      destruct (Hmin first (or_introl eq_refl)) as (x' & Hx' & Hle).
      assert (x' = x) by congruence. subst x'.
      intros q [<- | [<- | Hq]].
      * exists x. split; [exact Hx | lra].
      * exists y. split; [exact Hy | lra].
      * apply Hmin. now right.
Qed.

(** X25.  For a budget [b > 0] and routes with finite total costs, the
    budget check looks at a route of the plan whose total cost [c] is the
    least one, and it stays silent exactly when [c] lies between 60% and
    90% of the budget; otherwise it gives exactly one warning. *)
Theorem validateBudgetFeasibility_quiet (first : Route) (rest : list Route)
  (b : R) :
  0 < b ->
  (forall r, In r (first :: rest) -> exists y, totalCost r = Fin y) ->
  exists c,
    totalCost (cheapest first rest) = Fin c
    /\ In (cheapest first rest) (first :: rest)
    /\ (forall r, In r (first :: rest) ->
                  exists y, totalCost r = Fin y /\ c <= y)
    /\ (validateBudgetFeasibility (first :: rest) (Fin b) = []
        <-> 0.6 * b <= c <= 0.9 * b)
    /\ (List.length (validateBudgetFeasibility (first :: rest) (Fin b))
        <= 1)%nat.
Proof.
  intros Hb Hfin.
  destruct (@cheapest_spec rest first Hfin) as (Hin & c & Hc & Hmin).
  exists c. split; [exact Hc |]. split; [exact Hin |]. split; [exact Hmin |].
  unfold validateBudgetFeasibility. rewrite Hc.
  rewrite div_Fin by lra. cbn [Num.mul Num.gtb Num.ltb]. unfold Num.Rltb.
  set (q := c / b). assert (Hcq : c = q * b) by (unfold q; field; lra).
  clearbody q. rewrite Hcq. clear Hc Hmin Hcq.
  destruct (Rlt_dec 100 (q * 100));
    [split; [split; [discriminate | intros; exfalso; nra] | simpl; lia] |].
  destruct (Rlt_dec 90 (q * 100));
    [split; [split; [discriminate | intros; exfalso; nra] | simpl; lia] |].
  destruct (Rlt_dec (q * 100) 60);
    [split; [split; [discriminate | intros; exfalso; nra] | simpl; lia] |].
  split; [split; [intros _; split; nra | reflexivity] | simpl; lia].
Qed.

(** *** Rate outage *)

(** X27.  With the rate service down, a request whose budget is a finite
    amount in USD, EUR, TRY or GBP is still validated: the budget is
    converted by the static table (a budget that is not negative stays so),
    the report is the one of the validation proper, and it does not carry
    the error of an unavailable validation. *)
Theorem validation_survives_rate_outage (message : string)
  (travelPlan : GeneratedPlan) (request : PlanRequest) (b : R) :
  In (currency request) ["USD"; "EUR"; "TRY"; "GBP"]%string ->
  budget request = Fin b ->
  exists usd : R,
    referenceBudget (Throw message) request = Ok (Fin usd)
    /\ (0 <= b -> 0 <= usd)
    /\ validateTravelPlan (Throw message) travelPlan request
       = validateWithBudget travelPlan request (Fin usd)
    /\ errorDetail
         (validationDetails
            (validateTravelPlan (Throw message) travelPlan request))
       = None.
Proof.
  intros Hcur Hb.
  assert (Href : exists usd : R,
             referenceBudget (Throw message) request = Ok (Fin usd)
             /\ (0 <= b -> 0 <= usd)).
  { unfold referenceBudget.
    destruct (String.eqb (currency request) "USD") eqn:E; cbn [negb].
    - exists b. rewrite Hb. split; [reflexivity | auto].
    - destruct (@fallback_converts message b (currency request) "USD" Hcur
                  (or_introl eq_refl)) as (conv & x & Hc & _ & Hx & Hpos).
      exists x. rewrite Hb, Hc. cbn [bind]. rewrite Hx. auto. }
  destruct Href as (usd & Href & Hpos).
  exists usd. split; [exact Href |]. split; [exact Hpos |].
  unfold validateTravelPlan. rewrite Href. split; reflexivity.
Qed.

(** *** The shape of an outlier report *)

(** X28.  Every outlier of a report belongs to one of the four cost
    categories and to a route of the plan: it carries the identifier of the
    route and the value of the route in that category, and this value lies
    more than two standard deviations from the mean of the category.  The
    report has a warning exactly when it has an outlier, and never more than
    one. *)
Theorem detectPriceOutliers_report (routes : list Route) :
  let detection := detectPriceOutliers routes in
  (forall o, In o (outliers detection) ->
     In (category o) categories
     /\ exists r,
          In r routes /\ routeId o = id r
          /\ value o = categoryValue (category o) r
          /\ (zScoreOf
                (calculateStatistics
                   (map (categoryValue (category o)) routes))
                (value o) >? Fin 2)%num = true)
  /\ (detectionWarnings detection = [] <-> outliers detection = [])
  /\ (List.length (detectionWarnings detection) <= 1)%nat.
Proof.
  cbv zeta. unfold detectPriceOutliers.
  destruct (List.length routes <? 2)%nat;
    [cbn; repeat split; try contradiction; lia |].
  cbn [outliers detectionWarnings]. split; [| split].
  - intros o Ho. apply in_flat_map in Ho. destruct Ho as (c & Hc & Ho).
    pose proof (categoryOutliers_category _ _ _ Ho) as E.
    split; [now rewrite E |].
    unfold categoryOutliers in Ho. apply in_flat_map in Ho.
    destruct Ho as (r & Hr & Ho).
    destruct (Num.gtb _ _) eqn:Z; [| destruct Ho].
    destruct Ho as [<- | []]. exists r. cbn [routeId value category].
    repeat split; auto.
  - destruct (flat_map (categoryOutliers routes) categories);
      cbn; split; auto; discriminate.
  - destruct (0 <? _)%nat; simpl; lia.
Qed.

(** *** The country multiplier *)

Lemma firstCountry_in (lowerDestination : string)
  (entries : list (string * list string)) :
  In (firstCountry lowerDestination entries)
     (map fst entries ++ ["default"%string]).
Proof.
  induction entries as [| [c keywords] rest IH]; cbn [firstCountry map app].
  - now left.
  - destruct (existsb _ keywords); [now left | now right].
Qed.

(** X29.  Whatever the destination, the validator scales its price bands by
    a multiplier of its table: [extractCountry] resolves to a country that
    has one, the multiplier lies between 0.3 and 1.5, and it is 0.8 when the
    destination names none of the known places. *)
Theorem country_multiplier_range (destination : string) :
  let c := extractCountry destination in
  exists k : R,
    Str.lookup c countryMultipliers = Some (Fin k)
    /\ Num.orElse (Str.lookup c countryMultipliers) (Fin 0.8) = Fin k
    /\ 0.3 <= k <= 1.5
    /\ (c = "default"%string -> k = 0.8)
    /\ (c = "default"%string
        <-> forall entry keyword,
              In entry countryKeywords -> In keyword (snd entry) ->
              Str.includes (Str.toLowerCase destination) keyword = false).
Proof.
  cbv zeta. unfold extractCountry.
  assert (Hdefault :
    forall l entries,
      ~ In "default"%string (map fst entries) ->
      (firstCountry l entries = "default"%string
       <-> forall entry keyword,
             In entry entries -> In keyword (snd entry) ->
             Str.includes l keyword = false)).
  { intros l entries. induction entries as [| [c keywords] rest IH];
      cbn [firstCountry map In]; intros Hnot.
    - split; [intros _ ? ? [] | reflexivity].
    - destruct (existsb _ keywords) eqn:E.
      + split; [intros ->; exfalso; apply Hnot; now left |].
        intros H. apply existsb_exists in E. destruct E as (kw & Hkw & Hinc).
        rewrite (H (c, keywords) kw (or_introl eq_refl) Hkw) in Hinc.
        discriminate.
      + rewrite IH by (intros H; apply Hnot; now right). split.
        * intros H entry keyword [<- | Hin] Hkw; [| now apply (H entry)].
          cbn [snd] in Hkw.
          destruct (Str.includes l keyword) eqn:I; [| reflexivity].
          assert (existsb (fun keyword => Str.includes l keyword) keywords
                  = true)
            by (apply existsb_exists; eauto).
          congruence.
        * intros H entry keyword Hin. apply H. now right. }
  pose proof (firstCountry_in (Str.toLowerCase destination) countryKeywords)
    as Hin.
  set (c := firstCountry (Str.toLowerCase destination) countryKeywords) in *.
  assert (Hk : exists k : R,
             Str.lookup c countryMultipliers = Some (Fin k)
             /\ 0.3 <= k <= 1.5 /\ (c = "default"%string -> k = 0.8)).
  { cbn [countryKeywords map fst app In] in Hin.
    repeat (destruct Hin as [<- | Hin];
            [eexists; split; [reflexivity |];
             split; [lra | try discriminate; reflexivity] |]).
    contradiction. }
  destruct Hk as (k & Hl & Hrange & Hd).
  exists k. split; [exact Hl |]. split.
  - rewrite Hl. unfold Num.orElse, Num.truthy.
    rewrite Reqb_false by lra. reflexivity.
  - split; [exact Hrange |]. split; [exact Hd |].
    apply Hdefault. cbn. intuition discriminate.
Qed.

End PriceFacts.

Lemma validateRoute_validity_witness :
  PriceValidation.isValid
    (PriceValidation.activityCheck
       (PriceValidation.validateRoute (host := Examples.exampleHost)
          (Examples.route 1 1000 600 300 100) (Fin 2000) (Fin 6) (Fin 1)
          (Fin 1.1) "mid-range"))
  = true.
Proof.
  refine (proj2 (proj2
    (@validateRoute_validity Examples.exampleHost
       (Examples.route 1 1000 600 300 100) (Fin 2000) (Fin 6) (Fin 1)
       1.1 "mid-range" eq_refl _))).
  lra.
Defined.

Lemma validateBudgetFeasibility_quiet_witness :
  exists c,
    totalCost
      (PriceValidation.cheapest (Examples.route 1 1200 700 400 100)
         [Examples.route 2 1500 900 450 150])
    = Fin c.
Proof.
  destruct (@validateBudgetFeasibility_quiet Examples.exampleHost
              (Examples.route 1 1200 700 400 100)
              [Examples.route 2 1500 900 450 150] 2000)
    as (c & H & _).
  - lra.
  - intros r [<- | [<- | []]]; eexists; reflexivity.
  - exists c. exact H.
Defined.

Lemma validation_survives_rate_outage_witness :
  PriceValidation.errorDetail
    (PriceValidation.validationDetails
       (PriceValidation.validateTravelPlan (host := Examples.exampleHost)
          (Throw "All currency APIs unavailable") (Examples.plan [])
          (Examples.paris (Fin 2000) "EUR")))
  = None.
Proof.
  destruct (@validation_survives_rate_outage Examples.exampleHost
              "All currency APIs unavailable" (Examples.plan [])
              (Examples.paris (Fin 2000) "EUR") 2000
              (or_intror (or_introl eq_refl)) eq_refl)
    as (usd & _ & _ & _ & H).
  exact H.
Defined.
